(** * BaseTrainer: the training orchestrator of src/python/src/basetrainer.py

    A shallow embedding of the control logic of [BaseTrainer]: construction,
    the gradient-accumulation loop [train_loop], the evaluation loop
    [test_loop], the epoch/resume loop [train] and the instrumentation
    cadence [write_batch_statistics], with the two image summaries it calls.

    Python integers are [Z] ([//] and [%] are floor division and floor
    modulo, as [Z.div] and [Z.modulo], and raise on a zero divisor).  Floating
    point scalars (0-dim tensors and Python floats) are values of an abstract
    carrier [F] with uninterpreted operations: no algebraic law is assumed of
    them, so every equation proved below is an equation between the very
    computations the code performs, in the order it performs them.

    Every call that [train] and the methods it runs make on something the
    class does not define is recorded, in program order, in a trace of
    events: the loss hooks of the subclass, softmax and the F1 metric, the
    progress bar, the backward pass, the optimizer, the scaler, the summary
    writer, the checkpoint gateway, the initialisation hook and stdout.  Each
    such call is taken to return.  Construction is modelled by its outcome:
    the lines it prints and the collaborators it creates are not traced. *)

From Stdlib Require Import ZArith List Bool String QArith Lia.
Import ListNotations.
Local Open Scope Z_scope.

Set Implicit Arguments.

(** ** Python primitives *)

Inductive exn : Type :=
| ZeroDivisionError
| ValueError.

Inductive result (A : Type) : Type :=
| Ok (a : A)
| Raise (e : exn).

Arguments Ok {A} a.
Arguments Raise {A} e.

(** [a // b] on integers. *)
Definition py_floordiv (a b : Z) : result Z :=
  if b =? 0 then Raise ZeroDivisionError else Ok (a / b).

(** [a % b] on integers. *)
Definition py_mod (a b : Z) : result Z :=
  if b =? 0 then Raise ZeroDivisionError else Ok (a mod b).

(** [a; a+1; ...], [n] elements. *)
Fixpoint zrange (a : Z) (n : nat) : list Z :=
  match n with
  | O => []
  | S n' => a :: zrange (a + 1) n'
  end.

(** [range(a, b)]. *)
Definition range (a b : Z) : list Z := zrange a (Z.to_nat (b - a)).

Fixpoint enumerate_from {A : Type} (i : Z) (l : list A) : list (Z * A) :=
  match l with
  | [] => []
  | x :: l' => (i, x) :: enumerate_from (i + 1) l'
  end.

(** [enumerate(l)]. *)
Definition enumerate {A : Type} (l : list A) : list (Z * A) := enumerate_from 0 l.

(** [len(l)]. *)
Definition len {A : Type} (l : list A) : Z := Z.of_nat (List.length l).

(** [sub in s] on strings. *)
Fixpoint py_in (sub s : string) : bool :=
  String.prefix sub s ||
  match s with
  | EmptyString => false
  | String _ s' => py_in sub s'
  end.

(** [x is not None]. *)
Definition is_not_None {A : Type} (x : option A) : bool :=
  match x with
  | Some _ => true
  | None => false
  end.

(** ** Floating-point scalars *)

(** The operations the trainer applies to float scalars.  [of_int] is the
    conversion of a Python integer ([float(n)], [torch.tensor(n)]). *)
Class Float (F : Type) : Type := {
  fadd : F -> F -> F;
  fdiv : F -> F -> F;
  of_int : Z -> F
}.

(** Exact rational arithmetic.  It is one instance of the interface, used
    only to run the definitions on the concrete scenarios below: it does not
    round, and [Qdiv] by zero is [0] where a tensor division gives an
    infinity or a NaN, so its numbers are those of the closed forms read as
    real numbers, not the bits a float32 or binary64 run returns.  No general
    theorem depends on it, and no scenario divides by zero with it. *)
#[export] Instance Q_Float : Float Q := {
  fadd := Qplus;
  fdiv := Qdiv;
  of_int := inject_Z
}.

Section Numbers.
Variable F : Type.
Context {float_ops : Float F}.

(** [0.] *)
Definition fzero : F := of_int 0.

(** The three kinds of number the trainer handles: Python [int], Python
    [float] and 0-dim torch tensors.  [self.f1] and [test_loss] start as the
    integer [0] and are promoted by the first [+=]. *)
Inductive pynum : Type :=
| PyInt (n : Z)
| PyFloat (x : F)
| Tensor (x : F).

Definition to_float (v : pynum) : F :=
  match v with
  | PyInt n => of_int n
  | PyFloat x => x
  | Tensor x => x
  end.

(** [a + b]: a tensor operand makes the result a tensor, otherwise a float
    operand makes it a float. *)
Definition py_add (a b : pynum) : pynum :=
  match a, b with
  | PyInt m, PyInt n => PyInt (m + n)
  | Tensor _, _ | _, Tensor _ => Tensor (fadd (to_float a) (to_float b))
  | _, _ => PyFloat (fadd (to_float a) (to_float b))
  end.

(** [v / n] for a Python integer [n].  Python numbers raise on [n = 0];
    tensor division is total (IEEE semantics). *)
Definition py_truediv (v : pynum) (n : Z) : result pynum :=
  match v with
  | Tensor x => Ok (Tensor (fdiv x (of_int n)))
  | _ => if n =? 0 then Raise ZeroDivisionError
         else Ok (PyFloat (fdiv (to_float v) (of_int n)))
  end.

(** [t.item()] *)
Definition item (t : F) : pynum := PyFloat t.
End Numbers.

Arguments PyInt {F} n.
Arguments fzero {F float_ops}.

(** ** Data model *)

(** A named parameter of the model as [write_batch_statistics] looks at it:
    its name and whether [param.grad is not None]. *)
Record parameter : Type := {
  param_name : string;
  has_grad : bool
}.

Section Model.
Variable F : Type.
Context {float_ops : Float F}.

(** Tensors and datasets are opaque to the orchestrator. *)
Variable T : Type.
Variable Dataset : Type.

(** A micro-batch: the six aligned tensors a data loader yields. *)
Record batch : Type := {
  image : T;
  point_labels : T;
  warped_image : T;
  warped_point_labels : T;
  valid_mask : T;
  homographies : T
}.

(** [len(dataset)], and the micro-batches a [DataLoader] over a dataset
    yields in one pass, for a given batch size.  Shuffling only permutes the
    samples; the orchestrator never looks inside a micro-batch. *)
Variable dataset_len : Dataset -> Z.
Variable load : Dataset -> Z -> list batch.

(** [torch.nn.Softmax(dim=1)] and the [torchmetrics.F1] forward pass. *)
Variable softmax : T -> T.
Variable f1_metric : T -> T -> F.

(** The diagnostic snapshot: the seven fields [self.last_*], [None] until a
    loss hook stores a tensor in them. *)
Record Snapshot : Type := {
  last_image : option T;
  last_prob_map : option T;
  last_labels : option T;
  last_warped_image : option T;
  last_warped_prob_map : option T;
  last_warped_labels : option T;
  last_valid_mask : option T
}.

Definition no_snapshot : Snapshot :=
  {| last_image := None; last_prob_map := None; last_labels := None;
     last_warped_image := None; last_warped_prob_map := None;
     last_warped_labels := None; last_valid_mask := None |}.

Definition set_last_image (v : option T) (s : Snapshot) : Snapshot :=
  {| last_image := v; last_prob_map := last_prob_map s; last_labels := last_labels s;
     last_warped_image := last_warped_image s;
     last_warped_prob_map := last_warped_prob_map s;
     last_warped_labels := last_warped_labels s;
     last_valid_mask := last_valid_mask s |}.

Definition set_last_prob_map (v : option T) (s : Snapshot) : Snapshot :=
  {| last_image := last_image s; last_prob_map := v; last_labels := last_labels s;
     last_warped_image := last_warped_image s;
     last_warped_prob_map := last_warped_prob_map s;
     last_warped_labels := last_warped_labels s;
     last_valid_mask := last_valid_mask s |}.

(** What the orchestrator is polymorphic over.  The loss hooks a concrete
    detector trainer overrides return a loss (and, for evaluation, the
    logits) and may store tensors in the diagnostic snapshot; the snapshot is
    all of [self] they write.  The control flow of the orchestrator does not
    depend on the values they return, so they are taken as arbitrary
    functions of the micro-batch.  [named_parameters g] is what
    [self.model.named_parameters()] yields at the reporting tick keyed [g]. *)
Class Strategy : Type := {
  train_loss_fn : batch -> F;
  test_loss_fn : batch -> F * T;
  train_snapshot : batch -> Snapshot -> Snapshot;
  test_snapshot : batch -> Snapshot -> Snapshot;
  named_parameters : Z -> list parameter
}.
Context {strategy : Strategy}.

Record Settings : Type := {
  learning_rate : F;
  epochs : Z;
  batch_size : Z;
  batch_size_divider : Z;
  use_amp : bool;
  data_loader_num_workers : Z;
  write_statistics : bool
}.

(** The fields of [self] the control logic reads or writes.  The model, the
    optimizer, the scaler and the summary writer are the collaborators the
    events are calls on. *)
Record trainer : Type := {
  settings : Settings;
  self_epochs : Z;
  f1 : pynum F;
  global_train_index : Z;
  snapshot : Snapshot;
  train_dataloader : list batch;
  test_dataloader : list batch
}.

Definition set_f1 (v : pynum F) (self : trainer) : trainer :=
  {| settings := settings self; self_epochs := self_epochs self;
     f1 := v; global_train_index := global_train_index self;
     snapshot := snapshot self;
     train_dataloader := train_dataloader self;
     test_dataloader := test_dataloader self |}.

Definition set_global_train_index (g : Z) (self : trainer) : trainer :=
  {| settings := settings self; self_epochs := self_epochs self;
     f1 := f1 self; global_train_index := g;
     snapshot := snapshot self;
     train_dataloader := train_dataloader self;
     test_dataloader := test_dataloader self |}.

Definition set_snapshot (s : Snapshot) (self : trainer) : trainer :=
  {| settings := settings self; self_epochs := self_epochs self;
     f1 := f1 self; global_train_index := global_train_index self;
     snapshot := s;
     train_dataloader := train_dataloader self;
     test_dataloader := test_dataloader self |}.

(** Calls on the external collaborators, in program order.  An image event
    carries the tensors the image is rendered from: the pixels are computed
    by numpy, cv2 and the point helpers of [src.netutils]. *)
Inductive event : Type :=
| PrintLine (msg : string) (value : option (pynum F))
| PrintEpoch (epoch : Z)
| Tqdm (total : Z)
| TrainLossFn (b : batch)
| TestLossFn (b : batch)
| Softmax (logits : T)
| F1Metric (prediction labels : T)
| Backward (scaled : bool) (batch_index : Z) (loss : F)
| ScalerStep
| ScalerUpdate
| OptimizerStep
| ZeroGrad
| AddScalar (tag : string) (value : pynum F) (step : Z)
| AddHistogram (tag : string) (step : Z)
| AddImage (tag : string) (sources : list (option T)) (step : Z)
| AddGraph
| CreateOptimizer (lr : F)
| LoadLastCheckpoint (found : Z)
| TrainInit (check_point_loaded : bool)
| SaveCheckpoint (epoch : Z).

(** ** The trainer monad: state, exceptions and the event trace.

    An exception keeps the state and the events produced before it. *)
Definition M (A : Type) : Type := trainer -> result A * trainer * list event.

Definition ret {A : Type} (a : A) : M A := fun self => (Ok a, self, []).

Definition bind {A B : Type} (m : M A) (k : A -> M B) : M B :=
  fun self =>
    match m self with
    | (Ok a, self1, t1) =>
        match k a self1 with
        | (r, self2, t2) => (r, self2, t1 ++ t2)
        end
    | (Raise e, self1, t1) => (Raise e, self1, t1)
    end.

Definition lift {A : Type} (r : result A) : M A := fun self => (r, self, []).
Definition emit (e : event) : M unit := fun self => (Ok tt, self, [e]).
Definition gets {A : Type} (f : trainer -> A) : M A := fun self => (Ok (f self), self, []).
Definition modify (f : trainer -> trainer) : M unit := fun self => (Ok tt, f self, []).
Definition when (c : bool) (m : M unit) : M unit := if c then m else ret tt.

(** The outcome [o], after the events [t]. *)
Definition preceded_by {A : Type} (t : list event) (o : result A * trainer * list event)
  : result A * trainer * list event :=
  (fst (fst o), snd (fst o), t ++ snd o).

Notation "x <- m ;; k" := (bind m (fun x => k))
  (at level 61, m at next level, right associativity).
Notation "m ;; k" := (bind m (fun _ => k))
  (at level 61, right associativity).

(** [for x in xs: l = body x l], threading the loop's local variables. *)
Fixpoint for_each {A L : Type} (body : A -> L -> M L) (xs : list A) (l : L) : M L :=
  match xs with
  | [] => ret l
  | x :: xs' => l' <- body x l ;; for_each body xs' l'
  end.

(** ** [__init__] *)

(** [torch.utils.data.DataLoader(dataset, batch_size=..., shuffle=True,
    num_workers=...)]: the constructor raises [ValueError] on a negative
    worker count, on an empty dataset (the random sampler that [shuffle=True]
    asks for needs a positive number of samples) and, when it builds its
    batch sampler, on a batch size that is not a positive integer.  A loader
    is represented by the micro-batches it yields. *)
Definition DataLoader (dataset : Dataset) (batch_size num_workers : Z)
  : result (list batch) :=
  if num_workers <? 0 then Raise ValueError
  else if dataset_len dataset <=? 0 then Raise ValueError
  else if batch_size <=? 0 then Raise ValueError
  else Ok (load dataset batch_size).

Definition __init__ (settings : Settings) (train_dataset test_dataset : Dataset)
  : result trainer :=
  match py_floordiv (batch_size settings) (batch_size_divider settings) with
  | Raise e => Raise e
  | Ok batch_size =>
      match DataLoader train_dataset batch_size (data_loader_num_workers settings) with
      | Raise e => Raise e
      | Ok train_dataloader =>
          match DataLoader test_dataset batch_size (data_loader_num_workers settings) with
          | Raise e => Raise e
          | Ok test_dataloader =>
              Ok {| settings := settings;
                    self_epochs := epochs settings;
                    f1 := PyInt 0;
                    global_train_index := 0;
                    snapshot := no_snapshot;
                    train_dataloader := train_dataloader;
                    test_dataloader := test_dataloader |}
          end
      end
  end.

(** ** [add_image_summary], [add_mask_image_summary] *)

(** Each renders one image and writes it under the tag
    [Detector <name> result/train], keyed by the global step. *)
Definition add_image_summary (name : string) (image prob_map labels : option T)
  : M unit :=
  g <- gets global_train_index ;;
  emit (AddImage (String.append "Detector " (String.append name " result/train"))
          [image; prob_map; labels] g).

Definition add_mask_image_summary (name : string) (mask labels prob_map : option T)
  : M unit :=
  g <- gets global_train_index ;;
  emit (AddImage (String.append "Detector " (String.append name " result/train"))
          [mask; labels; prob_map] g).

(** ** [write_batch_statistics] *)

(** The body of the loop over [self.model.named_parameters()]. *)
Definition add_histograms (p : parameter) (_ : unit) : M unit :=
  when (has_grad p && negb (py_in "bn" (param_name p)))
    (g <- gets global_train_index ;;
     emit (AddHistogram (String.append "params/" (param_name p)) g) ;;
     g <- gets global_train_index ;;
     emit (AddHistogram (String.append "grads/" (param_name p)) g)).

Definition write_batch_statistics (loss : F) (batch_index : Z) : M unit :=
  if batch_index mod 100 =? 0 then
    let loss_value := item loss in
    emit (PrintLine "loss" (Some loss_value)) ;;
    g <- gets global_train_index ;;
    emit (AddScalar "Loss/train" loss_value g) ;;
    g <- gets global_train_index ;;
    for_each add_histograms (named_parameters g) tt ;;
    s <- gets snapshot ;;
    when (is_not_None (last_image s))
      (add_image_summary "normal" (last_image s) (last_prob_map s) (last_labels s)) ;;
    s <- gets snapshot ;;
    when (is_not_None (last_warped_image s))
      (add_image_summary "warped" (last_warped_image s) (last_warped_prob_map s)
         (last_warped_labels s) ;;
       add_mask_image_summary "mask" (last_valid_mask s) (last_warped_labels s)
         (last_warped_prob_map s)) ;;
    g <- gets global_train_index ;;
    modify (set_global_train_index (g + 1))
  else ret tt.

(** ** [train_loop] *)

(** The loop's local variables. *)
Record train_locals : Type := {
  train_loss : F;
  batch_loss : F;
  real_batch_index : Z
}.

(** One iteration of the loop over [enumerate(tqdm(self.train_dataloader))]. *)
Definition train_step (ib : Z * batch) (l : train_locals) : M train_locals :=
  let (batch_index, b) := ib in
  d <- gets (fun self => batch_size_divider (settings self)) ;;
  let divider := of_int d in
  amp <- gets (fun self => use_amp (settings self)) ;;
  emit (TrainLossFn b) ;;
  modify (fun self => set_snapshot (train_snapshot b (snapshot self)) self) ;;
  let loss := train_loss_fn b in
  let loss := fdiv loss divider in
  let train_loss := fadd (train_loss l) loss in
  let batch_loss := fadd (batch_loss l) loss in
  emit (Backward amp batch_index loss) ;;
  r <- lift (py_mod (batch_index + 1) d) ;;
  n <- gets (fun self => len (train_dataloader self)) ;;
  if (r =? 0) || (batch_index + 1 =? n) then
    ws <- gets (fun self => write_statistics (settings self)) ;;
    when ws (write_batch_statistics batch_loss (real_batch_index l)) ;;
    (if amp then emit ScalerStep ;; emit ScalerUpdate else emit OptimizerStep) ;;
    emit ZeroGrad ;;
    ret {| train_loss := train_loss;
           batch_loss := fzero;
           real_batch_index := real_batch_index l + 1 |}
  else
    ret {| train_loss := train_loss;
           batch_loss := batch_loss;
           real_batch_index := real_batch_index l |}.

Definition train_loop : M (pynum F) :=
  bs <- gets train_dataloader ;;
  emit (Tqdm (len bs)) ;;
  l <- for_each train_step (enumerate bs)
         {| train_loss := fzero; batch_loss := fzero; real_batch_index := 0 |} ;;
  lift (py_truediv (item (train_loss l)) (real_batch_index l)).

(** ** [test_loop] *)

Record test_locals : Type := {
  test_loss : pynum F;
  batches_num : Z
}.

Definition test_step (ib : Z * batch) (l : test_locals) : M test_locals :=
  let (batch_index, b) := ib in
  emit (TestLossFn b) ;;
  modify (fun self => set_snapshot (test_snapshot b (snapshot self)) self) ;;
  let (loss_value, logits) := test_loss_fn b in
  emit (Softmax logits) ;;
  let softmax_result := softmax logits in
  emit (F1Metric softmax_result (point_labels b)) ;;
  d <- gets (fun self => batch_size_divider (settings self)) ;;
  modify (fun self =>
    set_f1 (py_add (f1 self)
              (Tensor (fdiv (f1_metric softmax_result (point_labels b)) (of_int d))))
           self) ;;
  let loss_value := fdiv loss_value (of_int d) in
  let test_loss := py_add (test_loss l) (item loss_value) in
  r <- lift (py_mod (batch_index + 1) d) ;;
  n <- gets (fun self => len (train_dataloader self)) ;;
  if (r =? 0) || (batch_index + 1 =? n) then
    ret {| test_loss := test_loss; batches_num := batches_num l + 1 |}
  else
    ret {| test_loss := test_loss; batches_num := batches_num l |}.

Definition test_loop : M (pynum F * Z) :=
  bs <- gets test_dataloader ;;
  emit (Tqdm (len bs)) ;;
  l <- for_each test_step (enumerate bs) {| test_loss := PyInt 0; batches_num := 0 |} ;;
  test_loss <- lift (py_truediv (test_loss l) (batches_num l)) ;;
  ret (test_loss, batches_num l).

(** ** [train] *)

(** The body of the loop over epochs. *)
Definition train_epoch (epoch : Z) (_ : unit) : M unit :=
  emit (PrintEpoch epoch) ;;
  train_loss <- train_loop ;;
  emit (PrintLine "Train Loss" (Some train_loss)) ;;
  ws <- gets (fun self => write_statistics (settings self)) ;;
  when ws (emit (AddScalar "Loss/train" train_loss epoch)) ;;
  modify (set_f1 (PyInt 0)) ;;
  modify (fun self => set_snapshot (set_last_image None (snapshot self)) self) ;;
  modify (fun self => set_snapshot (set_last_prob_map None (snapshot self)) self) ;;
  tb <- test_loop ;;
  let (test_loss, batches_num) := tb : pynum F * Z in
  f <- gets f1 ;;
  f <- lift (py_truediv f batches_num) ;;
  modify (set_f1 f) ;;
  emit (PrintLine "Test Loss" (Some test_loss)) ;;
  emit (PrintLine "Test F1" (Some f)) ;;
  ws <- gets (fun self => write_statistics (settings self)) ;;
  when ws (emit (AddScalar "Loss/test" test_loss epoch) ;;
           f <- gets f1 ;;
           emit (AddScalar "F1/test" f epoch)) ;;
  emit (SaveCheckpoint epoch).

(** [prev_epoch] is what [load_last_checkpoint] returned: the last saved
    epoch, or a negative value when there is no checkpoint. *)
Definition train (prev_epoch : Z) : M unit :=
  emit AddGraph ;;
  lr <- gets (fun self => learning_rate (settings self)) ;;
  emit (CreateOptimizer lr) ;;
  emit (LoadLastCheckpoint prev_epoch) ;;
  let check_point_loaded := 0 <=? prev_epoch in
  let start_epoch := if 0 <=? prev_epoch then prev_epoch + 1 else 0 in
  e <- gets self_epochs ;;
  let epochs_num := start_epoch + e in
  emit (TrainInit check_point_loaded) ;;
  modify (set_global_train_index 0) ;;
  for_each train_epoch (range start_epoch epochs_num) tt.

End Model.

Arguments no_snapshot {T}.
Arguments Tqdm {F T} total.
Arguments ScalerStep {F T}.
Arguments ScalerUpdate {F T}.
Arguments OptimizerStep {F T}.
Arguments ZeroGrad {F T}.
Arguments AddHistogram {F T} tag step.
Arguments AddImage {F T} tag sources step.
Arguments AddGraph {F T}.
Arguments PrintEpoch {F T} epoch.
Arguments PrintLine {F T} msg value.
Arguments Backward {F T} scaled batch_index loss.
Arguments AddScalar {F T} tag value step.
Arguments CreateOptimizer {F T} lr.
Arguments TrainLossFn {F T} b.
Arguments TestLossFn {F T} b.
Arguments Softmax {F T} logits.
Arguments F1Metric {F T} prediction labels.
Arguments LoadLastCheckpoint {F T} found.
Arguments TrainInit {F T} check_point_loaded.
Arguments SaveCheckpoint {F T} epoch.
Arguments train_loop {F float_ops T strategy} _.
Arguments train_step {F float_ops T strategy} ib l _.
Arguments test_step {F float_ops T} softmax f1_metric {strategy} ib l _.
Arguments train_epoch {F float_ops T} softmax f1_metric {strategy} epoch _ _.

(** * Specification vocabulary *)

(** Micro-batch [i] closes an accumulation group, for divider [d] and a
    loader of [n] micro-batches. *)
Definition closes (d n i : Z) : bool := ((i + 1) mod d =? 0) || (i + 1 =? n).

(** The indices among the micro-batches [0 .. m-1] at which a group closes. *)
Definition closing (d n m : Z) : list Z := filter (closes d n) (range 0 m).

(** Commit [k] of an epoch is a reporting tick. *)
Definition is_tick (k : Z) : bool := k mod 100 =? 0.

Section Vocabulary.
Variable F : Type.
Context {float_ops : Float F}.
Variable T : Type.
Variable softmax : T -> T.
Variable f1_metric : T -> T -> F.
Context {strategy : Strategy F T}.

(** The loss of a micro-batch after normalisation by the divider. *)
Definition norm_loss (d : Z) (b : batch T) : F := fdiv (train_loss_fn b) (of_int d).

(** [acc + x1 + x2 + ...], added left to right as the loops do. *)
Definition sum_from (acc : F) (xs : list F) : F := fold_left fadd xs acc.

(** The snapshot after the loss hooks have run on the micro-batches [bs], in
    order. *)
Definition train_snapshots (bs : list (batch T)) (s : Snapshot T) : Snapshot T :=
  fold_left (fun acc b => train_snapshot b acc) bs s.

Definition test_snapshots (bs : list (batch T)) (s : Snapshot T) : Snapshot T :=
  fold_left (fun acc b => test_snapshot b acc) bs s.

(** The snapshot once the training hook has run on micro-batch [i] of an
    epoch that [self] starts. *)
Definition snapshot_at (self : trainer F T) (i : Z) : Snapshot T :=
  train_snapshots (firstn (Z.to_nat (i + 1)) (train_dataloader self)) (snapshot self).

(** The histograms of a reporting tick: the values and the gradients of
    every parameter that has a gradient and no [bn] in its name. *)
Definition histogram_events (g : Z) : list (event F T) :=
  flat_map
    (fun p =>
       if has_grad p && negb (py_in "bn" (param_name p))
       then [AddHistogram (String.append "params/" (param_name p)) g;
             AddHistogram (String.append "grads/" (param_name p)) g]
       else [])
    (named_parameters g).

(** The images of a reporting tick: the normal snapshot when there is one,
    the warped snapshot and its mask when there is one. *)
Definition image_events (s : Snapshot T) (g : Z) : list (event F T) :=
  (if is_not_None (last_image s)
   then [AddImage "Detector normal result/train"
           [last_image s; last_prob_map s; last_labels s] g]
   else [])
  ++
  (if is_not_None (last_warped_image s)
   then [AddImage "Detector warped result/train"
           [last_warped_image s; last_warped_prob_map s; last_warped_labels s] g;
         AddImage "Detector mask result/train"
           [last_valid_mask s; last_warped_labels s; last_warped_prob_map s] g]
   else []).

(** The instrumentation of one reporting tick, keyed by step [g], with the
    snapshot [s] at hand. *)
Definition report_events (loss : F) (g : Z) (s : Snapshot T) : list (event F T) :=
  [PrintLine "loss" (Some (item loss)); AddScalar "Loss/train" (item loss) g]
  ++ histogram_events g ++ image_events s g.

(** The optimizer commit of a closed group, followed by the gradient reset. *)
Definition commit_events (amp : bool) : list (event F T) :=
  (if amp then [ScalerStep; ScalerUpdate] else [OptimizerStep]) ++ [ZeroGrad].

(** Reporting ticks among the commits [0 .. k-1]. *)
Definition ticks (ws : bool) (k : Z) : Z := if ws then (k + 99) / 100 else 0.

(** The micro-batches of the group that micro-batch [i] belongs to, up to
    and including [i]. *)
Definition group_batches (d : Z) (bs : list (batch T)) (i : Z) : list (batch T) :=
  firstn (Z.to_nat (i mod d + 1)) (skipn (Z.to_nat (i - i mod d)) bs).

Definition group_loss (d : Z) (bs : list (batch T)) (i : Z) : F :=
  sum_from fzero (map (norm_loss d) (group_batches d bs i)).

(** What [train_loop] does at micro-batch [i], in closed form: [i / d] is the
    number of groups committed before it. *)
Definition micro_trace (self : trainer F T) (ib : Z * batch T) : list (event F T) :=
  let (i, b) := ib in
  let d := batch_size_divider (settings self) in
  let bs := train_dataloader self in
  TrainLossFn b ::
  Backward (use_amp (settings self)) i (norm_loss d b) ::
    if closes d (len bs) i then
      (if write_statistics (settings self) && is_tick (i / d)
       then report_events (group_loss d bs i)
              (global_train_index self + (i / d) / 100) (snapshot_at self i)
       else [])
      ++ commit_events (use_amp (settings self))
    else [].

(** The normalised loss and F1 contributions of an evaluation micro-batch. *)
Definition eval_loss (d : Z) (b : batch T) : F :=
  fdiv (fst (test_loss_fn b)) (of_int d).

Definition eval_f1 (d : Z) (b : batch T) : F :=
  fdiv (f1_metric (softmax (snd (test_loss_fn b))) (point_labels b)) (of_int d).

(** The calls [test_loop] makes at an evaluation micro-batch. *)
Definition eval_trace (b : batch T) : list (event F T) :=
  [TestLossFn b; Softmax (snd (test_loss_fn b));
   F1Metric (softmax (snd (test_loss_fn b))) (point_labels b)].

(** The accumulators of the evaluation loop after the micro-batches [bs]. *)
Definition test_loss_acc (d : Z) (bs : list (batch T)) (v : pynum F) : pynum F :=
  fold_left (fun acc b => py_add acc (item (eval_loss d b))) bs v.

Definition f1_acc (d : Z) (bs : list (batch T)) (v : pynum F) : pynum F :=
  fold_left (fun acc b => py_add acc (Tensor (eval_f1 d b))) bs v.

(** The closed-group counter of the evaluation loop: it tests the boundary
    against the length of the training loader. *)
Definition eval_groups (self : trainer F T) : Z :=
  len (closing (batch_size_divider (settings self))
         (len (train_dataloader self)) (len (test_dataloader self))).

(** The groups a training epoch closes. *)
Definition train_groups (self : trainer F T) : Z :=
  len (closing (batch_size_divider (settings self))
         (len (train_dataloader self)) (len (train_dataloader self))).

(** Neither loop of an epoch raises: the divider is positive, the training
    loader is not empty and the evaluation loop closes a group. *)
Definition runnable (self : trainer F T) : Prop :=
  1 <= batch_size_divider (settings self)
  /\ 1 <= len (train_dataloader self)
  /\ 1 <= eval_groups self.

(** The values an epoch reports. *)
Definition epoch_train_loss (self : trainer F T) : pynum F :=
  PyFloat (fdiv (sum_from fzero
                   (map (norm_loss (batch_size_divider (settings self)))
                      (train_dataloader self)))
                (of_int (train_groups self))).

Definition epoch_test_loss (self : trainer F T) : pynum F :=
  PyFloat (fdiv (sum_from (of_int 0)
                   (map (eval_loss (batch_size_divider (settings self)))
                      (test_dataloader self)))
                (of_int (eval_groups self))).

Definition epoch_f1 (self : trainer F T) : pynum F :=
  Tensor (fdiv (sum_from (of_int 0)
                  (map (eval_f1 (batch_size_divider (settings self)))
                     (test_dataloader self)))
               (of_int (eval_groups self))).

(** The state in which an epoch starts its evaluation pass, when its
    training loop has returned. *)
Definition before_evaluation (self : trainer F T) : trainer F T :=
  set_snapshot
    (set_last_prob_map None
       (set_last_image None (train_snapshots (train_dataloader self) (snapshot self))))
    (set_f1 (PyInt 0)
       (set_global_train_index
          (global_train_index self
           + ticks (write_statistics (settings self)) (train_groups self))
          self)).

(** What an epoch emits before its evaluation pass. *)
Definition training_trace (self : trainer F T) (epoch : Z) : list (event F T) :=
  PrintEpoch epoch ::
  Tqdm (len (train_dataloader self)) ::
  flat_map (micro_trace self) (enumerate (train_dataloader self)) ++
  PrintLine "Train Loss" (Some (epoch_train_loss self)) ::
  (if write_statistics (settings self)
   then [AddScalar "Loss/train" (epoch_train_loss self) epoch] else []).

(** The snapshot an epoch leaves: the training hooks, the reset of the
    normal image and probability map, then the evaluation hooks. *)
Definition epoch_snapshot (self : trainer F T) : Snapshot T :=
  test_snapshots (test_dataloader self)
    (set_last_prob_map None
       (set_last_image None
          (train_snapshots (train_dataloader self) (snapshot self)))).

(** The trace and the final state of an epoch in which nothing raises. *)
Definition epoch_trace (self : trainer F T) (epoch : Z) : list (event F T) :=
  let ws := write_statistics (settings self) in
  PrintEpoch epoch ::
  Tqdm (len (train_dataloader self)) ::
  flat_map (micro_trace self) (enumerate (train_dataloader self)) ++
  PrintLine "Train Loss" (Some (epoch_train_loss self)) ::
  (if ws then [AddScalar "Loss/train" (epoch_train_loss self) epoch] else []) ++
  Tqdm (len (test_dataloader self)) ::
  flat_map eval_trace (test_dataloader self) ++
  PrintLine "Test Loss" (Some (epoch_test_loss self)) ::
  PrintLine "Test F1" (Some (epoch_f1 self)) ::
  (if ws then [AddScalar "Loss/test" (epoch_test_loss self) epoch;
               AddScalar "F1/test" (epoch_f1 self) epoch]
   else []) ++
  [SaveCheckpoint epoch].

Definition epoch_state (self : trainer F T) : trainer F T :=
  set_f1 (epoch_f1 self)
    (set_snapshot (epoch_snapshot self)
       (set_global_train_index
          (global_train_index self
           + ticks (write_statistics (settings self)) (train_groups self))
          self)).

(** Gradient accumulation at micro-batch [i]: its backward pass, then the
    commit when [i] closes a group. *)
Definition accumulation_trace (self : trainer F T) (ib : Z * batch T) : list (event F T) :=
  let (i, b) := ib in
  let d := batch_size_divider (settings self) in
  Backward (use_amp (settings self)) i (norm_loss d b) ::
    if closes d (len (train_dataloader self)) i
    then commit_events (use_amp (settings self))
    else [].

(** *** Observations on traces *)

Definition is_commit (e : event F T) : bool :=
  match e with
  | OptimizerStep | ScalerStep => true
  | _ => false
  end.

(** Calls that touch gradients or the optimizer. *)
Definition is_optimizer_call (e : event F T) : bool :=
  match e with
  | Backward _ _ _ | OptimizerStep | ScalerStep | ScalerUpdate | ZeroGrad => true
  | _ => false
  end.

(** What a reporting tick emits: the printed loss and the writes to the
    summary writer. *)
Definition is_instrumentation (e : event F T) : bool :=
  match e with
  | PrintLine _ _ | AddScalar _ _ _ | AddHistogram _ _ | AddImage _ _ _ => true
  | _ => false
  end.

Definition is_image (e : event F T) : bool :=
  match e with
  | AddImage _ _ _ => true
  | _ => false
  end.

Definition is_histogram (e : event F T) : bool :=
  match e with
  | AddHistogram _ _ => true
  | _ => false
  end.

(** The histograms and the images of a report are transparent to the
    observations below: these read the printed lines, the scalars, the
    gradient calls and the epoch events. *)
Definition unobserved (t : list (event F T)) : Prop :=
  Forall (fun e => is_histogram e = true \/ is_image e = true) t.

(** The micro-batch index being processed when each optimizer commit is
    issued: the index of the latest backward pass. *)
Fixpoint commits_after (last : Z) (tr : list (event F T)) : list Z :=
  match tr with
  | [] => []
  | Backward _ i _ :: tr' => commits_after i tr'
  | OptimizerStep :: tr' | ScalerStep :: tr' => last :: commits_after last tr'
  | _ :: tr' => commits_after last tr'
  end.

Definition closing_indices (tr : list (event F T)) : list Z := commits_after (-1) tr.

(** The step keys of the reporting ticks, one per tick: the step of the
    scalar written right after the line [loss: ...] is printed.  (The epoch
    loss is written under the same tag, keyed by the epoch, after another
    line.) *)
Fixpoint tick_steps_from (armed : bool) (tr : list (event F T)) : list Z :=
  match tr with
  | [] => []
  | PrintLine msg _ :: tr' => tick_steps_from (String.eqb msg "loss") tr'
  | AddScalar _ _ g :: tr' =>
      if armed then g :: tick_steps_from false tr' else tick_steps_from false tr'
  | _ :: tr' => tick_steps_from false tr'
  end.

Definition tick_steps (tr : list (event F T)) : list Z := tick_steps_from false tr.

(** What follows the trace is read as if nothing came before it. *)
Definition settled (tr : list (event F T)) : Prop :=
  forall rest, tick_steps (tr ++ rest) = tick_steps tr ++ tick_steps rest.

(** For each reporting tick, the number of optimizer commits issued before
    it: counted from the announcement of its epoch when [per_epoch] is set,
    over the whole trace otherwise. *)
Fixpoint report_commits_from (per_epoch : bool) (k : Z) (tr : list (event F T)) : list Z :=
  match tr with
  | [] => []
  | PrintEpoch _ :: tr' => report_commits_from per_epoch (if per_epoch then 0 else k) tr'
  | PrintLine msg _ :: tr' =>
      if String.eqb msg "loss" then k :: report_commits_from per_epoch k tr'
      else report_commits_from per_epoch k tr'
  | OptimizerStep :: tr' | ScalerStep :: tr' => report_commits_from per_epoch (k + 1) tr'
  | _ :: tr' => report_commits_from per_epoch k tr'
  end.

Definition report_commits (per_epoch : bool) (tr : list (event F T)) : list Z :=
  report_commits_from per_epoch 0 tr.

(** The commit count [report_commits_from] has reached at the end of a
    trace. *)
Fixpoint commit_clock (per_epoch : bool) (k : Z) (tr : list (event F T)) : Z :=
  match tr with
  | [] => k
  | PrintEpoch _ :: tr' => commit_clock per_epoch (if per_epoch then 0 else k) tr'
  | OptimizerStep :: tr' | ScalerStep :: tr' => commit_clock per_epoch (k + 1) tr'
  | _ :: tr' => commit_clock per_epoch k tr'
  end.

(** The epochs a trace announces, in order. *)
Definition epochs_started (tr : list (event F T)) : list Z :=
  flat_map (fun e => match e with PrintEpoch epoch => [epoch] | _ => [] end) tr.

(** Every printed line [loss: ...] is followed by its scalar: the trace has
    one step key per reporting tick. *)
Definition paired (tr : list (event F T)) : Prop :=
  settled tr
  /\ forall per_epoch k,
       List.length (tick_steps tr) = List.length (report_commits_from per_epoch k tr).

(** Start of an epoch and checkpoint of an epoch. *)
Definition is_epoch_event (e : event F T) : bool :=
  match e with
  | PrintEpoch _ | SaveCheckpoint _ => true
  | _ => false
  end.

(** The epoch events of a run of epochs that all complete. *)
Definition completed (es : list Z) : list (event F T) :=
  flat_map (fun e => [PrintEpoch e; SaveCheckpoint e]) es.

(** *** Trace disciplines of computations *)

(** The computation emits no epoch event. *)
Definition quiet {A : Type} (m : M F T A) : Prop :=
  forall self, filter is_epoch_event (snd (m self)) = [].

(** The computation saves the checkpoint of [epoch] exactly when it returns,
    and emits no other epoch event. *)
Definition saves_on_success {A : Type} (epoch : Z) (m : M F T A) : Prop :=
  forall self,
    filter is_epoch_event (snd (m self)) =
      match fst (fst (m self)) with
      | Ok _ => [SaveCheckpoint epoch]
      | Raise _ => []
      end.

(** The computation keys its reporting ticks by the successive values of the
    global step counter, and advances the counter once per tick. *)
Definition keys_in_order {A : Type} (m : M F T A) : Prop :=
  forall self,
    let tr := snd (m self) in
    tick_steps tr = zrange (global_train_index self) (List.length (tick_steps tr))
    /\ global_train_index (snd (fst (m self)))
       = global_train_index self + len (tick_steps tr)
    /\ settled tr.

End Vocabulary.

Arguments commit_events {F T} amp.
Arguments image_events {F T} s g.
Arguments histogram_events {F T strategy} g.
Arguments report_events {F T strategy} loss g s.
Arguments unobserved {F T} t.
Arguments completed {F T} es.
Arguments is_commit {F T} e.
Arguments is_optimizer_call {F T} e.
Arguments is_instrumentation {F T} e.
Arguments is_image {F T} e.
Arguments is_histogram {F T} e.
Arguments is_epoch_event {F T} e.
Arguments tick_steps {F T} tr.
Arguments tick_steps_from {F T} armed tr.
Arguments settled {F T} tr.
Arguments report_commits {F T} per_epoch tr.
Arguments report_commits_from {F T} per_epoch k tr.
Arguments commit_clock {F T} per_epoch k tr.
Arguments epochs_started {F T} tr.
Arguments paired {F T} tr.
Arguments commits_after {F T} last tr.
Arguments closing_indices {F T} tr.

(** * Concrete scenarios

    The scenarios are run in exact rational arithmetic.  A micro-batch is a
    single number per tensor; the training loss of a micro-batch is its
    [image], the evaluation loss its [image] too, the logits are its
    [warped_image], and the F1 metric is [1] when the prediction equals the
    labels and [0] otherwise.  A dataset is its number of samples, batched
    without dropping the last, partial batch. *)

Definition q_batch (loss prediction labels : Q) : batch Q :=
  {| image := loss; point_labels := labels; warped_image := prediction;
     warped_point_labels := labels; valid_mask := 1%Q; homographies := 1%Q |}.

(** The model of the scenarios: a convolution that has a gradient, a batch
    normalisation that has one too, and a bias that has none. *)
Definition q_parameters : list parameter :=
  [{| param_name := "conv1.weight"; has_grad := true |};
   {| param_name := "bn1.weight"; has_grad := true |};
   {| param_name := "fc.bias"; has_grad := false |}].

(** A training hook that keeps the snapshot of the micro-batch, normal and
    warped, and an evaluation hook that keeps none. *)
#[export] Instance q_strategy : Strategy Q Q := {
  train_loss_fn b := image b;
  test_loss_fn b := (image b, warped_image b);
  train_snapshot b s :=
    {| last_image := Some (image b); last_prob_map := Some (warped_image b);
       last_labels := Some (point_labels b);
       last_warped_image := Some (warped_image b);
       last_warped_prob_map := Some (warped_image b);
       last_warped_labels := Some (warped_point_labels b);
       last_valid_mask := Some (valid_mask b) |};
  test_snapshot b s := s;
  named_parameters g := q_parameters
}.

(** The same losses from hooks that keep no snapshot. *)
Definition q_strategy_plain : Strategy Q Q :=
  {| train_loss_fn := fun b => image b;
     test_loss_fn := fun b => (image b, warped_image b);
     train_snapshot := fun b s => s;
     test_snapshot := fun b s => s;
     named_parameters := fun g => q_parameters |}.

Definition q_softmax (logits : Q) : Q := logits.

Definition q_f1_metric (prediction labels : Q) : Q :=
  if Qeq_bool prediction labels then 1%Q else 0%Q.

Definition q_dataset_len (samples : nat) : Z := Z.of_nat samples.

Definition q_load (samples : nat) (batch_size : Z) : list (batch Q) :=
  repeat (q_batch 1 1 1) (Z.to_nat ((Z.of_nat samples + batch_size - 1) / batch_size)).

Definition q_settings (epochs batch_size divider : Z) (amp ws : bool) : Settings Q :=
  {| learning_rate := (1 # 1000)%Q; epochs := epochs; batch_size := batch_size;
     batch_size_divider := divider; use_amp := amp; data_loader_num_workers := 0;
     write_statistics := ws |}.

(** A trainer over [n] training and [m] evaluation micro-batches of loss
    [1.0] whose predictions match the labels. *)
Definition q_trainer (epochs divider : Z) (amp ws : bool) (step : Z) (n m : nat)
  : trainer Q Q :=
  {| settings := q_settings epochs 8 divider amp ws;
     self_epochs := epochs;
     f1 := Tensor (1 # 2)%Q;
     global_train_index := step;
     snapshot := no_snapshot;
     train_dataloader := repeat (q_batch 1 1 1) n;
     test_dataloader := repeat (q_batch 1 1 1) m |}.

(** Divider 4, ten training micro-batches of loss [1.0]. *)
Definition scenario_ten : trainer Q Q := q_trainer 1 4 false false 0 10 10.

(** Mixed precision, divider 2, three training micro-batches. *)
Definition scenario_amp : trainer Q Q := q_trainer 1 2 true false 0 3 3.

(** An empty training loader. *)
Definition scenario_empty : trainer Q Q := q_trainer 1 4 false true 0 0 4.

(** Statistics on, divider 1, 101 training micro-batches, step counter at 7. *)
Definition scenario_ticks : trainer Q Q := q_trainer 1 1 false true 7 101 1.

(** An evaluation loader shorter than the divider and than the training
    loader. *)
Definition scenario_short_eval : trainer Q Q := q_trainer 1 4 false false 0 10 3.

(** Loaders of different lengths: 5 training and 8 evaluation micro-batches. *)
Definition scenario_mismatch : trainer Q Q := q_trainer 1 4 false false 0 5 8.

(** Divider 2, four micro-batches in each loader, all predictions right. *)
Definition scenario_f1 : trainer Q Q := q_trainer 1 2 false true 0 4 4.

(** A run of two more epochs, resumed with the step counter at 50. *)
Definition scenario_resume : trainer Q Q := q_trainer 2 2 true true 50 3 4.

(** Two epochs of 150 commits each, statistics on. *)
Definition scenario_two_epochs : trainer Q Q := q_trainer 2 1 false true 0 150 1.

(** Batch size 2 with divider 4: a micro-batch size of 0. *)
Definition scenario_settings : Settings Q := q_settings 1 2 4 false false.

(** Batch size 8 with divider 4: a micro-batch size of 2. *)
Definition scenario_valid_settings : Settings Q := q_settings 1 8 4 false false.

(** * Disciplines of the state and of the trace

    Vocabulary for what a computation leaves alone: an invariant of the
    state it runs in, a relation between the state before and the state
    after, and a property of the events it emits. *)

Section Frames.
Variable F : Type.
Variable T : Type.

Definition keeps_at {A : Type} (I : trainer F T -> Prop)
  (R : trainer F T -> trainer F T -> Prop) (P : list (event F T) -> Prop)
  (m : M F T A) (self : trainer F T) : Prop :=
  I self ->
  I (snd (fst (m self))) /\ R self (snd (fst (m self))) /\ P (snd (m self)).

Definition keeps {A : Type} (I : trainer F T -> Prop)
  (R : trainer F T -> trainer F T -> Prop) (P : list (event F T) -> Prop)
  (m : M F T A) : Prop :=
  forall self, keeps_at I R P m self.

(** What makes the three parts compose along [bind]. *)
Record Discipline (R : trainer F T -> trainer F T -> Prop)
  (P : list (event F T) -> Prop) : Prop := {
  discipline_refl : forall s, R s s;
  discipline_trans : forall a b c, R a b -> R b c -> R a c;
  discipline_nil : P [];
  discipline_app : forall t1 t2, P t1 -> P t2 -> P (t1 ++ t2)
}.

Definition any_state (s : trainer F T) : Prop := True.
Definition any_change (s s' : trainer F T) : Prop := True.
Definition any_trace (tr : list (event F T)) : Prop := True.

(** No event of the trace satisfies [p]. *)
Definition none_of (p : event F T -> bool) (tr : list (event F T)) : Prop :=
  filter p tr = [].

(** Only [self.f1] and the diagnostic snapshot may differ. *)
Definition only_f1 (s s' : trainer F T) : Prop :=
  s' = set_f1 (f1 s') (set_snapshot (snapshot s') s).

(** Only [self.global_train_index] and the diagnostic snapshot may differ,
    and the counter does not decrease. *)
Definition only_counter (s s' : trainer F T) : Prop :=
  s' = set_global_train_index (global_train_index s') (set_snapshot (snapshot s') s)
  /\ global_train_index s <= global_train_index s'.

(** The configuration and the loaders are the same. *)
Definition same_config (s s' : trainer F T) : Prop :=
  settings s' = settings s
  /\ self_epochs s' = self_epochs s
  /\ train_dataloader s' = train_dataloader s
  /\ test_dataloader s' = test_dataloader s.

Definition statistics_off (s : trainer F T) : Prop :=
  write_statistics (settings s) = false.

(** Scalars, histograms and images written to the summary writer. *)
Definition is_statistics (e : event F T) : bool :=
  match e with
  | AddScalar _ _ _ | AddHistogram _ _ | AddImage _ _ _ => true
  | _ => false
  end.

(** The calls [train] makes before its first epoch. *)
Definition is_prologue (e : event F T) : bool :=
  match e with
  | AddGraph | CreateOptimizer _ | LoadLastCheckpoint _ | TrainInit _ => true
  | _ => false
  end.

(** The calls of the evaluation loop: the progress bar, the evaluation
    hook, softmax and the metric. *)
Definition is_evaluation_call (e : event F T) : bool :=
  match e with
  | Tqdm _ | TestLossFn _ | Softmax _ | F1Metric _ _ => true
  | _ => false
  end.

End Frames.

Arguments any_state {F T} s.
Arguments only_f1 {F T} s s'.
Arguments only_counter {F T} s s'.
Arguments same_config {F T} s s'.
Arguments statistics_off {F T} s.
Arguments none_of {F T} p tr.
Arguments any_change {F T} s s'.
Arguments any_trace {F T} tr.
Arguments is_statistics {F T} e.
Arguments is_prologue {F T} e.
Arguments is_evaluation_call {F T} e.

Section MoreObservations.
Variable F : Type.
Variable T : Type.

(** The number of backward passes whose gradients each optimizer commit
    applies: those since the previous [zero_grad], or since the start of the
    trace. *)
Fixpoint group_sizes_from (c : Z) (tr : list (event F T)) : list Z :=
  match tr with
  | [] => []
  | Backward _ _ _ :: tr' => group_sizes_from (c + 1) tr'
  | OptimizerStep :: tr' | ScalerStep :: tr' => c :: group_sizes_from c tr'
  | ZeroGrad :: tr' => group_sizes_from 0 tr'
  | _ :: tr' => group_sizes_from c tr'
  end.

Definition group_sizes (tr : list (event F T)) : list Z := group_sizes_from 0 tr.

(** The epochs whose checkpoints a trace saves, in order, and the last of
    them: what a gateway that returns the latest saved epoch reports to the
    next run, [-1] standing for no checkpoint. *)
Definition checkpoints (tr : list (event F T)) : list Z :=
  flat_map (fun e => match e with SaveCheckpoint epoch => [epoch] | _ => [] end) tr.

Definition last_checkpoint (tr : list (event F T)) : Z := last (checkpoints tr) (-1).

End MoreObservations.

(** * Properties *)

Lemma div_succ_closing (d i : Z) :
  1 <= d -> 0 <= i -> (i + 1) mod d = 0 ->
  (i + 1) / d = i / d + 1 /\ i mod d = d - 1.
Proof.
  intros Hd Hi Hm.
  pose proof (Z.div_mod (i + 1) d ltac:(lia)) as E1.
  pose proof (Z.div_mod i d ltac:(lia)) as E2.
  pose proof (Z.mod_pos_bound i d ltac:(lia)) as B2.
  rewrite Hm in E1.
  assert ((i + 1) / d = i / d + 1) by nia.
  split; [assumption|nia].
Qed.

Lemma div_succ_open (d i : Z) :
  1 <= d -> 0 <= i -> (i + 1) mod d <> 0 ->
  (i + 1) / d = i / d /\ (i + 1) mod d = i mod d + 1.
Proof.
  intros Hd Hi Hm.
  pose proof (Z.div_mod (i + 1) d ltac:(lia)) as E1.
  pose proof (Z.div_mod i d ltac:(lia)) as E2.
  pose proof (Z.mod_pos_bound i d ltac:(lia)) as B2.
  pose proof (Z.mod_pos_bound (i + 1) d ltac:(lia)) as B1.
  assert ((i + 1) / d = i / d) by nia.
  split; [assumption|nia].
Qed.

Lemma ticks_succ (k : Z) :
  0 <= k ->
  (k + 1 + 99) / 100 = (k + 99) / 100 + (if k mod 100 =? 0 then 1 else 0)
  /\ (k mod 100 = 0 -> (k + 99) / 100 = k / 100).
Proof.
  intros Hk.
  destruct (Z.eqb_spec (k mod 100) 0); split; intros; Z.div_mod_to_equations; lia.
Qed.

Section Monad.
Variable F : Type.
Variable T : Type.

Lemma bind_emit {B : Type} (e : event F T) (k : unit -> M F T B) (self : trainer F T) :
  bind (emit e) k self =
    (fst (fst (k tt self)), snd (fst (k tt self)), e :: snd (k tt self)).
Proof.
  unfold bind, emit. destruct (k tt self) as [[r s2] t2]. reflexivity.
Qed.

Lemma bind_gets {A B : Type} (f : trainer F T -> A) (k : A -> M F T B)
  (self : trainer F T) :
  bind (gets f) k self = k (f self) self.
Proof.
  unfold bind, gets. destruct (k (f self) self) as [[r s2] t2]. reflexivity.
Qed.

Lemma bind_modify {B : Type} (f : trainer F T -> trainer F T) (k : unit -> M F T B)
  (self : trainer F T) :
  bind (modify f) k self = k tt (f self).
Proof.
  unfold bind, modify. destruct (k tt (f self)) as [[r s2] t2]. reflexivity.
Qed.

Lemma bind_lift_ok {A B : Type} (a : A) (k : A -> M F T B) (self : trainer F T) :
  bind (lift (Ok a)) k self = k a self.
Proof.
  unfold bind, lift. destruct (k a self) as [[r s2] t2]. reflexivity.
Qed.

Lemma bind_ok {A B : Type} (m : M F T A) (k : A -> M F T B) (self s1 : trainer F T)
  (a : A) (t1 : list (event F T)) :
  m self = (Ok a, s1, t1) ->
  bind m k self = (fst (fst (k a s1)), snd (fst (k a s1)), t1 ++ snd (k a s1)).
Proof.
  intros E. unfold bind. rewrite E. destruct (k a s1) as [[r s2] t2]. reflexivity.
Qed.

Lemma run_emit {B : Type} (e : event F T) (k : unit -> M F T B) (self : trainer F T) :
  bind (emit e) k self = preceded_by [e] (k tt self).
Proof.
  unfold bind, emit, preceded_by. destruct (k tt self) as [[r s2] t2]. reflexivity.
Qed.

Lemma run_ok {A B : Type} (m : M F T A) (k : A -> M F T B) (self s1 : trainer F T)
  (a : A) (t1 : list (event F T)) :
  m self = (Ok a, s1, t1) -> bind m k self = preceded_by t1 (k a s1).
Proof.
  intros E. unfold bind, preceded_by. rewrite E.
  destruct (k a s1) as [[r s2] t2]. reflexivity.
Qed.

Lemma run_raise {A B : Type} (m : M F T A) (k : A -> M F T B) (self s1 : trainer F T)
  (e : exn) (t1 : list (event F T)) :
  m self = (Raise e, s1, t1) -> bind m k self = (Raise e, s1, t1).
Proof. intros E. unfold bind. rewrite E. reflexivity. Qed.

Lemma run_when {B : Type} (c : bool) (e : event F T) (k : unit -> M F T B)
  (self : trainer F T) :
  bind (when c (emit e)) k self = preceded_by (if c then [e] else []) (k tt self).
Proof.
  destruct c; [apply run_emit|].
  unfold when, bind, ret, preceded_by. destruct (k tt self) as [[r s2] t2]. reflexivity.
Qed.

Lemma set_global_train_index_same (self : trainer F T) :
  set_global_train_index (global_train_index self) self = self.
Proof. destruct self; reflexivity. Qed.

Lemma set_snapshot_same (self : trainer F T) : set_snapshot (snapshot self) self = self.
Proof. destruct self; reflexivity. Qed.

Lemma set_f1_same (self : trainer F T) : set_f1 (f1 self) self = self.
Proof. destruct self; reflexivity. Qed.

End Monad.

Arguments bind_ok {F T A B} m k {self s1 a t1} _.
Arguments run_ok {F T A B} m k {self s1 a t1} _.
Arguments run_raise {F T A B} m k {self s1 e t1} _.

Section Report.
Variable F : Type.
Context {float_ops : Float F}.
Variable T : Type.
Context {strategy : Strategy F T}.

(** The loop over the named parameters writes two histograms for every
    parameter that passes the guard, and changes nothing. *)
Lemma add_histograms_spec (ps : list parameter) (self : trainer F T) :
  for_each (add_histograms (F:=F) (T:=T)) ps tt self =
    (Ok tt, self,
     flat_map
       (fun p =>
          if has_grad p && negb (py_in "bn" (param_name p))
          then [AddHistogram (String.append "params/" (param_name p))
                  (global_train_index self);
                AddHistogram (String.append "grads/" (param_name p))
                  (global_train_index self)]
          else [])
       ps).
Proof.
  induction ps as [|p ps IH]; [reflexivity|].
  cbn [for_each flat_map].
  assert (E : add_histograms p tt self =
              (Ok tt, self,
               if has_grad p && negb (py_in "bn" (param_name p))
               then [AddHistogram (String.append "params/" (param_name p))
                       (global_train_index self);
                     AddHistogram (String.append "grads/" (param_name p))
                       (global_train_index self)]
               else [])).
  { unfold add_histograms, when.
    destruct (has_grad p && negb (py_in "bn" (param_name p))); reflexivity. }
  rewrite (bind_ok _ _ E), IH. reflexivity.
Qed.

Lemma normal_image_eq (c : bool) (a b l : option T) (self : trainer F T) :
  when c (add_image_summary "normal" a b l) self =
    (Ok tt, self,
     if c then [AddImage "Detector normal result/train" [a; b; l]
                  (global_train_index self)]
     else []).
Proof. destruct c; reflexivity. Qed.

Lemma warped_images_eq (c : bool) (a b l m : option T) (self : trainer F T) :
  when c (bind (add_image_summary "warped" a b l)
            (fun _ => add_mask_image_summary "mask" m l b)) self =
    (Ok tt, self,
     if c then [AddImage "Detector warped result/train" [a; b; l]
                  (global_train_index self);
                AddImage "Detector mask result/train" [m; l; b]
                  (global_train_index self)]
     else []).
Proof. destruct c; reflexivity. Qed.

(** A call of [write_batch_statistics]: nothing off a tick; at a tick, the
    report keyed by the counter, which is then incremented. *)
Lemma write_batch_statistics_eq (loss : F) (k : Z) (self : trainer F T) :
  write_batch_statistics loss k self =
    if is_tick k
    then (Ok tt, set_global_train_index (global_train_index self + 1) self,
          report_events loss (global_train_index self) (snapshot self))
    else (Ok tt, self, []).
Proof.
  unfold write_batch_statistics, is_tick.
  destruct (k mod 100 =? 0); [|reflexivity].
  rewrite bind_emit, bind_gets, bind_emit, bind_gets.
  rewrite (bind_ok _ _ (add_histograms_spec _ self)).
  rewrite bind_gets, (bind_ok _ _ (normal_image_eq _ _ _ _ self)).
  rewrite bind_gets, (bind_ok _ _ (warped_images_eq _ _ _ _ _ self)).
  rewrite bind_gets. unfold modify. cbn [fst snd].
  rewrite app_nil_r. reflexivity.
Qed.

End Report.

Section TrainLoop.
Variable F : Type.
Context {float_ops : Float F}.
Variable T : Type.
Context {strategy : Strategy F T}.

(** One iteration of the training loop, when the divider is not zero. *)
Lemma train_step_eq (self : trainer F T) (i : Z) (b : batch T) (l : train_locals F) :
  let d := batch_size_divider (settings self) in
  let amp := use_amp (settings self) in
  let ws := write_statistics (settings self) in
  let k := real_batch_index l in
  let g := global_train_index self in
  let loss := norm_loss d b in
  let s := train_snapshot b (snapshot self) in
  d <> 0 ->
  train_step (i, b) l self =
    if closes d (len (train_dataloader self)) i then
      (Ok {| train_loss := fadd (train_loss l) loss; batch_loss := fzero;
             real_batch_index := k + 1 |},
       (if ws && is_tick k
        then set_global_train_index (g + 1) (set_snapshot s self)
        else set_snapshot s self),
       TrainLossFn b :: Backward amp i loss ::
         (if ws && is_tick k then report_events (fadd (batch_loss l) loss) g s else [])
         ++ commit_events amp)
    else
      (Ok {| train_loss := fadd (train_loss l) loss; batch_loss := fadd (batch_loss l) loss;
             real_batch_index := k |},
       set_snapshot s self, [TrainLossFn b; Backward amp i loss]).
Proof.
  intros d amp ws k g loss s Hd.
  unfold train_step.
  rewrite !bind_gets, bind_emit, bind_modify, bind_emit.
  fold d amp s. cbn [settings set_snapshot].
  unfold py_mod.
  destruct (Z.eqb_spec d 0) as [|_]; [contradiction|].
  rewrite bind_lift_ok, bind_gets.
  cbn [train_dataloader set_snapshot]. unfold closes.
  destruct (((i + 1) mod d =? 0) || (i + 1 =? len (train_dataloader self)));
    [|reflexivity].
  rewrite bind_gets. cbn [settings set_snapshot]. fold ws.
  unfold when. destruct ws; cbn [andb].
  - pose proof (write_batch_statistics_eq (fadd (batch_loss l) loss) k
                  (set_snapshot s self)) as E.
    destruct (is_tick k); rewrite (bind_ok _ _ E); destruct amp; reflexivity.
  - destruct amp; reflexivity.
Qed.

Lemma open_group_snoc (d : Z) (pre rest : list (batch T)) (b : batch T) :
  1 <= d ->
  let i := len pre in
  group_batches d (pre ++ b :: rest) i = skipn (Z.to_nat (i - i mod d)) pre ++ [b].
Proof.
  intros Hd i. unfold group_batches.
  pose proof (Z.mod_pos_bound i d ltac:(lia)) as Hm.
  assert (Hi : i = Z.of_nat (List.length pre)) by reflexivity.
  pose proof (Z.mod_le i d ltac:(lia) ltac:(lia)) as Hle.
  generalize dependent (i mod d). intros m Hm Hle.
  clearbody i.
  rewrite skipn_app.
  replace (Z.to_nat (i - m) - List.length pre)%nat with 0%nat by lia.
  cbn [skipn].
  rewrite firstn_app.
  rewrite length_skipn.
  replace (Z.to_nat (m + 1) - (List.length pre - Z.to_nat (i - m)))%nat
    with 1%nat by lia.
  rewrite firstn_all2 by (rewrite length_skipn; lia).
  reflexivity.
Qed.

Lemma group_loss_snoc (d : Z) (pre rest : list (batch T)) (b : batch T) :
  1 <= d ->
  let i := len pre in
  group_loss d (pre ++ b :: rest) i =
    fadd (sum_from fzero (map (norm_loss d) (skipn (Z.to_nat (i - i mod d)) pre)))
         (norm_loss d b).
Proof.
  intros Hd i. subst i. unfold group_loss, sum_from.
  rewrite (open_group_snoc pre rest b Hd).
  rewrite map_app, fold_left_app. reflexivity.
Qed.

Lemma train_snapshots_snoc (pre : list (batch T)) (b : batch T) (s : Snapshot T) :
  train_snapshots (pre ++ [b]) s = train_snapshot b (train_snapshots pre s).
Proof. unfold train_snapshots. rewrite fold_left_app. reflexivity. Qed.

(** The snapshot a report at micro-batch [i] finds is the one the hook has
    just written. *)
Lemma snapshot_at_snoc (self : trainer F T) (pre rest : list (batch T)) (b : batch T) :
  train_dataloader self = pre ++ b :: rest ->
  snapshot_at self (len pre) =
    train_snapshot b (train_snapshots pre (snapshot self)).
Proof.
  intros E. unfold snapshot_at. rewrite E.
  replace (Z.to_nat (len pre + 1)) with (List.length pre + 1)%nat by (unfold len; lia).
  rewrite firstn_app_2. cbn [firstn]. apply train_snapshots_snoc.
Qed.

Lemma ticks_step (ws : bool) (k : Z) :
  0 <= k ->
  ticks ws (k + 1) = ticks ws k + (if ws && is_tick k then 1 else 0).
Proof.
  intros Hk. unfold ticks, is_tick. destruct ws; cbn [andb]; [|reflexivity].
  apply (ticks_succ Hk).
Qed.

Lemma ticks_at (ws : bool) (k : Z) :
  0 <= k -> ws && is_tick k = true -> ticks ws k = k / 100.
Proof.
  intros Hk Hw. apply andb_true_iff in Hw as [-> Hm]. apply Z.eqb_eq in Hm.
  unfold ticks. apply (ticks_succ Hk). exact Hm.
Qed.

Section Invariant.
Variable self0 : trainer F T.
Let d := batch_size_divider (settings self0).
Let amp := use_amp (settings self0).
Let ws := write_statistics (settings self0).
Let bs := train_dataloader self0.
Let g0 := global_train_index self0.
Hypothesis Hd : 1 <= d.

(** The state of the loop: the snapshot the hooks have left and the step
    counter after [k] commits. *)
Let state (s : Snapshot T) (k : Z) : trainer F T :=
  set_snapshot s (set_global_train_index (g0 + ticks ws k) self0).

Lemma state_settings (s : Snapshot T) (k : Z) : settings (state s k) = settings self0.
Proof. reflexivity. Qed.

Lemma state_snapshot (s : Snapshot T) (k : Z) : snapshot (state s k) = s.
Proof. reflexivity. Qed.

Lemma state_counter (s : Snapshot T) (k : Z) :
  global_train_index (state s k) = g0 + ticks ws k.
Proof. reflexivity. Qed.

Lemma state_loader (s : Snapshot T) (k : Z) : train_dataloader (state s k) = bs.
Proof. reflexivity. Qed.

Lemma commit_state (s s' : Snapshot T) (k : Z) :
  0 <= k ->
  (if ws && is_tick k
   then set_global_train_index (g0 + ticks ws k + 1) (set_snapshot s' (state s k))
   else set_snapshot s' (state s k))
  = state s' (k + 1).
Proof.
  intros Hk. unfold state. rewrite (ticks_step ws Hk).
  destruct (ws && is_tick k); unfold set_global_train_index, set_snapshot; cbn;
    f_equal; lia.
Qed.

Lemma commit_report (k : Z) (x : F) (s : Snapshot T) :
  0 <= k ->
  (if ws && is_tick k then report_events x (g0 + ticks ws k) s else [])
  = (if ws && is_tick k then report_events x (g0 + k / 100) s else []).
Proof.
  intros Hk. destruct (ws && is_tick k) eqn:E; [|reflexivity].
  rewrite (ticks_at ws Hk E). reflexivity.
Qed.

(** The loop invariant: before micro-batch [i] the loop has committed
    [i / d] groups, the group accumulator holds the losses of the open
    group, the snapshot is the one the hooks have left, and the step counter
    has advanced by the ticks so far. *)
Lemma train_batches_spec (rest : list (batch T)) :
  forall (pre : list (batch T)) (b : batch T) (tl : F),
    bs = pre ++ b :: rest ->
    let i := len pre in
    for_each train_step (enumerate_from i (b :: rest))
      {| train_loss := tl;
         batch_loss := sum_from fzero
                         (map (norm_loss d) (skipn (Z.to_nat (i - i mod d)) pre));
         real_batch_index := i / d |}
      (state (train_snapshots pre (snapshot self0)) (i / d))
    = (Ok {| train_loss := sum_from tl (map (norm_loss d) (b :: rest));
             batch_loss := fzero;
             real_batch_index := (len bs - 1) / d + 1 |},
       state (train_snapshots bs (snapshot self0)) ((len bs - 1) / d + 1),
       flat_map (micro_trace self0) (enumerate_from i (b :: rest))).
Proof.
  induction rest as [|b' rest' IH]; intros pre b tl Hbs i.
  - assert (Hi : 0 <= i) by (unfold i, len; lia).
    assert (Hn : len bs = i + 1).
    { rewrite Hbs. unfold i, len. rewrite length_app. cbn [List.length]. lia. }
    assert (Hk : 0 <= i / d) by (apply Z.div_pos; lia).
    cbn [enumerate_from for_each flat_map micro_trace]. unfold bind.
    rewrite train_step_eq by (rewrite state_settings; fold d; lia).
    rewrite !state_settings, !state_snapshot, !state_counter, !state_loader.
    cbn [real_batch_index train_loss batch_loss]. fold d amp ws bs g0.
    assert (Hc : closes d (len bs) i = true).
    { unfold closes. rewrite Hn, Z.eqb_refl. apply orb_true_r. }
    rewrite Hc, (commit_state _ _ Hk), (commit_report _ _ Hk).
    rewrite Hn. replace (i + 1 - 1) with i by lia.
    pose proof (group_loss_snoc pre [] b Hd) as G. cbv zeta in G.
    fold i in G. rewrite <- Hbs in G. rewrite <- G.
    pose proof (snapshot_at_snoc self0 pre [] b Hbs) as Hsa. fold i in Hsa.
    rewrite Hsa.
    assert (Hs : train_snapshots bs (snapshot self0) =
                 train_snapshot b (train_snapshots pre (snapshot self0)))
      by (rewrite Hbs; apply train_snapshots_snoc).
    rewrite Hs. unfold ret. rewrite !app_nil_r. reflexivity.
  - assert (Hi : 0 <= i) by (unfold i, len; lia).
    assert (Hn : len bs = i + 2 + len rest').
    { rewrite Hbs. unfold i, len. rewrite length_app. cbn [List.length]. lia. }
    assert (Hk : 0 <= i / d) by (apply Z.div_pos; lia).
    assert (Hbs' : bs = (pre ++ [b]) ++ b' :: rest')
      by (rewrite <- app_assoc; exact Hbs).
    assert (Hi' : len (pre ++ [b]) = i + 1)
      by (unfold i, len; rewrite length_app; cbn [List.length]; lia).
    specialize (IH (pre ++ [b]) b' (fadd tl (norm_loss d b)) Hbs').
    cbv zeta in IH. rewrite Hi' in IH. rewrite train_snapshots_snoc in IH.
    change (enumerate_from i (b :: b' :: rest'))
      with ((i, b) :: enumerate_from (i + 1) (b' :: rest')).
    cbn [for_each flat_map]. unfold bind at 1.
    rewrite train_step_eq by (rewrite state_settings; fold d; lia).
    rewrite !state_settings, !state_snapshot, !state_counter, !state_loader.
    cbn [real_batch_index train_loss batch_loss]. fold d amp ws bs g0.
    assert (Hc : closes d (len bs) i = ((i + 1) mod d =? 0)).
    { unfold closes. destruct (Z.eqb_spec (i + 1) (len bs)); [unfold len in *; lia|].
      apply orb_false_r. }
    unfold micro_trace at 1. fold d amp ws bs g0.
    rewrite Hc.
    pose proof (snapshot_at_snoc self0 pre (b' :: rest') b Hbs) as Hsa.
    fold i in Hsa. rewrite Hsa.
    destruct (Z.eqb_spec ((i + 1) mod d) 0) as [Hm|Hm].
    + destruct (div_succ_closing Hd Hi Hm) as [Hq Hr].
      rewrite (commit_state _ _ Hk), (commit_report _ _ Hk).
      rewrite Hq, Hm in IH.
      rewrite skipn_all2 in IH
        by (rewrite length_app; cbn [List.length]; unfold i, len in *; lia).
      cbn [map] in IH. change (sum_from fzero []) with (@fzero F _) in IH.
      rewrite IH.
      pose proof (group_loss_snoc pre (b' :: rest') b Hd) as G. cbv zeta in G.
      fold i in G. rewrite <- Hbs in G. rewrite <- G.
      reflexivity.
    + destruct (div_succ_open Hd Hi Hm) as [Hq Hr].
      rewrite Hq, Hr in IH.
      replace (i + 1 - (i mod d + 1)) with (i - i mod d) in IH by lia.
      rewrite skipn_app in IH.
      pose proof (Z.mod_pos_bound i d ltac:(lia)) as Hb.
      replace (Z.to_nat (i - i mod d) - List.length pre)%nat with 0%nat in IH
        by (unfold i, len in *; lia).
      cbn [skipn] in IH. rewrite map_app in IH. unfold sum_from at 1 in IH.
      rewrite fold_left_app in IH. cbn [map fold_left] in IH.
      unfold sum_from at 1.
      replace (set_snapshot (train_snapshot b (train_snapshots pre (snapshot self0)))
                 (state (train_snapshots pre (snapshot self0)) (i / d)))
        with (state (train_snapshot b (train_snapshots pre (snapshot self0))) (i / d))
        by reflexivity.
      rewrite IH. reflexivity.
Qed.

End Invariant.
End TrainLoop.

Lemma zrange_length (a : Z) (n : nat) : List.length (zrange a n) = n.
Proof. revert a; induction n as [|n IH]; intros a; cbn; [reflexivity|now rewrite IH]. Qed.

Lemma zrange_snoc (a : Z) (n : nat) : zrange a (S n) = zrange a n ++ [a + Z.of_nat n].
Proof.
  revert a; induction n as [|n IH]; intros a.
  - cbn. now rewrite Z.add_0_r.
  - change (zrange a (S (S n))) with (a :: zrange (a + 1) (S n)).
    rewrite IH. cbn [zrange app]. do 2 f_equal. f_equal. lia.
Qed.

Lemma zrange_In (a : Z) (n : nat) (x : Z) : In x (zrange a n) <-> a <= x < a + Z.of_nat n.
Proof.
  revert a; induction n as [|n IH]; intros a; cbn [zrange In].
  - lia.
  - rewrite IH. lia.
Qed.

(** The number of groups an epoch of [n] micro-batches closes. *)
Lemma closing_from (d n : Z) (m : nat) :
  1 <= d -> forall i, 0 <= i -> i + Z.of_nat (S m) = n ->
  len (filter (closes d n) (zrange i (S m))) = (n - 1) / d + 1 - i / d.
Proof.
  intros Hd. induction m as [|m IH]; intros i Hi Hn.
  - cbn [zrange filter]. unfold closes.
    replace (i + 1 =? n) with true by (symmetry; apply Z.eqb_eq; lia).
    rewrite orb_true_r. unfold len. cbn [List.length].
    replace (n - 1) with i by lia. lia.
  - change (zrange i (S (S m))) with (i :: zrange (i + 1) (S m)).
    cbn [filter]. unfold closes at 1.
    replace (i + 1 =? n) with false by (symmetry; apply Z.eqb_neq; lia).
    rewrite orb_false_r.
    specialize (IH (i + 1) ltac:(lia) ltac:(lia)). unfold len in *.
    destruct (Z.eqb_spec ((i + 1) mod d) 0) as [Hm|Hm].
    + destruct (div_succ_closing Hd Hi Hm) as [Hq _].
      cbn [List.length]. lia.
    + destruct (div_succ_open Hd Hi Hm) as [Hq _]. lia.
Qed.

Lemma closing_count (d n : Z) :
  1 <= d -> 1 <= n -> len (closing d n n) = (n - 1) / d + 1.
Proof.
  intros Hd Hn. unfold closing, range.
  replace (Z.to_nat (n - 0)) with (S (Z.to_nat (n - 1))) by lia.
  rewrite (@closing_from d n (Z.to_nat (n - 1)) Hd 0) by lia.
  rewrite Z.div_0_l by lia. lia.
Qed.

Lemma enumerate_from_indices {A : Type} (l : list A) (i : Z) :
  map fst (enumerate_from i l) = zrange i (List.length l).
Proof.
  revert i; induction l as [|x l IH]; intros i; cbn; [reflexivity|].
  now rewrite IH.
Qed.

Section TrainLoopSpec.
Variable F : Type.
Context {float_ops : Float F}.
Variable T : Type.
Context {strategy : Strategy F T}.
Variable self : trainer F T.
Let d := batch_size_divider (settings self).
Let ws := write_statistics (settings self).
Let bs := train_dataloader self.
Let g0 := global_train_index self.

Lemma train_loop_empty :
  bs = [] -> train_loop self = (Raise ZeroDivisionError, self, [Tqdm 0]).
Proof.
  intros E. unfold train_loop. rewrite bind_gets. fold bs. rewrite E.
  rewrite bind_emit. reflexivity.
Qed.

Lemma train_loop_spec :
  1 <= d -> bs <> [] ->
  train_loop self =
    (Ok (PyFloat (fdiv (sum_from fzero (map (norm_loss d) bs))
                       (of_int ((len bs - 1) / d + 1)))),
     set_snapshot (train_snapshots bs (snapshot self))
       (set_global_train_index (g0 + ticks ws ((len bs - 1) / d + 1)) self),
     Tqdm (len bs) :: flat_map (micro_trace self) (enumerate bs)).
Proof.
  intros Hd Hne.
  destruct bs as [|b rest] eqn:E; [contradiction|].
  pose proof (@train_batches_spec F _ T _ self Hd rest [] b fzero) as S.
  fold d bs ws g0 in S. specialize (S E). cbv zeta in S.
  change (len (@nil (batch T))) with 0 in S.
  rewrite Z.div_0_l in S by lia.
  replace (ticks ws 0) with 0 in S by (unfold ticks; destruct ws; reflexivity).
  rewrite Z.add_0_r in S. unfold g0 in S at 1.
  rewrite set_global_train_index_same in S.
  change (train_snapshots [] (snapshot self)) with (snapshot self) in S.
  rewrite set_snapshot_same in S.
  rewrite skipn_nil in S. cbn [map] in S.
  change (sum_from fzero []) with (@fzero F _) in S.
  unfold train_loop. rewrite bind_gets, bind_emit. fold bs. rewrite E.
  unfold enumerate. rewrite (bind_ok _ _ S). rewrite <- E.
  cbn [train_loss real_batch_index item lift py_truediv to_float fst snd].
  pose proof (Z.div_pos (len bs - 1) d) as Hq.
  assert (0 <= len bs - 1) by (rewrite E; unfold len; cbn [List.length]; lia).
  destruct (Z.eqb_spec ((len bs - 1) / d + 1) 0) as [Hz|_]; [lia|].
  rewrite app_nil_r. rewrite E. reflexivity.
Qed.

(** The trace of the training loop, whether or not its final division
    raises. *)
Lemma train_loop_trace :
  1 <= d ->
  snd (train_loop self) = Tqdm (len bs) :: flat_map (micro_trace self) (enumerate bs).
Proof.
  intros Hd. destruct bs as [|b rest] eqn:E.
  - rewrite (train_loop_empty E). reflexivity.
  - assert (Hne : bs <> []) by (rewrite E; discriminate).
    rewrite (train_loop_spec Hd Hne). cbn [snd]. rewrite E. reflexivity.
Qed.

End TrainLoopSpec.

Section TestLoop.
Variable F : Type.
Context {float_ops : Float F}.
Variable T : Type.
Variable softmax : T -> T.
Variable f1_metric : T -> T -> F.
Context {strategy : Strategy F T}.


(** One iteration of the evaluation loop, when the divider is not zero. *)
Lemma test_step_eq (self : trainer F T) (i : Z) (b : batch T) (l : test_locals F) :
  let d := batch_size_divider (settings self) in
  d <> 0 ->
  test_step softmax f1_metric (i, b) l self =
    (Ok {| test_loss := py_add (test_loss l) (item (eval_loss d b));
           batches_num := batches_num l
                          + (if closes d (len (train_dataloader self)) i then 1 else 0) |},
     set_f1 (py_add (f1 self) (Tensor (eval_f1 softmax f1_metric d b)))
       (set_snapshot (test_snapshot b (snapshot self)) self),
     eval_trace softmax b).
Proof.
  intros d Hd.
  unfold test_step, closes, eval_loss, eval_f1, eval_trace.
  rewrite bind_emit, bind_modify.
  destruct (test_loss_fn b) as [loss_value logits].
  rewrite !bind_emit, bind_gets, bind_modify.
  cbn [settings set_snapshot set_f1 fst snd]. fold d.
  unfold py_mod.
  destruct (Z.eqb_spec d 0) as [|_]; [contradiction|].
  rewrite bind_lift_ok, bind_gets. cbn [train_dataloader set_snapshot set_f1].
  destruct (((i + 1) mod d =? 0) || (i + 1 =? len (train_dataloader self)));
    unfold ret; cbn [fst snd f1 set_snapshot]; rewrite ?Z.add_0_r; reflexivity.
Qed.

Lemma test_snapshots_cons (b : batch T) (bs : list (batch T)) (s : Snapshot T) :
  test_snapshots (b :: bs) s = test_snapshots bs (test_snapshot b s).
Proof. reflexivity. Qed.

Lemma test_batches_spec (bs : list (batch T)) :
  forall (i : Z) (l : test_locals F) (self : trainer F T),
    let d := batch_size_divider (settings self) in
    d <> 0 ->
    for_each (test_step softmax f1_metric) (enumerate_from i bs) l self =
      (Ok {| test_loss := test_loss_acc d bs (test_loss l);
             batches_num := batches_num l
               + len (filter (closes d (len (train_dataloader self)))
                        (zrange i (List.length bs))) |},
       set_f1 (f1_acc softmax f1_metric d bs (f1 self))
         (set_snapshot (test_snapshots bs (snapshot self)) self),
       flat_map (eval_trace softmax) bs).
Proof.
  induction bs as [|b bs IH]; intros i l self d Hd.
  - cbn. unfold ret, len. cbn. rewrite Z.add_0_r.
    change (test_snapshots [] (snapshot self)) with (snapshot self).
    rewrite set_snapshot_same, set_f1_same.
    destruct l; reflexivity.
  - cbn [enumerate_from for_each].
    rewrite (bind_ok _ _ (test_step_eq self i b l Hd)). fold d.
    rewrite IH by exact Hd.
    cbn [settings set_f1 set_snapshot train_dataloader f1 snapshot test_loss
         batches_num app fst snd
         List.length zrange filter test_loss_acc f1_acc fold_left flat_map].
    fold d. rewrite test_snapshots_cons.
    unfold set_f1, set_snapshot, len. cbn.
    destruct (closes d (Z.of_nat (List.length (train_dataloader self))) i);
      cbn [List.length]; rewrite ?Nat2Z.inj_succ, ?Z.add_0_r; unfold Z.succ;
      rewrite ?Z.add_assoc; try reflexivity.
    match goal with
    | |- context [?a + 1 + ?n] => replace (a + 1 + n) with (a + n + 1) by lia
    end.
    reflexivity.
Qed.

Lemma range_len {A : Type} (l : list A) : range 0 (len l) = zrange 0 (List.length l).
Proof. unfold range, len. f_equal. lia. Qed.

Lemma test_loss_acc_float (d : Z) (bs : list (batch T)) :
  forall x : F,
    test_loss_acc d bs (PyFloat x) = PyFloat (sum_from x (map (eval_loss d) bs)).
Proof.
  induction bs as [|b bs IH]; intros x; [reflexivity|].
  cbn [test_loss_acc fold_left map sum_from]. apply IH.
Qed.

(** The evaluation loss accumulator is a Python number: the integer [0]
    before the first micro-batch, a float afterwards. *)
Lemma test_loss_acc_closed (d n : Z) (bs : list (batch T)) :
  test_loss_acc d bs (PyInt n) =
    match bs with
    | [] => PyInt n
    | _ :: _ => PyFloat (sum_from (of_int n) (map (eval_loss d) bs))
    end.
Proof.
  destruct bs as [|b bs]; [reflexivity|].
  cbn [test_loss_acc fold_left map sum_from].
  change (py_add (PyInt n) (item (eval_loss d b)))
    with (PyFloat (fadd (of_int n) (eval_loss d b))).
  apply test_loss_acc_float.
Qed.

Lemma f1_acc_tensor (d : Z) (bs : list (batch T)) :
  forall x : F,
    f1_acc softmax f1_metric d bs (Tensor x) =
      Tensor (sum_from x (map (eval_f1 softmax f1_metric d) bs)).
Proof.
  induction bs as [|b bs IH]; intros x; [reflexivity|].
  cbn [f1_acc fold_left map sum_from]. apply IH.
Qed.

(** The F1 accumulator is a tensor as soon as one micro-batch was added. *)
Lemma f1_acc_closed (d : Z) (b : batch T) (bs : list (batch T)) (v : pynum F) :
  f1_acc softmax f1_metric d (b :: bs) v =
    Tensor (sum_from (to_float v) (map (eval_f1 softmax f1_metric d) (b :: bs))).
Proof.
  cbn [f1_acc fold_left map sum_from].
  replace (py_add v (Tensor (eval_f1 softmax f1_metric d b)))
    with (Tensor (fadd (to_float v) (eval_f1 softmax f1_metric d b)))
    by (destruct v; reflexivity).
  apply f1_acc_tensor.
Qed.

Lemma test_loop_spec (self : trainer F T) :
  let d := batch_size_divider (settings self) in
  let ts := test_dataloader self in
  let bn := len (closing d (len (train_dataloader self)) (len ts)) in
  d <> 0 ->
  test_loop softmax f1_metric self =
    (match py_truediv (test_loss_acc d ts (PyInt 0)) bn with
     | Ok v => Ok (v, bn)
     | Raise e => Raise e
     end,
     set_f1 (f1_acc softmax f1_metric d ts (f1 self))
       (set_snapshot (test_snapshots ts (snapshot self)) self),
     Tqdm (len ts) :: flat_map (eval_trace softmax) ts).
Proof.
  intros d ts bn Hd.
  unfold test_loop. rewrite bind_gets, bind_emit. fold ts.
  unfold enumerate.
  rewrite (bind_ok _ _ (test_batches_spec ts 0 _ self Hd)). fold d.
  cbn [test_loss batches_num]. rewrite Z.add_0_l.
  unfold bn, closing. rewrite range_len.
  unfold bind, lift, ret.
  destruct (py_truediv _ _); cbn [fst snd]; rewrite ?app_nil_r; reflexivity.
Qed.

End TestLoop.

Section Epoch.
Variable F : Type.
Context {float_ops : Float F}.
Variable T : Type.
Variable softmax : T -> T.
Variable f1_metric : T -> T -> F.
Context {strategy : Strategy F T}.

Lemma eval_groups_nonempty (self : trainer F T) :
  eval_groups self <> 0 -> test_dataloader self <> [].
Proof.
  unfold eval_groups. intros Hg E. apply Hg. rewrite E. reflexivity.
Qed.

(** The evaluation loop when it closes at least one group. *)
Lemma test_loop_ok (self : trainer F T) :
  batch_size_divider (settings self) <> 0 ->
  eval_groups self <> 0 ->
  test_loop softmax f1_metric self =
    (Ok (epoch_test_loss self, eval_groups self),
     set_f1 (Tensor (sum_from (to_float (f1 self))
                       (map (eval_f1 softmax f1_metric (batch_size_divider (settings self)))
                          (test_dataloader self))))
       (set_snapshot (test_snapshots (test_dataloader self) (snapshot self)) self),
     Tqdm (len (test_dataloader self))
       :: flat_map (eval_trace softmax) (test_dataloader self)).
Proof.
  intros Hd Hg. rewrite test_loop_spec by exact Hd.
  fold (eval_groups self).
  pose proof (eval_groups_nonempty self Hg) as Hne.
  unfold epoch_test_loss.
  destruct (test_dataloader self) as [|b ts] eqn:E; [contradiction|].
  rewrite test_loss_acc_closed, f1_acc_closed.
  cbn [py_truediv to_float].
  destruct (Z.eqb_spec (eval_groups self) 0) as [|_]; [contradiction|].
  reflexivity.
Qed.

(** The evaluation loop when it closes no group. *)
Lemma test_loop_zero (self : trainer F T) :
  batch_size_divider (settings self) <> 0 ->
  eval_groups self = 0 ->
  test_loop softmax f1_metric self =
    (Raise ZeroDivisionError,
     set_f1 (f1_acc softmax f1_metric (batch_size_divider (settings self))
               (test_dataloader self) (f1 self))
       (set_snapshot (test_snapshots (test_dataloader self) (snapshot self)) self),
     Tqdm (len (test_dataloader self))
       :: flat_map (eval_trace softmax) (test_dataloader self)).
Proof.
  intros Hd Hg. rewrite test_loop_spec by exact Hd.
  fold (eval_groups self). rewrite Hg.
  destruct (test_dataloader self) as [|b ts]; [reflexivity|].
  rewrite test_loss_acc_closed. reflexivity.
Qed.

(** An epoch in terms of its evaluation pass, when the training loop
    returns. *)
Lemma train_epoch_eq (self : trainer F T) (epoch : Z) :
  1 <= batch_size_divider (settings self) ->
  1 <= len (train_dataloader self) ->
  let ws := write_statistics (settings self) in
  train_epoch softmax f1_metric epoch tt self =
    preceded_by (training_trace self epoch)
      match test_loop softmax f1_metric (before_evaluation self) with
      | (Raise e, s2, t) => (Raise e, s2, t)
      | (Ok (test_loss, batches_num), s2, t) =>
          match py_truediv (f1 s2) batches_num with
          | Raise e => (Raise e, s2, t)
          | Ok f =>
              (Ok tt, set_f1 f s2,
               t ++
               PrintLine "Test Loss" (Some test_loss) ::
               PrintLine "Test F1" (Some f) ::
               (if write_statistics (settings s2)
                then [AddScalar "Loss/test" test_loss epoch;
                      AddScalar "F1/test" f epoch]
                else []) ++
               [SaveCheckpoint epoch])
          end
      end.
Proof.
  intros Hd Hn ws.
  assert (Hne : train_dataloader self <> []).
  { intros E. rewrite E in Hn. unfold len in Hn. cbn in Hn. lia. }
  unfold train_epoch.
  rewrite run_emit, (run_ok _ _ (train_loop_spec self Hd Hne)).
  rewrite <- (closing_count Hd Hn). fold (train_groups self).
  fold (epoch_train_loss self).
  rewrite run_emit, bind_gets.
  cbn [settings set_snapshot set_global_train_index]. fold ws.
  rewrite run_when, !bind_modify.
  change (set_snapshot _ (set_snapshot _ (set_f1 _ (set_snapshot _ _))))
    with (before_evaluation self).
  destruct (test_loop softmax f1_metric (before_evaluation self))
    as [[[[test_loss batches_num]|e] s2] t] eqn:Et.
  - rewrite (run_ok _ _ Et), bind_gets.
    destruct (py_truediv (f1 s2) batches_num) as [f|e] eqn:Ef.
    + rewrite bind_lift_ok, bind_modify, !run_emit, bind_gets.
      cbn [settings set_f1].
      destruct (write_statistics (settings s2));
        unfold when, bind, emit, gets, ret, preceded_by, training_trace;
        cbn [fst snd f1 set_f1 app]; fold ws;
        rewrite <- ?app_assoc; cbn [app]; rewrite ?app_nil_r; reflexivity.
    + unfold bind, lift.
      unfold preceded_by, training_trace. cbn [fst snd app].
      fold ws. rewrite <- !app_assoc. cbn [app]. rewrite ?app_nil_r. reflexivity.
  - rewrite (run_raise _ _ Et).
    unfold preceded_by, training_trace. cbn [fst snd app].
    fold ws. rewrite <- !app_assoc. cbn [app]. rewrite ?app_nil_r. reflexivity.
Qed.

Lemma before_evaluation_groups (self : trainer F T) :
  eval_groups (before_evaluation self) = eval_groups self.
Proof. reflexivity. Qed.

(** An epoch whose evaluation pass closes no group. *)
Lemma train_epoch_zero (self : trainer F T) (epoch : Z) :
  1 <= batch_size_divider (settings self) ->
  1 <= len (train_dataloader self) ->
  eval_groups self = 0 ->
  train_epoch softmax f1_metric epoch tt self =
    (Raise ZeroDivisionError,
     set_f1 (f1_acc softmax f1_metric (batch_size_divider (settings self))
               (test_dataloader self) (PyInt 0))
       (set_snapshot (epoch_snapshot self) (before_evaluation self)),
     training_trace self epoch ++
     Tqdm (len (test_dataloader self))
       :: flat_map (eval_trace softmax) (test_dataloader self)).
Proof.
  intros Hd Hn Hg.
  rewrite (train_epoch_eq self epoch Hd Hn).
  rewrite test_loop_zero
    by (rewrite ?before_evaluation_groups;
        change (settings (before_evaluation self)) with (settings self);
        (lia || exact Hg)).
  reflexivity.
Qed.

Lemma train_epoch_spec (self : trainer F T) (epoch : Z) :
  runnable self ->
  train_epoch softmax f1_metric epoch tt self =
    (Ok tt, epoch_state softmax f1_metric self, epoch_trace softmax f1_metric self epoch).
Proof.
  intros (Hd & Hn & Hg).
  rewrite (train_epoch_eq self epoch Hd Hn).
  rewrite test_loop_ok
    by (rewrite ?before_evaluation_groups;
        change (settings (before_evaluation self)) with (settings self); lia).
  cbn [py_truediv f1 set_f1 to_float].
  unfold preceded_by, training_trace, epoch_trace, epoch_state. cbn [fst snd].
  change (eval_groups (before_evaluation self)) with (eval_groups self).
  change (settings (set_f1 _ (set_snapshot _ (before_evaluation self))))
    with (settings self).
  f_equal.
  cbn [app]. rewrite <- app_assoc. reflexivity.
Qed.

(** The trace of an epoch: its training part, its evaluation calls, and
    what it reports of the evaluation. *)
Lemma epoch_trace_parts (self : trainer F T) (epoch : Z) :
  epoch_trace softmax f1_metric self epoch =
    (training_trace self epoch ++
     Tqdm (len (test_dataloader self))
       :: flat_map (eval_trace softmax) (test_dataloader self)) ++
    PrintLine "Test Loss" (Some (epoch_test_loss self)) ::
    PrintLine "Test F1" (Some (epoch_f1 softmax f1_metric self)) ::
    (if write_statistics (settings self)
     then [AddScalar "Loss/test" (epoch_test_loss self) epoch;
           AddScalar "F1/test" (epoch_f1 softmax f1_metric self) epoch]
     else []) ++
    [SaveCheckpoint epoch].
Proof.
  unfold epoch_trace, training_trace. cbn [app].
  rewrite <- !app_assoc. cbn [app]. rewrite <- ?app_assoc. reflexivity.
Qed.

End Epoch.

Lemma zrange_app (a : Z) (n m : nat) :
  zrange a (n + m) = zrange a n ++ zrange (a + Z.of_nat n) m.
Proof.
  revert a; induction n as [|n IH]; intros a.
  - cbn. now rewrite Z.add_0_r.
  - cbn [Nat.add zrange app]. rewrite IH. do 3 f_equal. lia.
Qed.

Section Disciplines.
Variable F : Type.
Context {float_ops : Float F}.
Variable T : Type.
Variable softmax : T -> T.
Variable f1_metric : T -> T -> F.
Context {strategy : Strategy F T}.


(** *** Computations without epoch events *)

Lemma quiet_ret {A : Type} (a : A) : quiet (ret a : M F T A).
Proof. intros self. reflexivity. Qed.

Lemma quiet_lift {A : Type} (r : result A) : quiet (lift r : M F T A).
Proof. intros self. reflexivity. Qed.

Lemma quiet_gets {A : Type} (f : trainer F T -> A) : quiet (gets f).
Proof. intros self. reflexivity. Qed.

Lemma quiet_modify (f : trainer F T -> trainer F T) : quiet (modify f).
Proof. intros self. reflexivity. Qed.

Lemma quiet_emit (e : event F T) : is_epoch_event e = false -> quiet (emit e : M F T unit).
Proof. intros He self. cbn. now rewrite He. Qed.

Lemma quiet_bind {A B : Type} (m : M F T A) (k : A -> M F T B) :
  quiet m -> (forall a, quiet (k a)) -> quiet (bind m k).
Proof.
  intros Hm Hk self. unfold bind.
  specialize (Hm self). destruct (m self) as [[[a|e] s1] t1]; cbn in Hm |- *.
  - specialize (Hk a s1). destruct (k a s1) as [[r s2] t2]; cbn in Hk |- *.
    now rewrite filter_app, Hm, Hk.
  - exact Hm.
Qed.

Lemma quiet_when (c : bool) (m : M F T unit) : quiet m -> quiet (when c m).
Proof. intros Hm. destruct c; [exact Hm|apply quiet_ret]. Qed.

Lemma quiet_for_each {A L : Type} (body : A -> L -> M F T L) (xs : list A) :
  (forall x l, quiet (body x l)) -> forall l, quiet (for_each body xs l).
Proof.
  intros Hb. induction xs as [|x xs IH]; intros l; cbn [for_each].
  - apply quiet_ret.
  - apply quiet_bind; [apply Hb|exact IH].
Qed.

Ltac quiet_step :=
  first [ apply quiet_bind; [|intros]
        | apply quiet_ret
        | apply quiet_lift
        | apply quiet_gets
        | apply quiet_modify
        | apply quiet_emit; reflexivity
        | apply quiet_when
        | match goal with
          | |- quiet (if ?c then _ else _) => destruct c
          | |- quiet (let (_, _) := ?p in _) => destruct p
          end ].

Lemma quiet_write_batch_statistics (loss : F) (k : Z) :
  quiet (write_batch_statistics loss k : M F T unit).
Proof.
  unfold write_batch_statistics, add_image_summary, add_mask_image_summary.
  repeat first [ quiet_step
               | apply quiet_for_each; intros; unfold add_histograms ].
Qed.

Lemma quiet_train_step (ib : Z * batch T) (l : train_locals F) : quiet (train_step ib l).
Proof.
  unfold train_step.
  repeat first [ apply quiet_write_batch_statistics | quiet_step ].
Qed.

Lemma quiet_train_loop : quiet (train_loop (F:=F) (T:=T)).
Proof.
  unfold train_loop. repeat quiet_step.
  apply quiet_for_each. intros; apply quiet_train_step.
Qed.

Lemma quiet_test_step (ib : Z * batch T) (l : test_locals F) :
  quiet (test_step softmax f1_metric ib l).
Proof. unfold test_step. repeat quiet_step. Qed.

Lemma quiet_test_loop : quiet (test_loop softmax f1_metric).
Proof.
  unfold test_loop. repeat quiet_step.
  apply quiet_for_each. intros; apply quiet_test_step.
Qed.

(** *** Checkpoint at the end of an epoch *)

Lemma saves_emit (epoch : Z) :
  saves_on_success epoch (emit (SaveCheckpoint epoch) : M F T unit).
Proof. intros self. reflexivity. Qed.

Lemma saves_bind {A B : Type} (epoch : Z) (m : M F T A) (k : A -> M F T B) :
  quiet m -> (forall a, saves_on_success epoch (k a)) ->
  saves_on_success epoch (bind m k).
Proof.
  intros Hm Hk self. unfold bind.
  specialize (Hm self). destruct (m self) as [[[a|e] s1] t1]; cbn in Hm |- *.
  - specialize (Hk a s1). destruct (k a s1) as [[r s2] t2]; cbn in Hk |- *.
    now rewrite filter_app, Hm, Hk.
  - exact Hm.
Qed.




(** An epoch starts by announcing itself and saves its checkpoint exactly
    when nothing in it raised. *)
Lemma train_epoch_events (epoch : Z) (self : trainer F T) :
  filter is_epoch_event (snd (train_epoch softmax f1_metric epoch tt self)) =
    PrintEpoch epoch ::
    match fst (fst (train_epoch softmax f1_metric epoch tt self)) with
    | Ok _ => [SaveCheckpoint epoch]
    | Raise _ => []
    end.
Proof.
  unfold train_epoch.
  match goal with
  | |- context [bind (emit (PrintEpoch epoch)) ?k] =>
      assert (Hk : saves_on_success epoch (k tt)); [|specialize (Hk self)]
  end.
  { apply saves_bind; [apply quiet_train_loop|intros].
    apply saves_bind; [repeat quiet_step|intros].
    apply saves_bind; [repeat quiet_step|intros].
    apply saves_bind; [repeat quiet_step|intros].
    apply saves_bind; [repeat quiet_step|intros].
    apply saves_bind; [repeat quiet_step|intros].
    apply saves_bind; [repeat quiet_step|intros].
    apply saves_bind; [apply quiet_test_loop|intros [test_loss batches_num]].
    apply saves_bind; [repeat quiet_step|intros].
    apply saves_bind; [repeat quiet_step|intros].
    apply saves_bind; [repeat quiet_step|intros].
    apply saves_bind; [repeat quiet_step|intros].
    apply saves_bind; [repeat quiet_step|intros].
    apply saves_bind; [repeat quiet_step|intros].
    apply saves_bind; [repeat quiet_step|intros].
    apply saves_emit. }
  rewrite bind_emit. cbn [fst snd filter is_epoch_event].
  f_equal. exact Hk.
Qed.

(** The epoch events of a run over the epochs [es]: the epochs before the
    first one that raises complete, each with its checkpoint. *)
Lemma epochs_events (es : list Z) :
  forall self : trainer F T,
    let out := for_each (train_epoch softmax f1_metric) es tt self in
    exists n : nat,
      filter is_epoch_event (snd out) =
        completed (firstn n es) ++
        match fst (fst out) with
        | Ok _ => []
        | Raise _ => [PrintEpoch (nth n es 0)]
        end
      /\ match fst (fst out) with
         | Ok _ => n = List.length es
         | Raise _ => (n < List.length es)%nat
         end.
Proof.
  induction es as [|e es IH]; intros self out.
  - exists 0%nat. split; reflexivity.
  - subst out. cbn [for_each]. unfold bind.
    pose proof (train_epoch_events e self) as He.
    destruct (train_epoch softmax f1_metric e tt self) as [[[[]|x] s1] t1];
      cbn [fst snd] in He |- *.
    + destruct (IH s1) as (n & Hn & Hr).
      destruct (for_each (train_epoch softmax f1_metric) es tt s1) as [[r s2] t2].
      cbn [fst snd] in Hn, Hr |- *.
      exists (S n). rewrite filter_app, He, Hn. split.
      * reflexivity.
      * destruct r; cbn [List.length]; lia.
    + exists 0%nat. rewrite He. split; [reflexivity|cbn; lia].
Qed.

(** *** Step keys of the reporting ticks *)

Lemma unobserved_report (g : Z) (s : Snapshot T) :
  unobserved (histogram_events g ++ image_events s g).
Proof.
  apply Forall_app. split.
  - unfold histogram_events. induction (named_parameters g) as [|p ps IH];
      cbn [flat_map]; [constructor|].
    apply Forall_app. split; [|exact IH].
    destruct (has_grad p && negb (py_in "bn" (param_name p)));
      repeat constructor.
  - unfold image_events.
    destruct (is_not_None (last_image s)), (is_not_None (last_warped_image s));
      cbn [app]; repeat constructor; right; reflexivity.
Qed.

Lemma tick_steps_unobserved (t rest : list (event F T)) :
  unobserved t -> tick_steps (t ++ rest) = tick_steps rest.
Proof.
  induction 1 as [|e t [He|He] _ IH]; [reflexivity| |];
    destruct e; try discriminate He; exact IH.
Qed.

Lemma tick_steps_report (x : F) (g : Z) (s : Snapshot T) (rest : list (event F T)) :
  tick_steps (report_events x g s ++ rest) = g :: tick_steps rest.
Proof.
  unfold report_events. rewrite <- app_assoc. cbn [app].
  unfold tick_steps at 1. cbn [tick_steps_from String.eqb Ascii.eqb Bool.eqb andb].
  fold (tick_steps ((histogram_events g ++ image_events s g) ++ rest)).
  now rewrite (tick_steps_unobserved _ (unobserved_report g s)).
Qed.

Lemma settled_nil : settled (@nil (event F T)).
Proof. intros rest. reflexivity. Qed.

Lemma settled_app (t1 t2 : list (event F T)) :
  settled t1 -> settled t2 -> settled (t1 ++ t2).
Proof.
  intros H1 H2 rest. rewrite <- app_assoc, H1, H2, H1, app_assoc. reflexivity.
Qed.

Lemma settled_event (e : event F T) :
  (forall rest, tick_steps (e :: rest) = tick_steps rest) -> settled [e].
Proof.
  intros He rest. cbn [app]. rewrite He, (He []). reflexivity.
Qed.

Lemma settled_report (x : F) (g : Z) (s : Snapshot T) : settled (report_events x g s).
Proof.
  intros rest. rewrite tick_steps_report.
  pose proof (tick_steps_report x g s []) as E. rewrite app_nil_r in E.
  rewrite E. reflexivity.
Qed.

Lemma keys_ret {A : Type} (a : A) : keys_in_order (ret a : M F T A).
Proof.
  intros self. cbn. split; [reflexivity|split; [unfold len; cbn; lia|apply settled_nil]].
Qed.

Lemma keys_lift {A : Type} (r : result A) : keys_in_order (lift r : M F T A).
Proof.
  intros self. cbn. split; [reflexivity|split; [unfold len; cbn; lia|apply settled_nil]].
Qed.

Lemma keys_gets {A : Type} (f : trainer F T -> A) : keys_in_order (gets f).
Proof.
  intros self. cbn. split; [reflexivity|split; [unfold len; cbn; lia|apply settled_nil]].
Qed.

Lemma keys_modify (f : trainer F T -> trainer F T) :
  (forall self, global_train_index (f self) = global_train_index self) ->
  keys_in_order (modify f).
Proof.
  intros Hf self. cbn. split; [reflexivity|split; [|apply settled_nil]].
  rewrite Hf. unfold len; cbn; lia.
Qed.

Lemma keys_emit (e : event F T) :
  (forall rest, tick_steps (e :: rest) = tick_steps rest) ->
  keys_in_order (emit e : M F T unit).
Proof.
  intros He self. cbn [emit snd fst]. rewrite (He []).
  split; [reflexivity|split; [unfold len; cbn; lia|apply settled_event, He]].
Qed.

Lemma keys_bind {A B : Type} (m : M F T A) (k : A -> M F T B) :
  keys_in_order m -> (forall a, keys_in_order (k a)) -> keys_in_order (bind m k).
Proof.
  intros Hm Hk self. unfold bind.
  specialize (Hm self). destruct (m self) as [[[a|e] s1] t1]; cbn [fst snd] in Hm |- *.
  - specialize (Hk a s1). destruct (k a s1) as [[r s2] t2]; cbn [fst snd] in Hk |- *.
    destruct Hm as (Hm1 & Hm2 & Hm3), Hk as (Hk1 & Hk2 & Hk3).
    rewrite Hm3, length_app, zrange_app.
    split; [|split].
    + rewrite <- Hm1. f_equal. rewrite Hk1 at 1. f_equal.
      rewrite Hm2. reflexivity.
    + rewrite Hk2, Hm2. unfold len. rewrite length_app. lia.
    + apply settled_app; assumption.
  - exact Hm.
Qed.

Lemma keys_when (c : bool) (m : M F T unit) : keys_in_order m -> keys_in_order (when c m).
Proof. intros Hm. destruct c; [exact Hm|apply keys_ret]. Qed.

Lemma keys_for_each {A L : Type} (body : A -> L -> M F T L) (xs : list A) :
  (forall x l, keys_in_order (body x l)) -> forall l, keys_in_order (for_each body xs l).
Proof.
  intros Hb. induction xs as [|x xs IH]; intros l; cbn [for_each].
  - apply keys_ret.
  - apply keys_bind; [apply Hb|exact IH].
Qed.

(** A reporting tick uses the current value of the counter as its key and
    then increments it. *)
Lemma keys_write_batch_statistics (loss : F) (k : Z) :
  keys_in_order (write_batch_statistics loss k : M F T unit).
Proof.
  intros self. rewrite write_batch_statistics_eq.
  destruct (is_tick k); cbn [fst snd].
  - pose proof (tick_steps_report loss (global_train_index self) (snapshot self) [])
      as E.
    rewrite app_nil_r in E. rewrite E.
    cbn. split; [reflexivity|split; [unfold len; cbn; lia|apply settled_report]].
  - cbn. split; [reflexivity|split; [unfold len; cbn; lia|apply settled_nil]].
Qed.

Ltac keys_step :=
  first [ apply keys_write_batch_statistics
        | apply keys_bind; [|intros]
        | apply keys_ret
        | apply keys_lift
        | apply keys_gets
        | apply keys_modify; reflexivity
        | apply keys_emit; intros; reflexivity
        | apply keys_when
        | match goal with
          | |- keys_in_order (if ?c then _ else _) => destruct c
          | |- keys_in_order (let (_, _) := ?p in _) => destruct p
          end ].

Lemma keys_train_loop : keys_in_order (train_loop (F:=F) (T:=T)).
Proof.
  unfold train_loop. repeat keys_step.
  apply keys_for_each. intros ib l. unfold train_step. repeat keys_step.
Qed.

Lemma keys_test_loop : keys_in_order (test_loop softmax f1_metric).
Proof.
  unfold test_loop. repeat keys_step.
  apply keys_for_each. intros ib l. unfold test_step. repeat keys_step.
Qed.

Lemma keys_train_epoch (epoch : Z) (u : unit) :
  keys_in_order (train_epoch softmax f1_metric epoch u).
Proof.
  unfold train_epoch.
  repeat first [ apply keys_train_loop | apply keys_test_loop | keys_step ].
Qed.

(** [train] runs its prologue, resets the step counter and then runs the
    epochs. *)
Lemma train_eq (prev_epoch : Z) (self : trainer F T) :
  let start := if 0 <=? prev_epoch then prev_epoch + 1 else 0 in
  let out := for_each (train_epoch softmax f1_metric)
               (range start (start + self_epochs self)) tt
               (set_global_train_index 0 self) in
  train softmax f1_metric prev_epoch self =
    (fst (fst out), snd (fst out),
     AddGraph :: CreateOptimizer (learning_rate (settings self))
       :: LoadLastCheckpoint prev_epoch :: TrainInit (0 <=? prev_epoch) :: snd out).
Proof.
  intros start out. unfold train.
  rewrite bind_emit, bind_gets, !bind_emit, bind_gets, bind_emit, bind_modify.
  reflexivity.
Qed.

End Disciplines.

(** The evaluation counter in closed form: the full groups, plus one when the
    length of the training loader falls inside the evaluation pass off a
    group boundary. *)
Lemma closing_prefix_count (d n : Z) (m : nat) :
  1 <= d ->
  len (filter (closes d n) (zrange 0 m)) =
    Z.of_nat m / d
    + (if (1 <=? n) && (n <=? Z.of_nat m) && negb (n mod d =? 0) then 1 else 0).
Proof.
  intros Hd. induction m as [|m IH].
  - cbn [zrange filter]. unfold len. cbn [List.length].
    rewrite Z.div_0_l by lia.
    destruct (Z.leb_spec 1 n), (Z.leb_spec n (Z.of_nat 0)); cbn; lia.
  - rewrite zrange_snoc, filter_app. unfold len in *. rewrite length_app.
    rewrite Nat2Z.inj_add, IH. clear IH.
    cbn [filter]. rewrite Z.add_0_l. unfold closes.
    replace (Z.of_nat (S m)) with (Z.of_nat m + 1) by lia.
    assert (Hm : 0 <= Z.of_nat m) by lia.
    generalize dependent (Z.of_nat m). intros i Hi.
    destruct (Z.eqb_spec ((i + 1) mod d) 0) as [Hc|Hc].
    + destruct (div_succ_closing Hd Hi Hc) as [Hq _]. rewrite Hq.
      cbn [orb List.length].
      destruct (Z.leb_spec 1 n), (Z.leb_spec n i), (Z.leb_spec n (i + 1)),
        (Z.eqb_spec (n mod d) 0); cbn; try lia.
      assert (n = i + 1) by lia. subst n. contradiction.
    + destruct (div_succ_open Hd Hi Hc) as [Hq _]. rewrite Hq.
      cbn [orb].
      destruct (Z.eqb_spec (i + 1) n) as [E|E].
      * subst n. cbn [List.length].
        destruct (Z.leb_spec 1 (i + 1)), (Z.leb_spec (i + 1) i),
          (Z.leb_spec (i + 1) (i + 1)), (Z.eqb_spec ((i + 1) mod d) 0);
          cbn; try lia.
      * cbn [List.length].
        destruct (Z.leb_spec 1 n), (Z.leb_spec n i), (Z.leb_spec n (i + 1)),
          (Z.eqb_spec (n mod d) 0); cbn; lia.
Qed.

Section Projections.
Variable F : Type.
Context {float_ops : Float F}.
Variable T : Type.
Context {strategy : Strategy F T}.
Variable self : trainer F T.

Lemma filter_unobserved (p : event F T -> bool) (t : list (event F T)) :
  (forall e, is_histogram e = true \/ is_image e = true -> p e = false) ->
  unobserved t -> filter p t = [].
Proof.
  intros Hp. induction 1 as [|e t He _ IH]; [reflexivity|].
  cbn [filter]. now rewrite (Hp e He).
Qed.

Lemma filter_report (p : event F T -> bool) (x : F) (g : Z) (s : Snapshot T) :
  (forall msg v, p (PrintLine msg v) = false) ->
  (forall tag v k, p (AddScalar tag v k) = false) ->
  (forall e, is_histogram e = true \/ is_image e = true -> p e = false) ->
  filter p (report_events x g s) = [].
Proof.
  intros H1 H2 H3. unfold report_events. cbn [app filter].
  rewrite H1, H2. apply filter_unobserved; [exact H3|apply unobserved_report].
Qed.

Ltac unobserved_side :=
  intros [] [He|He]; try discriminate He; reflexivity.

Lemma optimizer_calls_report (x : F) (g : Z) (s : Snapshot T) :
  filter is_optimizer_call (report_events x g s) = [].
Proof. apply filter_report; try reflexivity. unobserved_side. Qed.

Lemma commits_report (x : F) (g : Z) (s : Snapshot T) :
  filter is_commit (report_events x g s) = [].
Proof. apply filter_report; try reflexivity. unobserved_side. Qed.

Lemma optimizer_calls_commit (amp : bool) :
  filter is_optimizer_call (commit_events amp) = commit_events (F:=F) (T:=T) amp.
Proof. destruct amp; reflexivity. Qed.

Lemma optimizer_calls_micro (l : list (Z * batch T)) :
  filter is_optimizer_call (flat_map (micro_trace self) l) =
    flat_map (accumulation_trace self) l.
Proof.
  induction l as [|[i b] l IH]; [reflexivity|].
  cbn [flat_map]. rewrite filter_app, IH. f_equal.
  unfold micro_trace, accumulation_trace. cbn [filter is_optimizer_call].
  f_equal.
  destruct (closes _ _ i); [|reflexivity].
  rewrite filter_app, optimizer_calls_commit.
  destruct (_ && _); [rewrite optimizer_calls_report|]; reflexivity.
Qed.

Lemma commits_after_unobserved (last : Z) (t tr : list (event F T)) :
  unobserved t -> commits_after last (t ++ tr) = commits_after last tr.
Proof.
  induction 1 as [|e t [He|He] _ IH]; [reflexivity| |];
    destruct e; try discriminate He; exact IH.
Qed.

Lemma commits_after_report (last : Z) (x : F) (g : Z) (s : Snapshot T)
  (tr : list (event F T)) :
  commits_after last (report_events x g s ++ tr) = commits_after last tr.
Proof.
  unfold report_events. rewrite <- app_assoc. cbn [app commits_after].
  apply commits_after_unobserved, unobserved_report.
Qed.

Lemma commits_after_commit (last : Z) (amp : bool) (tr : list (event F T)) :
  commits_after last (commit_events amp ++ tr) = last :: commits_after last tr.
Proof. destruct amp; reflexivity. Qed.

(** Commits are issued exactly at the closing micro-batches. *)
Lemma commits_after_micro (bs : list (batch T)) :
  forall (i last : Z),
    commits_after last (flat_map (micro_trace self) (enumerate_from i bs)) =
      filter (closes (batch_size_divider (settings self)) (len (train_dataloader self)))
        (zrange i (List.length bs)).
Proof.
  induction bs as [|b bs IH]; intros i last; [reflexivity|].
  cbn [enumerate_from flat_map List.length zrange filter].
  unfold micro_trace at 1. cbn [app commits_after].
  destruct (closes _ _ i).
  - rewrite <- app_assoc.
    destruct (_ && _).
    + rewrite commits_after_report, commits_after_commit, IH. reflexivity.
    + cbn [app]. rewrite commits_after_commit, IH. reflexivity.
  - cbn [app]. apply IH.
Qed.

Lemma commit_count_micro (bs : list (batch T)) :
  forall i : Z,
    List.length (filter is_commit (flat_map (micro_trace self) (enumerate_from i bs))) =
      List.length
        (filter (closes (batch_size_divider (settings self)) (len (train_dataloader self)))
           (zrange i (List.length bs))).
Proof.
  induction bs as [|b bs IH]; intros i; [reflexivity|].
  cbn [enumerate_from flat_map List.length zrange filter].
  rewrite filter_app, length_app, IH.
  unfold micro_trace. cbn [filter is_commit].
  destruct (closes _ _ i); [|reflexivity].
  rewrite filter_app, length_app.
  destruct (_ && _); [rewrite commits_report|];
    destruct (use_amp (settings self)); reflexivity.
Qed.

End Projections.

(** The number of groups committed before micro-batch [i] of an epoch. *)
Lemma closing_before (d n i : Z) :
  1 <= d -> 0 <= i < n -> len (closing d n i) = i / d.
Proof.
  intros Hd Hi. unfold closing, range.
  rewrite closing_prefix_count by exact Hd.
  replace (Z.of_nat (Z.to_nat (i - 0))) with i by lia.
  destruct (Z.leb_spec n i); [lia|].
  rewrite andb_false_r. cbn [andb]. lia.
Qed.

(** Reporting ticks among the first [k] commits. *)
Lemma ticks_count (k : nat) :
  ticks true (Z.of_nat k) = len (filter is_tick (zrange 0 k)).
Proof.
  induction k as [|k IH]; [reflexivity|].
  rewrite zrange_snoc, filter_app. unfold len in *. rewrite length_app.
  rewrite Nat2Z.inj_add, <- IH. cbn [filter]. rewrite Z.add_0_l.
  replace (Z.of_nat (S k)) with (Z.of_nat k + 1) by lia.
  rewrite ticks_step by lia. cbn [andb].
  destruct (is_tick (Z.of_nat k)); reflexivity.
Qed.

Section Run.
Variable F : Type.
Context {float_ops : Float F}.
Variable T : Type.
Variable softmax : T -> T.
Variable f1_metric : T -> T -> F.
Context {strategy : Strategy F T}.

Lemma runnable_epoch_state (self : trainer F T) :
  runnable self -> runnable (epoch_state softmax f1_metric self).
Proof. intros H. exact H. Qed.

(** A run of epochs over a runnable trainer completes. *)
Lemma epochs_ok (es : list Z) :
  forall self : trainer F T,
    runnable self ->
    fst (fst (for_each (train_epoch softmax f1_metric) es tt self)) = Ok tt.
Proof.
  induction es as [|e es IH]; intros self Hr; [reflexivity|].
  cbn [for_each]. unfold bind. rewrite (train_epoch_spec softmax f1_metric e Hr).
  specialize (IH _ (runnable_epoch_state Hr)).
  destruct (for_each _ es tt _) as [[r s2] t2]. exact IH.
Qed.

End Run.

Lemma firstn_zrange (a : Z) (n m : nat) :
  (n <= m)%nat -> firstn n (zrange a m) = zrange a n.
Proof.
  revert a m; induction n as [|n IH]; intros a m Hn; [reflexivity|].
  destruct m as [|m]; [lia|]. cbn [zrange firstn]. rewrite IH by lia. reflexivity.
Qed.

Lemma nth_zrange (a : Z) (n m : nat) :
  (n < m)%nat -> nth n (zrange a m) 0 = a + Z.of_nat n.
Proof.
  revert a m; induction n as [|n IH]; intros a m Hn;
    (destruct m as [|m]; [lia|]); cbn [zrange nth].
  - lia.
  - rewrite IH by lia. lia.
Qed.

Section Ticks.
Variable F : Type.
Context {float_ops : Float F}.
Variable T : Type.
Context {strategy : Strategy F T}.

Lemma bind_trace_prefix {A B : Type} (m : M F T A) (k : A -> M F T B)
  (self : trainer F T) :
  exists t, snd (bind m k self) = snd (m self) ++ t.
Proof.
  unfold bind. destruct (m self) as [[[a|e] s1] t1]; cbn [snd].
  - destruct (k a s1) as [[r s2] t2]. exists t2. reflexivity.
  - exists []. now rewrite app_nil_r.
Qed.

(** The number of reporting ticks of a training epoch. *)
Lemma train_loop_tick_count (self : trainer F T) :
  1 <= batch_size_divider (settings self) ->
  1 <= len (train_dataloader self) ->
  len (tick_steps (snd (train_loop self))) =
    ticks (write_statistics (settings self)) (train_groups self).
Proof.
  intros Hd Hn.
  assert (Hne : train_dataloader self <> []).
  { intros E. rewrite E in Hn. unfold len in Hn. cbn in Hn. lia. }
  destruct (keys_train_loop self) as (_ & K2 & _).
  rewrite (train_loop_spec self Hd Hne) in K2 |- *.
  cbn [fst snd global_train_index set_global_train_index set_snapshot] in K2 |- *.
  rewrite <- (closing_count Hd Hn) in K2. fold (train_groups self) in K2.
  lia.
Qed.

Lemma train_groups_pos (self : trainer F T) :
  1 <= batch_size_divider (settings self) ->
  1 <= len (train_dataloader self) ->
  1 <= train_groups self.
Proof.
  intros Hd Hn. unfold train_groups. rewrite (closing_count Hd Hn).
  pose proof (Z.div_pos (len (train_dataloader self) - 1)
                (batch_size_divider (settings self))).
  lia.
Qed.

End Ticks.

(** * Frame rules

    Rules that compose an invariant of the state, a relation between the
    states and a property of the trace along the structure of a
    computation. *)

Section FrameRules.
Variable F : Type.
Variable T : Type.
Variable I : trainer F T -> Prop.
Variable R : trainer F T -> trainer F T -> Prop.
Variable P : list (event F T) -> Prop.
Hypothesis D : Discipline R P.

Lemma keeps_ret {A : Type} (a : A) : keeps I R P (ret a).
Proof.
  intros self HI. cbn. repeat split; [exact HI|apply D|apply D].
Qed.

Lemma keeps_lift {A : Type} (r : result A) : keeps I R P (lift r).
Proof.
  intros self HI. cbn. repeat split; [exact HI|apply D|apply D].
Qed.

Lemma keeps_gets {A : Type} (f : trainer F T -> A) : keeps I R P (gets f).
Proof.
  intros self HI. cbn. repeat split; [exact HI|apply D|apply D].
Qed.

Lemma keeps_modify (f : trainer F T -> trainer F T) :
  (forall s, I s -> I (f s) /\ R s (f s)) -> keeps I R P (modify f).
Proof.
  intros Hf self HI. cbn. destruct (Hf self HI) as [H1 H2].
  repeat split; [exact H1|exact H2|apply D].
Qed.

Lemma keeps_emit (e : event F T) : P [e] -> keeps I R P (emit e : M F T unit).
Proof.
  intros He self HI. cbn. repeat split; [exact HI|apply D|exact He].
Qed.

Lemma keeps_at_bind {A B : Type} (m : M F T A) (k : A -> M F T B) (self : trainer F T) :
  keeps_at I R P m self ->
  (forall a, keeps_at I R P (k a) (snd (fst (m self)))) ->
  keeps_at I R P (bind m k) self.
Proof.
  intros Hm Hk HI. unfold bind.
  destruct (Hm HI) as (H1 & H2 & H3).
  destruct (m self) as [[[a|e] s1] t1]; cbn [fst snd] in *.
  - destruct (Hk a H1) as (K1 & K2 & K3).
    destruct (k a s1) as [[r s2] t2]; cbn [fst snd] in *.
    repeat split; [exact K1| |].
    + exact (discipline_trans D _ _ _ H2 K2).
    + exact (discipline_app D _ _ H3 K3).
  - repeat split; assumption.
Qed.

Lemma keeps_bind {A B : Type} (m : M F T A) (k : A -> M F T B) :
  keeps I R P m -> (forall a, keeps I R P (k a)) -> keeps I R P (bind m k).
Proof.
  intros Hm Hk self. apply keeps_at_bind; [apply Hm|intros a; apply Hk].
Qed.

(** A value read from the state may be used with what the invariant says of
    that state. *)
Lemma keeps_bind_gets {A B : Type} (f : trainer F T -> A) (k : A -> M F T B) :
  (forall s, I s -> keeps_at I R P (k (f s)) s) -> keeps I R P (bind (gets f) k).
Proof.
  intros Hk self HI. rewrite bind_gets. exact (Hk self HI HI).
Qed.

Lemma keeps_when (c : bool) (m : M F T unit) :
  keeps I R P m -> keeps I R P (when c m).
Proof. intros Hm. destruct c; [exact Hm|apply keeps_ret]. Qed.

Lemma keeps_for_each {A L : Type} (body : A -> L -> M F T L) (xs : list A) :
  (forall x l, keeps I R P (body x l)) -> forall l, keeps I R P (for_each body xs l).
Proof.
  intros Hb. induction xs as [|x xs IH]; intros l; cbn [for_each].
  - apply keeps_ret.
  - apply keeps_bind; [apply Hb|exact IH].
Qed.

End FrameRules.

Arguments keeps_ret {F T I R P} D {A} a.
Arguments keeps_lift {F T I R P} D {A} r.
Arguments keeps_gets {F T I R P} D {A} f.
Arguments keeps_modify {F T I R P} D f _.
Arguments keeps_emit {F T I R P} D e _.
Arguments keeps_at_bind {F T I R P} D {A B} m k self _ _.
Arguments keeps_bind {F T I R P} D {A B} m k _ _.
Arguments keeps_bind_gets {F T I R P A B} f k _.
Arguments keeps_when {F T I R P} D c m _.
Arguments keeps_for_each {F T I R P} D {A L} body xs _ l.

(** One structural step of a discipline proof; [side] closes the conditions
    on the state changes and on the emitted events. *)
Ltac frame_step D side :=
  match goal with
  | |- keeps _ _ _ (bind _ _) => apply (keeps_bind D); [|intros]
  | |- keeps _ _ _ (ret _) => apply (keeps_ret D)
  | |- keeps _ _ _ (lift _) => apply (keeps_lift D)
  | |- keeps _ _ _ (gets _) => apply (keeps_gets D)
  | |- keeps _ _ _ (when _ _) => apply (keeps_when D)
  | |- keeps _ _ _ (modify _) => apply (keeps_modify D); side
  | |- keeps _ _ _ (emit _) => apply (keeps_emit D); side
  | |- keeps _ _ _ (for_each _ _ _) => apply (keeps_for_each D); intros
  | |- keeps _ _ _ (if ?c then _ else _) => destruct c
  | |- keeps _ _ _ (let (_, _) := ?p in _) => destruct p
  | |- keeps _ _ _ (add_histograms _ _) => unfold add_histograms
  | |- keeps _ _ _ (add_image_summary _ _ _ _) => unfold add_image_summary
  | |- keeps _ _ _ (add_mask_image_summary _ _ _ _) => unfold add_mask_image_summary
  | |- keeps _ _ _ (write_batch_statistics _ _) => unfold write_batch_statistics
  | |- keeps _ _ _ (train_step _ _) => unfold train_step
  | |- keeps _ _ _ (test_step _ _ _ _) => unfold test_step
  | |- keeps _ _ _ train_loop => unfold train_loop
  | |- keeps _ _ _ (test_loop _ _) => unfold test_loop
  | |- keeps _ _ _ (train_epoch _ _ _ _) => unfold train_epoch
  end.

Section Frame.
Variable F : Type.
Context {float_ops : Float F}.
Variable T : Type.
Variable softmax : T -> T.
Variable f1_metric : T -> T -> F.
Context {strategy : Strategy F T}.

Lemma discipline_only_f1 (p : event F T -> bool) :
  Discipline (only_f1 (F:=F) (T:=T)) (none_of p).
Proof.
  split.
  - intros s. unfold only_f1. now rewrite set_snapshot_same, set_f1_same.
  - unfold only_f1. intros a b c Hab Hbc. rewrite Hbc, Hab at 1. reflexivity.
  - reflexivity.
  - unfold none_of. intros t1 t2 H1 H2. now rewrite filter_app, H1, H2.
Qed.

Lemma keeps_test_loop_f1 :
  keeps any_state (only_f1 (T:=T)) (none_of (fun e => negb (is_evaluation_call e)))
    (test_loop softmax f1_metric).
Proof.
  repeat frame_step (discipline_only_f1 (fun e => negb (is_evaluation_call e)))
    ltac:(first [ reflexivity
                | intros s _; split; [exact Logic.I|reflexivity] ]).
Qed.

Lemma discipline_only_counter : Discipline (only_counter (F:=F) (T:=T)) any_trace.
Proof.
  split.
  - intros s. unfold only_counter.
    rewrite set_snapshot_same, set_global_train_index_same.
    split; [reflexivity|lia].
  - unfold only_counter. intros a b c [Hab Lab] [Hbc Lbc]. split; [|lia].
    rewrite Hbc, Hab at 1. reflexivity.
  - exact Logic.I.
  - intros; exact Logic.I.
Qed.

Lemma keeps_write_batch_statistics_counter (loss : F) (k : Z) :
  keeps any_state (only_counter (T:=T)) any_trace (write_batch_statistics loss k).
Proof.
  intros self _. rewrite write_batch_statistics_eq. unfold only_counter.
  destruct (is_tick k); cbn [fst snd global_train_index set_global_train_index
                              snapshot].
  - repeat split; lia.
  - rewrite set_snapshot_same, set_global_train_index_same. repeat split; lia.
Qed.

Lemma keeps_train_loop_counter :
  keeps any_state (only_counter (T:=T)) any_trace train_loop.
Proof.
  repeat first [ apply keeps_write_batch_statistics_counter
               | frame_step discipline_only_counter
                   ltac:(first [ exact Logic.I
                               | intros s _; split;
                                 [exact Logic.I|split; [reflexivity|cbn; lia]] ]) ].
Qed.

Lemma discipline_same_config : Discipline (same_config (F:=F) (T:=T)) any_trace.
Proof.
  split.
  - intros s. repeat split.
  - unfold same_config. intros a b c (H1 & H2 & H3 & H4) (K1 & K2 & K3 & K4).
    repeat split; congruence.
  - exact Logic.I.
  - intros; exact Logic.I.
Qed.

Ltac config_side :=
  first [ exact Logic.I
        | intros ? _; split; [exact Logic.I|repeat split] ].

Lemma keeps_train_epoch_config (epoch : Z) (u : unit) :
  keeps any_state (same_config (T:=T)) any_trace (train_epoch softmax f1_metric epoch u).
Proof.
  repeat frame_step discipline_same_config config_side.
Qed.

Lemma keeps_train_config (prev_epoch : Z) :
  keeps any_state (same_config (T:=T)) any_trace (train softmax f1_metric prev_epoch).
Proof.
  unfold train. repeat frame_step discipline_same_config config_side.
Qed.


Lemma discipline_none_of (p : event F T -> bool) :
  Discipline (any_change (F:=F) (T:=T)) (none_of p).
Proof.
  split.
  - intros s. exact Logic.I.
  - intros; exact Logic.I.
  - reflexivity.
  - unfold none_of. intros t1 t2 H1 H2. now rewrite filter_app, H1, H2.
Qed.

(** Reading [write_statistics] when statistics are off yields [false]. *)
Lemma keeps_statistics_gate {B : Type} (k : bool -> M F T B) :
  keeps statistics_off any_change (none_of is_statistics) (k false) ->
  keeps statistics_off any_change (none_of is_statistics)
    (bind (gets (fun self => write_statistics (settings self))) k).
Proof.
  intros Hk. apply keeps_bind_gets. intros s Hs.
  unfold statistics_off in Hs. rewrite Hs. apply Hk.
Qed.

Ltac statistics_step :=
  first [ apply keeps_statistics_gate; cbn beta; cbn [when]
        | frame_step (discipline_none_of is_statistics)
            ltac:(first [ reflexivity
                        | intros ? Hs; split; [exact Hs|exact Logic.I] ]) ].

Lemma keeps_train_statistics_off (prev_epoch : Z) :
  keeps statistics_off any_change (none_of is_statistics)
    (train softmax f1_metric prev_epoch).
Proof.
  unfold train. repeat statistics_step.
Qed.

Lemma keeps_epochs_no_prologue (es : list Z) :
  keeps any_state any_change (none_of is_prologue)
    (for_each (train_epoch softmax f1_metric) es tt).
Proof.
  repeat frame_step (discipline_none_of is_prologue)
    ltac:(first [ reflexivity | intros ? _; split; exact Logic.I ]).
Qed.

End Frame.

(** * Reporting ticks and the commit count *)

Section Cadence.
Variable F : Type.
Context {float_ops : Float F}.
Variable T : Type.
Variable softmax : T -> T.
Variable f1_metric : T -> T -> F.
Context {strategy : Strategy F T}.

Lemma report_commits_unobserved (pe : bool) (k : Z) (t rest : list (event F T)) :
  unobserved t -> report_commits_from pe k (t ++ rest) = report_commits_from pe k rest.
Proof.
  induction 1 as [|e t [He|He] _ IH]; [reflexivity| |];
    destruct e; try discriminate He; exact IH.
Qed.

(** A report is counted once, at the commit count it is read at. *)
Lemma report_commits_report (pe : bool) (k : Z) (x : F) (g : Z) (s : Snapshot T)
  (rest : list (event F T)) :
  report_commits_from pe k (report_events x g s ++ rest) =
    k :: report_commits_from pe k rest.
Proof.
  unfold report_events. rewrite <- app_assoc.
  cbn [app report_commits_from String.eqb Ascii.eqb Bool.eqb andb].
  f_equal. apply report_commits_unobserved, unobserved_report.
Qed.

Lemma report_commits_commit (pe : bool) (k : Z) (amp : bool) (rest : list (event F T)) :
  report_commits_from pe k (commit_events amp ++ rest) =
    report_commits_from pe (k + 1) rest.
Proof. destruct amp; reflexivity. Qed.

Lemma report_commits_evaluation (pe : bool) (k : Z) (t rest : list (event F T)) :
  none_of (fun e => negb (is_evaluation_call e)) t ->
  report_commits_from pe k (t ++ rest) = report_commits_from pe k rest.
Proof.
  unfold none_of. induction t as [|e t IH]; intros H; [reflexivity|].
  cbn [filter] in H.
  destruct e; cbn [is_evaluation_call negb] in H; try discriminate H;
    cbn [app report_commits_from]; apply IH, H.
Qed.

Lemma report_commits_app (pe : bool) (t1 t2 : list (event F T)) :
  forall k,
    report_commits_from pe k (t1 ++ t2) =
      report_commits_from pe k t1
      ++ report_commits_from pe (commit_clock pe k t1) t2.
Proof.
  induction t1 as [|e t1 IH]; intros k; [reflexivity|].
  destruct e; cbn [app report_commits_from commit_clock]; try apply IH.
  match goal with
  | |- context [String.eqb ?m "loss"] => destruct (String.eqb m "loss")
  end; cbn [app]; [f_equal|]; apply IH.
Qed.

(** The reports of the micro-batches from [i] on, when [i / d] groups have
    been committed before: one at each closing micro-batch whose commit
    index is a tick. *)
Lemma report_commits_micro (self : trainer F T) (pe : bool) (rest : list (event F T))
  (bs : list (batch T)) :
  let d := batch_size_divider (settings self) in
  let n := len (train_dataloader self) in
  1 <= d ->
  forall i : Z,
    0 <= i -> i + len bs = n ->
    report_commits_from pe (i / d)
      (flat_map (micro_trace self) (enumerate_from i bs) ++ rest) =
      (if write_statistics (settings self)
       then filter is_tick
              (zrange (i / d)
                 (List.length (filter (closes d n) (zrange i (List.length bs)))))
       else [])
      ++ report_commits_from pe
           (i / d + len (filter (closes d n) (zrange i (List.length bs)))) rest.
Proof.
  intros d n Hd. induction bs as [|b bs IH]; intros i Hi Hn.
  - cbn [enumerate_from flat_map List.length zrange filter app].
    change (len (@nil Z)) with 0. rewrite Z.add_0_r.
    destruct (write_statistics (settings self)); reflexivity.
  - cbn [enumerate_from flat_map List.length zrange filter].
    rewrite <- app_assoc. unfold micro_trace at 1. fold d n.
    cbn [app report_commits_from].
    assert (Hlen : len (b :: bs) = len bs + 1)
      by (unfold len; cbn [List.length]; lia).
    destruct (closes d n i) eqn:Hc.
    + rewrite <- app_assoc.
      assert (Hnext :
        report_commits_from pe (i / d + 1)
          (flat_map (micro_trace self) (enumerate_from (i + 1) bs) ++ rest) =
          (if write_statistics (settings self)
           then filter is_tick
                  (zrange (i / d + 1)
                     (List.length
                        (filter (closes d n) (zrange (i + 1) (List.length bs)))))
           else [])
          ++ report_commits_from pe
               (i / d + 1
                + len (filter (closes d n) (zrange (i + 1) (List.length bs)))) rest).
      { destruct bs as [|b' bs'].
        - cbn [enumerate_from flat_map List.length zrange filter app].
          change (len (@nil Z)) with 0. rewrite Z.add_0_r.
          destruct (write_statistics (settings self)); reflexivity.
        - assert (Hm : (i + 1) mod d = 0).
          { unfold closes in Hc. apply orb_true_iff in Hc. destruct Hc as [Hc|Hc].
            - apply Z.eqb_eq, Hc.
            - apply Z.eqb_eq in Hc. unfold len in Hlen, Hn.
              cbn [List.length] in Hlen, Hn. lia. }
          destruct (div_succ_closing Hd Hi Hm) as [Hq _]. rewrite <- Hq.
          apply IH; lia. }
      cbn [List.length zrange filter].
      replace (len (i :: filter (closes d n) (zrange (i + 1) (List.length bs))))
        with (1 + len (filter (closes d n) (zrange (i + 1) (List.length bs))))
        by (unfold len; cbn [List.length]; lia).
      rewrite Z.add_assoc.
      destruct (write_statistics (settings self)), (is_tick (i / d));
        cbn [andb app];
        rewrite ?report_commits_report, report_commits_commit, Hnext;
        reflexivity.
    + assert (Hm : (i + 1) mod d <> 0).
      { unfold closes in Hc. apply orb_false_iff in Hc. destruct Hc as [Hc _].
        apply Z.eqb_neq, Hc. }
      destruct (div_succ_open Hd Hi Hm) as [Hq _]. rewrite <- Hq.
      cbn [app]. apply IH; lia.
Qed.

(** The reports of a training epoch, counted from its start: the commit
    indices divisible by 100 among those of the groups it closes. *)
Lemma report_commits_train_loop (self : trainer F T) (pe : bool)
  (rest : list (event F T)) :
  1 <= batch_size_divider (settings self) ->
  report_commits_from pe 0
    (flat_map (micro_trace self) (enumerate (train_dataloader self)) ++ rest) =
    (if write_statistics (settings self)
     then filter is_tick (range 0 (train_groups self)) else [])
    ++ report_commits_from pe (train_groups self) rest.
Proof.
  intros Hd.
  pose proof (report_commits_micro self pe rest (train_dataloader self) Hd
                (i:=0) ltac:(lia) ltac:(lia)) as M.
  rewrite Zdiv_0_l, Z.add_0_l in M.
  unfold train_groups, closing. rewrite !range_len. exact M.
Qed.

Lemma epochs_started_events (tr : list (event F T)) :
  epochs_started tr = epochs_started (filter is_epoch_event tr).
Proof.
  induction tr as [|e tr IH]; [reflexivity|].
  destruct e; cbn [filter is_epoch_event epochs_started flat_map app] in *;
    fold (epochs_started tr); fold (epochs_started (filter is_epoch_event tr));
    rewrite ?IH; reflexivity.
Qed.

Lemma epochs_started_epoch (self : trainer F T) (epoch : Z) :
  epochs_started (snd (train_epoch softmax f1_metric epoch tt self)) = [epoch].
Proof.
  rewrite epochs_started_events, train_epoch_events.
  destruct (fst (fst _)); reflexivity.
Qed.

(** The reports of an epoch, whether it completes or raises. *)
Lemma report_commits_epoch (self : trainer F T) (epoch k : Z) (rest : list (event F T)) :
  1 <= batch_size_divider (settings self) ->
  report_commits_from true k
    (snd (train_epoch softmax f1_metric epoch tt self) ++ rest) =
    (if write_statistics (settings self)
     then filter is_tick (range 0 (train_groups self)) else [])
    ++ report_commits_from true (train_groups self) rest.
Proof.
  intros Hd. destruct (train_dataloader self) as [|b bs] eqn:E.
  - unfold train_epoch.
    rewrite run_emit, (run_raise _ _ (train_loop_empty self E)).
    unfold preceded_by, train_groups. rewrite E.
    cbn [snd app report_commits_from].
    destruct (write_statistics (settings self)); reflexivity.
  - assert (Hn : 1 <= len (train_dataloader self)).
    { rewrite E. unfold len. cbn [List.length]. lia. }
    rewrite (train_epoch_eq softmax f1_metric self epoch Hd Hn).
    unfold preceded_by. cbn [snd].
    match goal with
    | |- context [training_trace self epoch ++ snd ?o] => set (X := snd o)
    end.
    assert (HX : forall k', report_commits_from true k' (X ++ rest) =
                              report_commits_from true k' rest).
    { intros k'. subst X.
      pose proof (keeps_test_loop_f1 softmax f1_metric) as Hq.
      specialize (Hq (before_evaluation self) Logic.I). destruct Hq as (_ & _ & Hq).
      destruct (test_loop softmax f1_metric (before_evaluation self))
        as [[[[test_loss batches_num]|e] s2] t]; cbn [snd] in Hq |- *.
      - destruct (py_truediv (f1 s2) batches_num); cbn [snd].
        + rewrite <- app_assoc, (report_commits_evaluation _ _ _ Hq).
          cbn [app report_commits_from String.eqb Ascii.eqb Bool.eqb andb].
          destruct (write_statistics (settings s2)); reflexivity.
        + apply report_commits_evaluation, Hq.
      - apply report_commits_evaluation, Hq. }
    unfold training_trace. cbn [app report_commits_from].
    rewrite <- !app_assoc.
    rewrite (report_commits_train_loop self true _ Hd).
    f_equal. cbn [app report_commits_from String.eqb Ascii.eqb Bool.eqb andb].
    destruct (write_statistics (settings self)); cbn [app report_commits_from];
      apply HX.
Qed.

(** Over a run of epochs the commit index restarts with every epoch that is
    announced. *)
Lemma report_commits_epochs (es : list Z) :
  forall (self : trainer F T) (k : Z),
    1 <= batch_size_divider (settings self) ->
    let tr := snd (for_each (train_epoch softmax f1_metric) es tt self) in
    report_commits_from true k tr =
      flat_map
        (fun _ => if write_statistics (settings self)
                  then filter is_tick (range 0 (train_groups self)) else [])
        (epochs_started tr).
Proof.
  induction es as [|e es IH]; intros self k Hd tr; subst tr; [reflexivity|].
  cbn [for_each]. unfold bind.
  pose proof (report_commits_epoch self e k) as Hep.
  pose proof (epochs_started_epoch self e) as Hev.
  pose proof (keeps_train_epoch_config softmax f1_metric e tt) as Hc.
  specialize (Hc self Logic.I). destruct Hc as (_ & (Hc1 & _ & Hc3 & _) & _).
  destruct (train_epoch softmax f1_metric e tt self) as [[[[]|x] s1] t1];
    cbn [fst snd] in Hep, Hev, Hc1, Hc3 |- *.
  - assert (Hd1 : 1 <= batch_size_divider (settings s1)) by (rewrite Hc1; exact Hd).
    specialize (IH s1 (train_groups self) Hd1). cbv zeta in IH.
    destruct (for_each (train_epoch softmax f1_metric) es tt s1) as [[r s2] t2].
    cbn [snd] in IH |- *.
    rewrite (Hep t2 Hd), IH.
    unfold epochs_started. rewrite flat_map_app. fold (epochs_started t1).
    rewrite Hev. cbn [flat_map app].
    unfold train_groups. rewrite Hc1, Hc3. reflexivity.
  - pose proof (Hep [] Hd) as H0. rewrite app_nil_r in H0.
    rewrite H0, Hev. reflexivity.
Qed.

Lemma report_commits_run (prev_epoch : Z) (self : trainer F T) :
  1 <= batch_size_divider (settings self) ->
  let tr := snd (train softmax f1_metric prev_epoch self) in
  report_commits true tr =
    flat_map
      (fun _ => if write_statistics (settings self)
                then filter is_tick (range 0 (train_groups self)) else [])
      (epochs_started tr).
Proof.
  intros Hd tr. subst tr. rewrite train_eq. cbn [snd].
  unfold report_commits. cbn [report_commits_from epochs_started flat_map app].
  match goal with
  | |- context [for_each _ ?es tt ?s0] =>
      exact (report_commits_epochs es s0 0 Hd)
  end.
Qed.

(** *** One step key per report *)

Lemma discipline_paired : Discipline (any_change (F:=F) (T:=T)) paired.
Proof.
  split.
  - intros; exact Logic.I.
  - intros; exact Logic.I.
  - split; [apply settled_nil|reflexivity].
  - intros t1 t2 [S1 P1] [S2 P2]. split; [apply settled_app; assumption|].
    intros pe k.
    rewrite S1, report_commits_app, !length_app, (P1 pe k),
      (P2 pe (commit_clock pe k t1)).
    reflexivity.
Qed.

Lemma paired_event (e : event F T) :
  (forall rest, tick_steps (e :: rest) = tick_steps rest) ->
  (forall pe k, report_commits_from pe k [e] = []) ->
  paired [e].
Proof.
  intros H1 H2. split; [apply settled_event, H1|].
  intros pe k. rewrite (H1 []), H2. reflexivity.
Qed.

Lemma paired_report (x : F) (g : Z) (s : Snapshot T) : paired (report_events x g s).
Proof.
  split; [apply settled_report|]. intros pe k.
  pose proof (tick_steps_report x g s []) as E1.
  pose proof (report_commits_report pe k x g s []) as E2.
  rewrite app_nil_r in E1, E2. rewrite E1, E2. reflexivity.
Qed.

Lemma keeps_write_batch_statistics_paired (loss : F) (k : Z) :
  keeps any_state (any_change (T:=T)) paired (write_batch_statistics loss k).
Proof.
  intros self _. rewrite write_batch_statistics_eq.
  destruct (is_tick k); cbn [fst snd];
    (split; [exact Logic.I|split; [exact Logic.I|]]).
  - apply paired_report.
  - split; [apply settled_nil|reflexivity].
Qed.

Ltac paired_step :=
  first [ apply keeps_write_batch_statistics_paired
        | frame_step discipline_paired
            ltac:(first [ apply paired_event; intros; reflexivity
                        | intros ? _; split; exact Logic.I ]) ].

Lemma keeps_train_loop_paired :
  keeps any_state (any_change (T:=T)) paired train_loop.
Proof. repeat paired_step. Qed.

Lemma keeps_train_paired (prev_epoch : Z) :
  keeps any_state (any_change (T:=T)) paired (train softmax f1_metric prev_epoch).
Proof. unfold train. repeat paired_step. Qed.

(** The step keys of a run are [0, 1, 2, ...], one per report. *)
Lemma tick_steps_run (prev_epoch : Z) (self : trainer F T) :
  let tr := snd (train softmax f1_metric prev_epoch self) in
  tick_steps tr = range 0 (len (report_commits true tr)).
Proof.
  intros tr.
  pose proof (keeps_train_paired prev_epoch) as Hp.
  specialize (Hp self Logic.I). destruct Hp as (_ & _ & _ & Hp).
  fold tr in Hp. unfold report_commits, len. rewrite <- (Hp true 0).
  fold (len (tick_steps tr)). rewrite range_len.
  subst tr. rewrite train_eq. cbn [snd].
  match goal with
  | |- context [for_each _ ?es tt ?s0] =>
      destruct (keys_for_each (train_epoch softmax f1_metric) es
                  (keys_train_epoch softmax f1_metric) tt s0) as (K & _ & _)
  end.
  exact K.
Qed.

(** *** What a report holds *)

Lemma instrumentation_unobserved (t : list (event F T)) :
  unobserved t -> filter is_instrumentation t = t.
Proof.
  induction 1 as [|e t [He|He] _ IH]; [reflexivity| |];
    destruct e; try discriminate He; cbn [filter is_instrumentation];
    now rewrite IH.
Qed.

Lemma instrumentation_report (x : F) (g : Z) (s : Snapshot T) :
  filter is_instrumentation (report_events x g s) = report_events x g s.
Proof.
  unfold report_events. cbn [app filter is_instrumentation].
  do 2 f_equal. apply instrumentation_unobserved, unobserved_report.
Qed.

(** The instrumentation of an epoch: the reports of the closing micro-batches
    whose commit index is a tick. *)
Lemma instrumentation_micro (self : trainer F T) (bs : list (batch T)) :
  let d := batch_size_divider (settings self) in
  forall i : Z,
    filter is_instrumentation (flat_map (micro_trace self) (enumerate_from i bs)) =
      flat_map
        (fun j => report_events (group_loss d (train_dataloader self) j)
                    (global_train_index self + j / d / 100) (snapshot_at self j))
        (filter (fun j => write_statistics (settings self) && is_tick (j / d))
           (filter (closes d (len (train_dataloader self)))
              (zrange i (List.length bs)))).
Proof.
  intros d. induction bs as [|b bs IH]; intros i; [reflexivity|].
  cbn [enumerate_from flat_map List.length zrange filter].
  rewrite filter_app, IH. unfold micro_trace at 1. fold d.
  cbn [filter is_instrumentation].
  destruct (closes d _ i); [|reflexivity].
  cbn [filter]. rewrite filter_app.
  assert (Hc : filter is_instrumentation
                 (commit_events (F:=F) (T:=T) (use_amp (settings self))) = [])
    by (destruct (use_amp (settings self)); reflexivity).
  rewrite Hc, app_nil_r.
  destruct (write_statistics (settings self) && is_tick (i / d)).
  - cbn [flat_map]. rewrite instrumentation_report. reflexivity.
  - reflexivity.
Qed.

Lemma images_of_histograms (g : Z) :
  filter is_image (histogram_events (F:=F) (T:=T) g) = [].
Proof.
  unfold histogram_events. induction (named_parameters g) as [|p ps IH];
    [reflexivity|].
  cbn [flat_map]. rewrite filter_app, IH.
  destruct (has_grad p && negb (py_in "bn" (param_name p))); reflexivity.
Qed.

(** A report writes no image exactly when the snapshot holds neither a
    normal nor a warped image. *)
Lemma report_images_guard (x : F) (g : Z) (s : Snapshot T) :
  filter is_image (report_events x g s) = []
  <-> last_image s = None /\ last_warped_image s = None.
Proof.
  unfold report_events. cbn [app filter is_image].
  rewrite filter_app, images_of_histograms. cbn [app]. unfold image_events.
  destruct (last_image s), (last_warped_image s);
    cbn [is_not_None app filter is_image];
    (split;
     [ intros H; try discriminate H; split; reflexivity
     | intros [H1 H2]; try discriminate H1; try discriminate H2; reflexivity ]).
Qed.

(** A report writes the histograms of the parameters that have a gradient
    and no [bn] in their name, and no other histogram. *)
Lemma report_histograms_guard (x : F) (g : Z) (s : Snapshot T) (tag : string) (step : Z) :
  In (AddHistogram tag step) (report_events x g s)
  <-> step = g
      /\ exists p, In p (named_parameters g)
           /\ has_grad p = true
           /\ py_in "bn" (param_name p) = false
           /\ (tag = String.append "params/" (param_name p)
               \/ tag = String.append "grads/" (param_name p)).
Proof.
  unfold report_events. cbn [app In]. rewrite in_app_iff.
  unfold histogram_events. rewrite in_flat_map.
  assert (Hi : ~ In (AddHistogram (F:=F) tag step) (image_events s g)).
  { unfold image_events.
    destruct (is_not_None (last_image s)), (is_not_None (last_warped_image s));
      cbn [app In]; intros H;
      repeat (destruct H as [H|H]; [discriminate H|]); contradiction. }
  split.
  - intros [H|[H|[(p & Hp & Hin)|H]]]; try discriminate H; [|contradiction].
    destruct (has_grad p) eqn:Hg; [|contradiction].
    destruct (py_in "bn" (param_name p)) eqn:Hb; [contradiction|].
    cbn [andb negb In] in Hin.
    destruct Hin as [H|[H|[]]]; inversion H; subst;
      (split; [reflexivity|exists p; repeat split; auto]).
  - intros [-> (p & Hp & Hg & Hb & Ht)]. right. right. left.
    exists p. split; [exact Hp|]. rewrite Hg, Hb. cbn [andb negb In].
    destruct Ht as [->| ->]; auto.
Qed.

End Cadence.

(** * The claims *)

Section Claims.
Variable F : Type.
Context {float_ops : Float F}.
Variable T : Type.
Variable Dataset : Type.
Variable dataset_len : Dataset -> Z.
Variable load : Dataset -> Z -> list (batch T).
Variable softmax : T -> T.
Variable f1_metric : T -> T -> F.
Context {strategy : Strategy F T}.

(** C1.  In a training epoch over [N >= 1] micro-batches with divider
    [d >= 1], the optimizer commits are issued exactly at the micro-batches
    [i] with [(i+1) mod d = 0] or [i+1 = N], and the returned epoch loss is
    the sum of the [N] losses, each divided by [d], divided by the number of
    groups closed. *)
Theorem train_loop_epoch_loss (self : trainer F T) :
  let d := batch_size_divider (settings self) in
  let bs := train_dataloader self in
  1 <= d -> 1 <= len bs ->
  fst (fst (train_loop self)) =
    Ok (PyFloat (fdiv (sum_from fzero (map (fun b => fdiv (train_loss_fn b) (of_int d)) bs))
                      (of_int (len (closing d (len bs) (len bs))))))
  /\ closing_indices (snd (train_loop self)) = closing d (len bs) (len bs).
Proof.
  intros d bs Hd Hn.
  assert (Hne : bs <> []).
  { intros E. rewrite E in Hn. unfold len in Hn. cbn in Hn. lia. }
  rewrite (train_loop_spec self Hd Hne). fold d bs. cbn [fst snd].
  rewrite (closing_count Hd Hn). split; [reflexivity|].
  unfold closing_indices, enumerate, closing. cbn [commits_after].
  rewrite commits_after_micro, range_len. reflexivity.
Qed.

(** C3.  With a divider [d >= 1], the gradient and optimizer calls of a
    training epoch are, micro-batch by micro-batch: the backward pass, and,
    exactly when the micro-batch closes a group, one commit ([scaler.step]
    and [scaler.update] under mixed precision, [optimizer.step] otherwise)
    followed at once by [zero_grad]; the commits are as many as the groups. *)
Theorem optimizer_step_once_per_group (self : trainer F T) :
  let d := batch_size_divider (settings self) in
  let bs := train_dataloader self in
  1 <= d ->
  filter is_optimizer_call (snd (train_loop self)) =
    flat_map (accumulation_trace self) (enumerate bs)
  /\ List.length (filter is_commit (snd (train_loop self))) =
     List.length (closing d (len bs) (len bs)).
Proof.
  intros d bs Hd.
  rewrite (train_loop_trace self Hd). fold bs. cbn [filter is_optimizer_call is_commit].
  split.
  - apply optimizer_calls_micro.
  - unfold enumerate. rewrite commit_count_micro. fold bs d.
    unfold closing. rewrite range_len. reflexivity.
Qed.

(** C10.  Over an empty training loader the loop body never runs, the
    closed-group counter stays [0], and the final division raises
    [ZeroDivisionError]; nothing catches it, so the epoch raises it too.
    Nothing was called but the progress bar over the empty loader. *)
Theorem train_loop_empty_loader (self : trainer F T) (epoch : Z) :
  train_dataloader self = [] ->
  for_each train_step (enumerate (train_dataloader self))
    {| train_loss := fzero; batch_loss := fzero; real_batch_index := 0 |} self
  = (Ok {| train_loss := fzero; batch_loss := fzero; real_batch_index := 0 |}, self, [])
  /\ train_loop self = (Raise ZeroDivisionError, self, [Tqdm 0])
  /\ train_epoch softmax f1_metric epoch tt self
     = (Raise ZeroDivisionError, self, [PrintEpoch epoch; Tqdm 0]).
Proof.
  intros E. split; [|split].
  - rewrite E. reflexivity.
  - apply train_loop_empty. exact E.
  - unfold train_epoch. rewrite bind_emit. unfold bind.
    rewrite (train_loop_empty self E). reflexivity.
Qed.


(** C6.  With a divider [d >= 1], the trace of a training epoch is
    [micro_trace] at every micro-batch: instrumentation is emitted only at a
    micro-batch that closes a group, when [write_statistics] is set and the
    index [i / d] of that commit (the number of groups committed before it
    in this epoch) is a multiple of 100.  Such a report prints the loss and
    writes its scalar; it writes histograms only for the parameters that
    have a gradient and no [bn] in their name, and images only when the
    snapshot holds a normal or a warped image.  The reports of an epoch are
    keyed by the successive values of the global step counter, which ends
    advanced by their number.  Over a call of [train] the commit index
    restarts at 0 with every epoch that is announced, while the step keys
    run on: [0, 1, 2, ...], one per report. *)
Theorem instrumentation_cadence (prev_epoch : Z) (self : trainer F T) :
  let d := batch_size_divider (settings self) in
  let bs := train_dataloader self in
  let g0 := global_train_index self in
  let ws := write_statistics (settings self) in
  let out := train_loop self in
  let run := snd (train softmax f1_metric prev_epoch self) in
  let tick_commits :=
    if ws then filter is_tick (range 0 (train_groups self)) else [] in
  1 <= d ->
  snd out = Tqdm (len bs) :: flat_map (micro_trace self) (enumerate bs)
  /\ (forall i, 0 <= i < len bs -> i / d = len (closing d (len bs) i))
  /\ filter is_instrumentation (snd out) =
       flat_map
         (fun i => report_events (group_loss d bs i) (g0 + i / d / 100)
                     (snapshot_at self i))
         (filter (fun i => ws && is_tick (i / d)) (closing d (len bs) (len bs)))
  /\ (forall (x : F) (g : Z) (s : Snapshot T),
        filter is_image (report_events x g s) = []
        <-> last_image s = None /\ last_warped_image s = None)
  /\ (forall (x : F) (g : Z) (s : Snapshot T) (tag : string) (step : Z),
        In (AddHistogram tag step) (report_events x g s)
        <-> step = g
            /\ exists p, In p (named_parameters g)
                 /\ has_grad p = true
                 /\ py_in "bn" (param_name p) = false
                 /\ (tag = String.append "params/" (param_name p)
                     \/ tag = String.append "grads/" (param_name p)))
  /\ report_commits true (snd out) = tick_commits
  /\ tick_steps (snd out) = zrange g0 (List.length tick_commits)
  /\ global_train_index (snd (fst out)) = g0 + len tick_commits
  /\ report_commits true run = flat_map (fun _ => tick_commits) (epochs_started run)
  /\ tick_steps run = range 0 (len (report_commits true run)).
Proof.
  intros d bs g0 ws out run tick_commits Hd.
  pose proof (train_loop_trace self Hd) as Ht. fold out in Ht.
  assert (Hrc : report_commits true (snd out) = tick_commits).
  { rewrite Ht. unfold report_commits. cbn [report_commits_from].
    pose proof (report_commits_train_loop self true [] Hd) as R.
    rewrite app_nil_r in R. cbn [report_commits_from] in R.
    rewrite app_nil_r in R. exact R. }
  assert (Hlen : List.length (tick_steps (snd out)) = List.length tick_commits).
  { pose proof (keeps_train_loop_paired (F:=F) (T:=T)) as Hp.
    specialize (Hp self Logic.I). destruct Hp as (_ & _ & _ & Hp).
    rewrite <- Hrc. exact (Hp true 0). }
  destruct (keys_train_loop self) as (K1 & K2 & _). fold out in K1, K2.
  split; [exact Ht|].
  split; [intros i Hi; symmetry; apply closing_before; assumption|].
  split.
  { rewrite Ht. cbn [filter is_instrumentation]. unfold enumerate.
    rewrite instrumentation_micro. unfold closing. rewrite range_len.
    reflexivity. }
  split; [intros; apply report_images_guard|].
  split; [intros; apply report_histograms_guard|].
  split; [exact Hrc|].
  split; [rewrite K1, Hlen; reflexivity|].
  split; [rewrite K2; unfold len; rewrite Hlen; reflexivity|].
  split.
  - apply report_commits_run. exact Hd.
  - exact (tick_steps_run softmax f1_metric prev_epoch self).
Qed.

(** C4.  When the evaluation pass closes no group, the division of the test
    loss by [batches_num] raises [ZeroDivisionError]: [test_loop] raises it,
    and so does the epoch, before the F1 accumulator is divided and before
    anything of the evaluation is reported. *)
Theorem eval_zero_groups_raises (self : trainer F T) (epoch : Z) :
  let d := batch_size_divider (settings self) in
  1 <= d -> eval_groups self = 0 ->
  fst (fst (test_loop softmax f1_metric self)) = Raise ZeroDivisionError
  /\ (1 <= len (train_dataloader self) ->
      let out := train_epoch softmax f1_metric epoch tt self in
      fst (fst out) = Raise ZeroDivisionError
      /\ f1 (snd (fst out)) = f1_acc softmax f1_metric d (test_dataloader self) (PyInt 0)
      /\ filter is_epoch_event (snd out) = [PrintEpoch epoch]).
Proof.
  intros d Hd Hg. split.
  - rewrite test_loop_zero by (fold d; lia || exact Hg). reflexivity.
  - intros Hn out.
    assert (Hne : train_dataloader self <> []).
    { intros E. rewrite E in Hn. unfold len in Hn. cbn in Hn. lia. }
    assert (Ho : fst (fst out) = Raise ZeroDivisionError
                 /\ f1 (snd (fst out)) =
                    f1_acc softmax f1_metric d (test_dataloader self) (PyInt 0)).
    { unfold out. rewrite (train_epoch_zero softmax f1_metric self epoch Hd Hn Hg).
      split; reflexivity. }
    destruct Ho as [Ho1 Ho2]. split; [exact Ho1|split; [exact Ho2|]].
    unfold out. rewrite train_epoch_events. fold out. rewrite Ho1. reflexivity.
Qed.

(** C5.  With a divider [d >= 1], the evaluation loop increments
    [batches_num] at micro-batch [i] exactly when [(i+1) mod d = 0] or [i+1]
    is the length of the training loader; the counter it ends with is the
    number of such indices in the evaluation pass, in closed form the full
    groups plus one when the training length falls inside the pass off a
    group boundary.  When the loaders have the same length this is the
    number of evaluation groups; otherwise it can fall short of it
    (divider 4, 20 training and 10 evaluation micro-batches) or exceed it
    (divider 4, 5 training and 8 evaluation micro-batches). *)
Theorem eval_counter_uses_train_length (self : trainer F T) :
  let d := batch_size_divider (settings self) in
  let n := len (train_dataloader self) in
  let m := len (test_dataloader self) in
  1 <= d ->
  (forall i b l,
      fst (fst (test_step softmax f1_metric (i, b) l self))
      = Ok {| test_loss := py_add (test_loss l) (item (eval_loss d b));
              batches_num := batches_num l + (if closes d n i then 1 else 0) |})
  /\ (forall l,
        fst (fst (for_each (test_step softmax f1_metric)
                    (enumerate (test_dataloader self)) l self))
        = Ok {| test_loss := test_loss_acc d (test_dataloader self) (test_loss l);
                batches_num := batches_num l + len (closing d n m) |})
  /\ len (closing d n m) =
       m / d + (if (1 <=? n) && (n <=? m) && negb (n mod d =? 0) then 1 else 0)
  /\ (n = m -> len (closing d n m) = len (closing d m m))
  /\ len (closing 4 20 10) < len (closing 4 10 10)
  /\ len (closing 4 8 8) < len (closing 4 5 8).
Proof.
  intros d n m Hd.
  assert (Hd0 : batch_size_divider (settings self) <> 0) by (fold d; lia).
  split; [|split; [|split; [|split; [|split]]]].
  - intros i b l. rewrite test_step_eq by exact Hd0. reflexivity.
  - intros l. unfold enumerate. rewrite test_batches_spec by exact Hd0.
    cbn [fst]. unfold closing, m. rewrite range_len. reflexivity.
  - unfold closing, range. rewrite closing_prefix_count by exact Hd.
    replace (Z.of_nat (Z.to_nat (m - 0))) with m by (unfold m, len; lia).
    reflexivity.
  - intros E. rewrite E. reflexivity.
  - vm_compute. reflexivity.
  - vm_compute. reflexivity.
Qed.

(** C7.  In an epoch in which nothing raises, the F1 accumulator is reset
    before the evaluation pass, every evaluation micro-batch adds its F1
    metric divided by the divider, and the F1 the epoch stores and reports is
    the sum of these contributions, started from zero whatever [self.f1] held
    before, divided by [batches_num]. *)
Theorem epoch_f1_is_normalised_mean (self : trainer F T) (epoch : Z) :
  let d := batch_size_divider (settings self) in
  let out := train_epoch softmax f1_metric epoch tt self in
  let reported :=
    Tensor (fdiv (sum_from (of_int 0)
                    (map (fun b => fdiv (f1_metric (softmax (snd (test_loss_fn b)))
                                           (point_labels b))
                                        (of_int d))
                       (test_dataloader self)))
                 (of_int (eval_groups self))) in
  runnable self ->
  (forall i b l,
      f1 (snd (fst (test_step softmax f1_metric (i, b) l self)))
      = py_add (f1 self)
          (Tensor (fdiv (f1_metric (softmax (snd (test_loss_fn b))) (point_labels b))
                        (of_int d))))
  /\ fst (fst out) = Ok tt
  /\ f1 (snd (fst out)) = reported
  /\ In (PrintLine "Test F1" (Some reported)) (snd out)
  /\ (write_statistics (settings self) = true ->
      In (AddScalar "F1/test" reported epoch) (snd out)).
Proof.
  intros d out reported Hr.
  assert (Hd0 : batch_size_divider (settings self) <> 0) by (destruct Hr; lia).
  split.
  { intros i b l. rewrite test_step_eq by exact Hd0. reflexivity. }
  unfold out. rewrite (train_epoch_spec softmax f1_metric epoch Hr).
  cbn [fst snd]. split; [reflexivity|split; [reflexivity|]].
  change reported with (epoch_f1 softmax f1_metric self).
  rewrite epoch_trace_parts. split.
  - apply in_or_app. right. right. left. reflexivity.
  - intros Hw. rewrite Hw.
    apply in_or_app. right. right. right. right. left. reflexivity.
Qed.

(** C2.  For every call to [train], with [start] the epoch after the one the
    checkpoint gateway reported, or [0] when it reported none: the epochs are
    executed in order from [start]; every epoch that runs to its end saves
    its checkpoint; a run that returns has executed exactly [epochs] epochs;
    a run that raises stops inside an epoch, after the checkpoints of the
    epochs before it.  When neither loop raises the run returns, with
    checkpoints at [start .. start + epochs - 1]. *)
Theorem train_resumes_after_checkpoint (prev_epoch : Z) (self : trainer F T) :
  let start := if 0 <=? prev_epoch then prev_epoch + 1 else 0 in
  let out := train softmax f1_metric prev_epoch self in
  (exists n : nat,
      filter is_epoch_event (snd out) =
        completed (zrange start n) ++
        match fst (fst out) with
        | Ok _ => []
        | Raise _ => [PrintEpoch (start + Z.of_nat n)]
        end
      /\ match fst (fst out) with
         | Ok _ => Z.of_nat n = Z.max 0 (self_epochs self)
         | Raise _ => Z.of_nat n < self_epochs self
         end)
  /\ (runnable self ->
      fst (fst out) = Ok tt
      /\ filter is_epoch_event (snd out) =
           completed (range start (start + self_epochs self))).
Proof.
  intros start out.
  pose proof (train_eq softmax f1_metric prev_epoch self) as E.
  cbv zeta in E. fold start in E.
  set (es := range start (start + self_epochs self)) in E.
  set (run := for_each (train_epoch softmax f1_metric) es tt
                (set_global_train_index 0 self)) in E.
  assert (Hes : es = zrange start (Z.to_nat (self_epochs self))).
  { unfold es, range. f_equal. lia. }
  assert (Hout : fst (fst out) = fst (fst run)
                 /\ filter is_epoch_event (snd out) = filter is_epoch_event (snd run)).
  { unfold out. rewrite E. split; reflexivity. }
  destruct Hout as [Ho1 Ho2].
  destruct (epochs_events softmax f1_metric es (set_global_train_index 0 self))
    as (n & Hn & Hr).
  fold run in Hn, Hr.
  assert (Hlen : List.length es = Z.to_nat (self_epochs self))
    by (rewrite Hes; apply zrange_length).
  assert (Hall : fst (fst run) = Ok tt ->
                 filter is_epoch_event (snd run) = completed es).
  { intros Hok. rewrite Hok in Hn, Hr. rewrite Hn, Hr, firstn_all, app_nil_r.
    reflexivity. }
  split.
  - exists n. rewrite Ho1, Ho2, Hn. rewrite Hlen in Hr.
    destruct (fst (fst run)).
    + subst n. rewrite Hes, firstn_all2 by (rewrite zrange_length; lia).
      split; [reflexivity|lia].
    + rewrite Hes, firstn_zrange, nth_zrange by lia. split; [reflexivity|lia].
  - intros Hrun. rewrite Ho1, Ho2.
    pose proof (epochs_ok softmax f1_metric es
                  (self := set_global_train_index 0 self) Hrun) as Hok.
    fold run in Hok. split; [exact Hok|]. apply Hall, Hok.
Qed.

(** C9.  Every call to [train], resumed from a checkpoint or not and whatever
    the step counter held before, keys its reporting ticks [0, 1, 2, ...]:
    the counter is reset before the first epoch.  When statistics are
    written and the first training epoch has a micro-batch, step [0] is
    emitted, so the step keys of a resumed run repeat those of the run it
    resumes. *)
Theorem train_restarts_step_counter (prev_epoch : Z) (self : trainer F T) :
  let out := train softmax f1_metric prev_epoch self in
  tick_steps (snd out) = range 0 (len (tick_steps (snd out)))
  /\ global_train_index (snd (fst out)) = len (tick_steps (snd out))
  /\ (write_statistics (settings self) = true ->
      1 <= batch_size_divider (settings self) ->
      1 <= len (train_dataloader self) ->
      1 <= self_epochs self ->
      exists rest, tick_steps (snd out) = 0 :: rest).
Proof.
  intros out.
  pose proof (train_eq softmax f1_metric prev_epoch self) as E.
  cbv zeta in E.
  set (start := if 0 <=? prev_epoch then prev_epoch + 1 else 0) in E.
  set (es := range start (start + self_epochs self)) in E.
  set (s0 := set_global_train_index 0 self) in E.
  set (run := for_each (train_epoch softmax f1_metric) es tt s0) in E.
  assert (Ho : tick_steps (snd out) = tick_steps (snd run))
    by (unfold out; rewrite E; reflexivity).
  assert (Hs : snd (fst out) = snd (fst run))
    by (unfold out; rewrite E; reflexivity).
  destruct (keys_for_each (train_epoch softmax f1_metric) es
              (keys_train_epoch softmax f1_metric) tt s0) as (K & Kg & _).
  fold run in K, Kg. cbn [global_train_index s0 set_global_train_index] in K, Kg.
  assert (Hrange : tick_steps (snd out) = range 0 (len (tick_steps (snd out)))).
  { rewrite range_len, Ho. exact K. }
  split; [exact Hrange|split].
  { rewrite Hs, Ho, Kg. reflexivity. }
  intros Hw Hd Hn He.
  assert (Hes : es = start :: zrange (start + 1) (Z.to_nat (self_epochs self - 1))).
  { unfold es, range.
    replace (Z.to_nat (start + self_epochs self - start))
      with (S (Z.to_nat (self_epochs self - 1))) by lia.
    reflexivity. }
  assert (Hpre : exists t, snd run = PrintEpoch start :: snd (train_loop s0) ++ t).
  { unfold run. rewrite Hes. cbn [for_each].
    match goal with
    | |- context [bind (train_epoch softmax f1_metric start tt) ?k s0] =>
        destruct (bind_trace_prefix (train_epoch softmax f1_metric start tt) k s0)
          as [t1 Ht1]; rewrite Ht1
    end.
    unfold train_epoch at 1. rewrite bind_emit. cbn beta. cbn [snd].
    match goal with
    | |- context [bind train_loop ?k s0] =>
        destruct (bind_trace_prefix train_loop k s0) as [t2 Ht2]; rewrite Ht2
    end.
    exists (t2 ++ t1). cbn [app]. now rewrite app_assoc. }
  destruct Hpre as [t Ht].
  pose proof (train_loop_tick_count s0 Hd Hn) as Hc.
  pose proof (train_groups_pos s0 Hd Hn) as Hg.
  change (write_statistics (settings s0)) with (write_statistics (settings self)) in Hc.
  rewrite Hw in Hc. unfold ticks in Hc.
  assert (1 <= len (tick_steps (snd (train_loop s0)))).
  { rewrite Hc. apply Z.div_le_lower_bound; lia. }
  assert (Hl : (1 <= List.length (tick_steps (snd run)))%nat).
  { rewrite Ht.
    change (tick_steps (PrintEpoch start :: snd (train_loop s0) ++ t))
      with (tick_steps (snd (train_loop s0) ++ t)).
    rewrite (proj2 (proj2 (keys_train_loop s0))), length_app.
    unfold len in *. lia. }
  rewrite Ho, K.
  destruct (List.length (tick_steps (snd run))) as [|k]; [lia|].
  eexists. reflexivity.
Qed.

(** C8.  Construction fails when the micro-batch size
    [batch_size // batch_size_divider] is not at least 1: a zero divider
    raises [ZeroDivisionError], and otherwise the data loader rejects the
    batch size with [ValueError].  Every trainer that is constructed has a
    micro-batch size of at least 1. *)
Theorem init_rejects_invalid_micro_batch (st : Settings F)
  (train_dataset test_dataset : Dataset) :
  (batch_size_divider st = 0 ->
   __init__ dataset_len load st train_dataset test_dataset = Raise ZeroDivisionError)
  /\ (batch_size_divider st <> 0 ->
      batch_size st / batch_size_divider st < 1 ->
      __init__ dataset_len load st train_dataset test_dataset = Raise ValueError)
  /\ (forall self,
        __init__ dataset_len load st train_dataset test_dataset = Ok self ->
        batch_size_divider st <> 0 /\ 1 <= batch_size st / batch_size_divider st).
Proof.
  unfold __init__, py_floordiv, DataLoader.
  split; [|split].
  - intros ->. reflexivity.
  - intros Hd Hb.
    destruct (Z.eqb_spec (batch_size_divider st) 0) as [|_]; [contradiction|].
    destruct (data_loader_num_workers st <? 0); [reflexivity|].
    destruct (dataset_len train_dataset <=? 0); [reflexivity|].
    destruct (Z.leb_spec (batch_size st / batch_size_divider st) 0); [reflexivity|lia].
  - intros self.
    destruct (Z.eqb_spec (batch_size_divider st) 0) as [|Hd]; [discriminate|].
    destruct (data_loader_num_workers st <? 0); [discriminate|].
    destruct (dataset_len train_dataset <=? 0); [discriminate|].
    destruct (Z.leb_spec (batch_size st / batch_size_divider st) 0);
      [discriminate|].
    intros _. split; [exact Hd|lia].
Qed.

End Claims.

(** * The claims on the concrete scenarios *)

Lemma train_loop_epoch_loss_witness :
  1 <= 4 /\ 1 <= 10
  /\ (exists v : Q,
        fst (fst (train_loop scenario_ten)) = Ok (PyFloat v)
        /\ (v == 10 * (1 / 4) / 3)%Q)
  /\ closing_indices (snd (train_loop scenario_ten)) = [3; 7; 9].
Proof.
  assert (Hd : 1 <= batch_size_divider (settings scenario_ten)) by (cbn; lia).
  assert (Hn : 1 <= len (train_dataloader scenario_ten)) by (cbn; lia).
  destruct (train_loop_epoch_loss scenario_ten Hd Hn) as [Hv Hc].
  split; [exact Hd|split; [exact Hn|split]].
  - eexists. split; [exact Hv|]. vm_compute. reflexivity.
  - exact Hc.
Defined.

Lemma optimizer_step_once_per_group_witness :
  1 <= 2
  /\ filter is_optimizer_call (snd (train_loop scenario_amp)) =
       [Backward true 0 (1 # 2)%Q; Backward true 1 (1 # 2)%Q;
        ScalerStep; ScalerUpdate; ZeroGrad;
        Backward true 2 (1 # 2)%Q; ScalerStep; ScalerUpdate; ZeroGrad]
  /\ List.length (filter is_commit (snd (train_loop scenario_amp))) = 2%nat.
Proof.
  assert (Hd : 1 <= batch_size_divider (settings scenario_amp)) by (cbn; lia).
  split; [exact Hd|].
  exact (optimizer_step_once_per_group scenario_amp Hd).
Defined.

Lemma train_loop_empty_loader_witness :
  train_dataloader scenario_empty = []
  /\ train_loop scenario_empty = (Raise ZeroDivisionError, scenario_empty, [Tqdm 0])
  /\ train_epoch q_softmax q_f1_metric 0 tt scenario_empty
     = (Raise ZeroDivisionError, scenario_empty, [PrintEpoch 0; Tqdm 0]).
Proof.
  assert (He : train_dataloader scenario_empty = []) by reflexivity.
  split; [exact He|].
  exact (proj2 (train_loop_empty_loader q_softmax q_f1_metric scenario_empty 0 He)).
Defined.

Lemma instrumentation_cadence_witness :
  1 <= batch_size_divider (settings scenario_two_epochs)
  /\ report_commits true (snd (train_loop scenario_two_epochs)) = [0; 100]
  /\ tick_steps (snd (train_loop scenario_two_epochs)) = [0; 1]
  /\ global_train_index (snd (fst (train_loop scenario_two_epochs))) = 2
  /\ epochs_started (snd (train q_softmax q_f1_metric (-1) scenario_two_epochs)) = [0; 1]
  /\ report_commits true (snd (train q_softmax q_f1_metric (-1) scenario_two_epochs))
     = [0; 100; 0; 100]
  /\ tick_steps (snd (train q_softmax q_f1_metric (-1) scenario_two_epochs))
     = [0; 1; 2; 3].
Proof.
  assert (Hd : 1 <= batch_size_divider (settings scenario_two_epochs)) by (cbn; lia).
  destruct (instrumentation_cadence q_softmax q_f1_metric (-1) scenario_two_epochs Hd)
    as (_ & _ & _ & _ & _ & Hc & Hk & Hg & Hr & Hs).
  assert (He : epochs_started
                 (snd (train q_softmax q_f1_metric (-1) scenario_two_epochs)) = [0; 1])
    by (vm_compute; reflexivity).
  split; [exact Hd|]. split; [rewrite Hc; vm_compute; reflexivity|].
  split; [rewrite Hk; vm_compute; reflexivity|].
  split; [rewrite Hg; vm_compute; reflexivity|].
  split; [exact He|].
  assert (Hr' : report_commits true
                  (snd (train q_softmax q_f1_metric (-1) scenario_two_epochs))
                = [0; 100; 0; 100])
    by (rewrite Hr, He; vm_compute; reflexivity).
  split; [exact Hr'|].
  rewrite Hs, Hr'. vm_compute. reflexivity.
Defined.

(** C6, as stated, fails.  Two epochs of 150 commits each, statistics on,
    with loss hooks that store no snapshot: counted over the run, the
    reports fall at the commits 0, 100, 150 and 250, where the multiples of
    100 among the 300 commits are 0, 100 and 200; and no report writes an
    image. *)
Lemma instrumentation_cadence_counterexample :
  let tr := snd (train (strategy := q_strategy_plain) q_softmax q_f1_metric (-1)
                   scenario_two_epochs) in
  write_statistics (settings scenario_two_epochs) = true
  /\ len (filter is_commit tr) = 300
  /\ report_commits false tr = [0; 100; 150; 250]
  /\ filter is_tick (range 0 300) = [0; 100; 200]
  /\ tick_steps tr = [0; 1; 2; 3]
  /\ filter is_image tr = [].
Proof.
  cbv zeta. repeat split; vm_compute; reflexivity.
Qed.

Lemma eval_zero_groups_raises_witness :
  1 <= 4 /\ eval_groups scenario_short_eval = 0
  /\ fst (fst (test_loop q_softmax q_f1_metric scenario_short_eval))
     = Raise ZeroDivisionError
  /\ fst (fst (train_epoch q_softmax q_f1_metric 0 tt scenario_short_eval))
     = Raise ZeroDivisionError.
Proof.
  assert (Hd : 1 <= batch_size_divider (settings scenario_short_eval)) by (cbn; lia).
  assert (Hg : eval_groups scenario_short_eval = 0) by reflexivity.
  assert (Hn : 1 <= len (train_dataloader scenario_short_eval)) by (cbn; lia).
  destruct (eval_zero_groups_raises q_softmax q_f1_metric scenario_short_eval 0 Hd Hg)
    as [Ht He].
  split; [exact Hd|split; [exact Hg|split; [exact Ht|]]].
  exact (proj1 (He Hn)).
Defined.

Lemma eval_counter_uses_train_length_witness :
  1 <= 4
  /\ fst (fst (test_loop q_softmax q_f1_metric scenario_mismatch))
     = Ok (PyFloat (fdiv (sum_from (of_int 0)
                            (map (eval_loss 4) (test_dataloader scenario_mismatch)))
                         (of_int 3)), 3)
  /\ len (closing 4 5 8) = 3 /\ len (closing 4 8 8) = 2.
Proof.
  assert (Hd : 1 <= batch_size_divider (settings scenario_mismatch)) by (cbn; lia).
  destruct (eval_counter_uses_train_length q_softmax q_f1_metric scenario_mismatch Hd)
    as (_ & _ & Hc & _).
  split; [exact Hd|split; [|split]].
  - vm_compute. reflexivity.
  - exact Hc.
  - reflexivity.
Defined.

Lemma epoch_f1_is_normalised_mean_witness :
  runnable scenario_f1
  /\ (exists v : Q,
        f1 (snd (fst (train_epoch q_softmax q_f1_metric 0 tt scenario_f1))) = Tensor v
        /\ (v == 1)%Q
        /\ In (AddScalar "F1/test" (Tensor v) 0)
             (snd (train_epoch q_softmax q_f1_metric 0 tt scenario_f1))).
Proof.
  assert (Hr : runnable scenario_f1).
  { unfold runnable. vm_compute. repeat split; intro; discriminate. }
  destruct (epoch_f1_is_normalised_mean q_softmax q_f1_metric 0 Hr)
    as (_ & _ & Hf & _ & Hs).
  split; [exact Hr|].
  eexists. split; [exact Hf|split].
  - vm_compute. reflexivity.
  - exact (Hs eq_refl).
Defined.

Lemma train_resumes_after_checkpoint_witness :
  runnable scenario_resume
  /\ fst (fst (train q_softmax q_f1_metric 3 scenario_resume)) = Ok tt
  /\ filter is_epoch_event (snd (train q_softmax q_f1_metric 3 scenario_resume))
     = [PrintEpoch 4; SaveCheckpoint 4; PrintEpoch 5; SaveCheckpoint 5]
  /\ filter is_epoch_event (snd (train q_softmax q_f1_metric (-1) scenario_resume))
     = [PrintEpoch 0; SaveCheckpoint 0; PrintEpoch 1; SaveCheckpoint 1].
Proof.
  assert (Hr : runnable scenario_resume).
  { unfold runnable. vm_compute. repeat split; intro; discriminate. }
  split; [exact Hr|].
  destruct (proj2 (train_resumes_after_checkpoint q_softmax q_f1_metric 3
                     scenario_resume) Hr) as [Hok Hev].
  destruct (proj2 (train_resumes_after_checkpoint q_softmax q_f1_metric (-1)
                     scenario_resume) Hr) as [_ Hev0].
  split; [exact Hok|split; [exact Hev|exact Hev0]].
Defined.

Lemma train_restarts_step_counter_witness :
  global_train_index scenario_resume = 50
  /\ write_statistics (settings scenario_resume) = true
  /\ tick_steps (snd (train q_softmax q_f1_metric 3 scenario_resume)) = [0; 1]
  /\ tick_steps (snd (train q_softmax q_f1_metric (-1) scenario_resume)) = [0; 1]
  /\ (exists rest,
        tick_steps (snd (train q_softmax q_f1_metric 3 scenario_resume)) = 0 :: rest).
Proof.
  assert (Hw : write_statistics (settings scenario_resume) = true) by reflexivity.
  assert (Hd : 1 <= batch_size_divider (settings scenario_resume)) by (cbn; lia).
  assert (Hn : 1 <= len (train_dataloader scenario_resume)) by (cbn; lia).
  assert (He : 1 <= self_epochs scenario_resume) by (cbn; lia).
  destruct (train_restarts_step_counter q_softmax q_f1_metric 3 scenario_resume)
    as (H3 & _ & Hz).
  destruct (train_restarts_step_counter q_softmax q_f1_metric (-1) scenario_resume)
    as (H0 & _).
  split; [reflexivity|split; [exact Hw|split; [|split]]].
  - rewrite H3. vm_compute. reflexivity.
  - rewrite H0. vm_compute. reflexivity.
  - exact (Hz Hw Hd Hn He).
Defined.

Lemma init_rejects_invalid_micro_batch_witness :
  batch_size_divider scenario_settings <> 0
  /\ batch_size scenario_settings / batch_size_divider scenario_settings < 1
  /\ __init__ q_dataset_len q_load scenario_settings 100%nat 20%nat = Raise ValueError.
Proof.
  assert (Hd : batch_size_divider scenario_settings <> 0) by (cbn; lia).
  assert (Hb : batch_size scenario_settings / batch_size_divider scenario_settings < 1)
    by (vm_compute; reflexivity).
  split; [exact Hd|split; [exact Hb|]].
  exact (proj1 (proj2 (init_rejects_invalid_micro_batch q_dataset_len q_load
                         scenario_settings 100%nat 20%nat)) Hd Hb).
Defined.

(** * Further properties of the orchestrator *)


Lemma eval_groups_pos_iff (d n m : Z) :
  1 <= d -> 0 <= m ->
  (1 <= len (closing d n m) <-> d <= m \/ 1 <= n <= m).
Proof.
  intros Hd Hm. unfold closing, range.
  rewrite closing_prefix_count by exact Hd.
  replace (Z.of_nat (Z.to_nat (m - 0))) with m by lia.
  assert (Hq0 : 0 <= m / d) by (apply Z.div_pos; lia).
  assert (Hq1 : 1 <= m / d <-> d <= m).
  { split; intros Hx.
    - destruct (Z.lt_ge_cases m d) as [Hlt|Hge]; [|exact Hge].
      rewrite Z.div_small in Hx by lia. lia.
    - apply Z.div_le_lower_bound; lia. }
  assert (Hk : n mod d = 0 -> 1 <= n -> d <= n).
  { intros Hz Hn. destruct (Z.lt_ge_cases n d) as [Hlt|Hge]; [|exact Hge].
    rewrite Z.mod_small in Hz by lia. lia. }
  generalize dependent (m / d). intros q Hq0 Hq1.
  destruct (Z.leb_spec 1 n) as [L1|L1], (Z.leb_spec n m) as [L2|L2],
    (Z.eqb_spec (n mod d) 0) as [Hz|Hz]; cbn [andb negb]; lia.
Qed.

Section EpochOutcome.
Variable F : Type.
Context {float_ops : Float F}.
Variable T : Type.
Variable softmax : T -> T.
Variable f1_metric : T -> T -> F.
Context {strategy : Strategy F T}.

Lemma train_epoch_train_raises (self : trainer F T) (epoch : Z) :
  train_dataloader self = [] ->
  fst (fst (train_epoch softmax f1_metric epoch tt self)) = Raise ZeroDivisionError.
Proof.
  intros E. unfold train_epoch. rewrite bind_emit. unfold bind.
  rewrite (train_loop_empty self E). reflexivity.
Qed.

Lemma train_epoch_eval_raises (self : trainer F T) (epoch : Z) :
  1 <= batch_size_divider (settings self) ->
  1 <= len (train_dataloader self) ->
  eval_groups self = 0 ->
  fst (fst (train_epoch softmax f1_metric epoch tt self)) = Raise ZeroDivisionError.
Proof.
  intros Hd Hn Hg.
  rewrite (train_epoch_zero softmax f1_metric self epoch Hd Hn Hg). reflexivity.
Qed.

Lemma eval_groups_nonneg (self : trainer F T) : 0 <= eval_groups self.
Proof. unfold eval_groups, len. lia. Qed.

(** A run whose loops do not raise: it returns and its epochs all complete. *)
Lemma train_runnable_events (prev_epoch : Z) (self : trainer F T) :
  let start := if 0 <=? prev_epoch then prev_epoch + 1 else 0 in
  runnable self ->
  fst (fst (train softmax f1_metric prev_epoch self)) = Ok tt
  /\ filter is_epoch_event (snd (train softmax f1_metric prev_epoch self)) =
       completed (range start (start + self_epochs self)).
Proof.
  intros start Hrun.
  pose proof (train_eq softmax f1_metric prev_epoch self) as E.
  cbv zeta in E. fold start in E.
  set (es := range start (start + self_epochs self)) in *.
  set (run := for_each (train_epoch softmax f1_metric) es tt
                (set_global_train_index 0 self)) in E.
  pose proof (epochs_ok softmax f1_metric es
                (self := set_global_train_index 0 self) Hrun) as Hok.
  fold run in Hok.
  destruct (epochs_events softmax f1_metric es (set_global_train_index 0 self))
    as (n & Hn & Hr).
  fold run in Hn, Hr. rewrite Hok in Hn, Hr.
  rewrite E. cbn [fst snd filter is_epoch_event]. split; [exact Hok|].
  rewrite Hn, Hr, firstn_all, app_nil_r. reflexivity.
Qed.

End EpochOutcome.

Section LoopFrames.
Variable F : Type.
Context {float_ops : Float F}.
Variable T : Type.
Variable softmax : T -> T.
Variable f1_metric : T -> T -> F.
Context {strategy : Strategy F T}.

(** X1.  Whether it returns or raises, the evaluation loop calls nothing
    but the progress bar, the evaluation hook, softmax and the F1 metric: no
    backward pass, no call on the optimizer, the scaler, the summary writer
    or the checkpoint gateway, and no print.  Of the trainer it assigns
    [self.f1] only; besides [self.f1], only the diagnostic snapshot, which
    the evaluation hook may write, can differ afterwards. *)
Theorem test_loop_only_updates_f1 (self : trainer F T) :
  let out := test_loop softmax f1_metric self in
  filter (fun e => negb (is_evaluation_call e)) (snd out) = []
  /\ snd (fst out) =
     set_f1 (f1 (snd (fst out))) (set_snapshot (snapshot (snd (fst out))) self).
Proof.
  intros out.
  pose proof (keeps_test_loop_f1 softmax f1_metric) as K.
  destruct (K self Logic.I) as (_ & H2 & H3).
  split; [exact H3|exact H2].
Qed.


(** X3.  Whether it returns or raises, the training loop assigns no field
    of the trainer but the global step counter, and never decreases it;
    besides the counter, only the diagnostic snapshot, which the training
    hook may write, can differ afterwards: the settings, the number of
    epochs, [self.f1] and the loaders are as they were.  (What the loop does
    to the model, the optimizer and the scaler is in its trace, as the calls
    it makes on them.) *)
Theorem train_loop_only_advances_counter (self : trainer F T) :
  let out := train_loop self in
  snd (fst out) =
    set_global_train_index (global_train_index (snd (fst out)))
      (set_snapshot (snapshot (snd (fst out))) self)
  /\ global_train_index self <= global_train_index (snd (fst out)).
Proof.
  intros out.
  pose proof (keeps_train_loop_counter (F:=F) (T:=T)) as K.
  destruct (K self Logic.I) as (_ & H2 & _).
  exact H2.
Qed.

(** X4.  With a divider [d >= 1], a training epoch over [N] micro-batches
    issues exactly [ceil(N / d)] optimizer commits, none when the loader is
    empty. *)
Theorem train_loop_commit_count (self : trainer F T) :
  let d := batch_size_divider (settings self) in
  let n := len (train_dataloader self) in
  1 <= d ->
  Z.of_nat (List.length (filter is_commit (snd (train_loop self)))) = (n + d - 1) / d.
Proof.
  intros d n Hd. subst d n.
  destruct (train_dataloader self) as [|b rest] eqn:E.
  - rewrite (train_loop_empty self E). cbn.
    rewrite Z.div_small by lia. reflexivity.
  - assert (Hne : train_dataloader self <> []) by (rewrite E; discriminate).
    assert (Hn : 1 <= len (train_dataloader self)).
    { rewrite E. unfold len. cbn [List.length]. lia. }
    rewrite (train_loop_spec self Hd Hne). cbn [snd filter is_commit].
    unfold enumerate.
    rewrite commit_count_micro, <- range_len.
    fold (closing (batch_size_divider (settings self)) (len (train_dataloader self))
            (len (train_dataloader self))).
    fold (len (closing (batch_size_divider (settings self))
                 (len (train_dataloader self)) (len (train_dataloader self)))).
    rewrite (closing_count Hd Hn), <- E.
    replace (len (train_dataloader self) + batch_size_divider (settings self) - 1)
      with (len (train_dataloader self) - 1 + 1 * batch_size_divider (settings self))
      by lia.
    rewrite Z.div_add by lia. reflexivity.
Qed.

(** X6.  With [write_statistics] off, a call to [train] writes no scalar, no
    histogram and no image to the summary writer, in the loops or at the end
    of an epoch; the model graph is written all the same, first of all. *)
Theorem train_without_statistics (prev_epoch : Z) (self : trainer F T) :
  write_statistics (settings self) = false ->
  filter is_statistics (snd (train softmax f1_metric prev_epoch self)) = []
  /\ hd_error (snd (train softmax f1_metric prev_epoch self)) = Some AddGraph.
Proof.
  intros Hw. split.
  - pose proof (keeps_train_statistics_off softmax f1_metric prev_epoch) as K.
    exact (proj2 (proj2 (K self Hw))).
  - rewrite train_eq. reflexivity.
Qed.

(** X7.  Every call to [train] begins with the same four calls, in this
    order: the model graph, the optimizer created with the configured
    learning rate, the checkpoint load, and the initialisation hook, told
    whether a checkpoint was found.  None of them is repeated afterwards: the
    hook runs once per call, before the first epoch. *)
Theorem train_prologue (prev_epoch : Z) (self : trainer F T) :
  exists rest,
    snd (train softmax f1_metric prev_epoch self) =
      [AddGraph; CreateOptimizer (learning_rate (settings self));
       LoadLastCheckpoint prev_epoch; TrainInit (0 <=? prev_epoch)] ++ rest
    /\ filter is_prologue rest = [].
Proof.
  rewrite train_eq. cbn [snd]. eexists. split; [reflexivity|].
  match goal with
  | |- context [for_each _ ?es tt ?s0] =>
      pose proof (keeps_epochs_no_prologue softmax f1_metric es) as K;
      exact (proj2 (proj2 (K s0 Logic.I)))
  end.
Qed.

(** X8.  A call to [train] never changes the settings, the number of epochs
    or the two loaders, whether it returns or raises; in particular a trainer
    whose loops do not raise keeps that property for the next call. *)
Theorem train_keeps_configuration (prev_epoch : Z) (self : trainer F T) :
  let self' := snd (fst (train softmax f1_metric prev_epoch self)) in
  settings self' = settings self
  /\ self_epochs self' = self_epochs self
  /\ train_dataloader self' = train_dataloader self
  /\ test_dataloader self' = test_dataloader self
  /\ (runnable self -> runnable self').
Proof.
  intros self'.
  pose proof (keeps_train_config softmax f1_metric prev_epoch) as K.
  destruct (K self Logic.I) as (_ & (H1 & H2 & H3 & H4) & _).
  fold self' in H1, H2, H3, H4.
  split; [exact H1|split; [exact H2|split; [exact H3|split; [exact H4|]]]].
  unfold runnable, eval_groups. rewrite H1, H3, H4. exact (fun H => H).
Qed.

(** X13.  With a divider [d >= 1], the evaluation loop over [M] micro-batches
    raises exactly when [M < d] and the length [N] of the training loader is
    not among [1 .. M]; so it always raises on an empty evaluation loader.
    An epoch returns exactly when the training loader is not empty and the
    evaluation loop does not raise. *)
Theorem epoch_completes_iff (self : trainer F T) (epoch : Z) :
  let d := batch_size_divider (settings self) in
  let n := len (train_dataloader self) in
  let m := len (test_dataloader self) in
  1 <= d ->
  (fst (fst (test_loop softmax f1_metric self)) = Raise ZeroDivisionError
   <-> m < d /\ (n < 1 \/ m < n))
  /\ (fst (fst (train_epoch softmax f1_metric epoch tt self)) = Ok tt
      <-> 1 <= n /\ (d <= m \/ n <= m)).
Proof.
  intros d n m Hd.
  assert (Hm : 0 <= m) by (unfold m, len; lia).
  pose proof (eval_groups_pos_iff n Hd Hm) as Hpos.
  change (len (closing d n m)) with (eval_groups self) in Hpos.
  pose proof (eval_groups_nonneg self) as Hge.
  split; split.
  - intros Hr.
    destruct (Z.eq_dec (eval_groups self) 0) as [Hz|Hz].
    + lia.
    + rewrite test_loop_ok in Hr by (fold d; lia). discriminate.
  - intros Hc.
    assert (Hz : eval_groups self = 0) by lia.
    rewrite test_loop_zero by (fold d; lia). reflexivity.
  - intros Hok.
    destruct (Z.lt_ge_cases n 1) as [Hlt|Hn].
    + assert (E : train_dataloader self = [])
        by (apply length_zero_iff_nil; unfold n, len in Hlt; lia).
      rewrite (train_epoch_train_raises softmax f1_metric self epoch E) in Hok.
      discriminate.
    + destruct (Z.eq_dec (eval_groups self) 0) as [Hz|Hz].
      * rewrite (train_epoch_eval_raises softmax f1_metric self epoch) in Hok;
          [discriminate|fold d; lia|exact Hn|exact Hz].
      * lia.
  - intros [Hn Hc].
    assert (Hrun : runnable self) by (repeat split; fold d n; lia).
    rewrite (train_epoch_spec softmax f1_metric epoch Hrun). reflexivity.
Qed.

End LoopFrames.

Section GroupSizes.
Variable F : Type.
Context {float_ops : Float F}.
Variable T : Type.
Context {strategy : Strategy F T}.
Variable self : trainer F T.

Lemma group_sizes_unobserved (c : Z) (t tr : list (event F T)) :
  unobserved t -> group_sizes_from c (t ++ tr) = group_sizes_from c tr.
Proof.
  induction 1 as [|e t [He|He] _ IH]; [reflexivity| |];
    destruct e; try discriminate He; exact IH.
Qed.

Lemma group_sizes_report (c : Z) (x : F) (g : Z) (s : Snapshot T)
  (tr : list (event F T)) :
  group_sizes_from c (report_events x g s ++ tr) = group_sizes_from c tr.
Proof.
  unfold report_events. rewrite <- app_assoc. cbn [app group_sizes_from].
  apply group_sizes_unobserved, unobserved_report.
Qed.

Lemma group_sizes_commit (c : Z) (amp : bool) (tr : list (event F T)) :
  group_sizes_from c (commit_events amp ++ tr) = c :: group_sizes_from 0 tr.
Proof. destruct amp; reflexivity. Qed.

Lemma group_sizes_step (c i : Z) (b : batch T) (tr : list (event F T)) :
  group_sizes_from c (micro_trace self (i, b) ++ tr) =
    if closes (batch_size_divider (settings self)) (len (train_dataloader self)) i
    then (c + 1) :: group_sizes_from 0 tr
    else group_sizes_from (c + 1) tr.
Proof.
  unfold micro_trace. cbn [app group_sizes_from].
  destruct (closes _ _ i); [|reflexivity].
  rewrite <- app_assoc.
  destruct (_ && _).
  - rewrite group_sizes_report, group_sizes_commit. reflexivity.
  - cbn [app]. rewrite group_sizes_commit. reflexivity.
Qed.

(** Each commit applies the micro-batches since the last group boundary. *)
Lemma group_sizes_micro (bs : list (batch T)) :
  forall i c : Z,
    1 <= batch_size_divider (settings self) ->
    0 <= i ->
    i + len bs = len (train_dataloader self) ->
    c = i mod batch_size_divider (settings self) ->
    group_sizes_from c (flat_map (micro_trace self) (enumerate_from i bs)) =
      map (fun j => j mod batch_size_divider (settings self) + 1)
        (filter (closes (batch_size_divider (settings self)) (len (train_dataloader self)))
           (zrange i (List.length bs))).
Proof.
  induction bs as [|b bs IH]; intros i c Hd Hi Hn Hc; [reflexivity|].
  cbn [enumerate_from flat_map List.length zrange filter].
  rewrite group_sizes_step.
  assert (Hn' : i + 1 + len bs = len (train_dataloader self))
    by (unfold len in *; cbn [List.length] in Hn; lia).
  destruct (closes _ _ i) eqn:Hcl.
  - cbn [map]. rewrite Hc. f_equal.
    destruct bs as [|b' bs']; [reflexivity|].
    apply IH; try lia.
    unfold closes in Hcl.
    destruct (Z.eqb_spec (i + 1) (len (train_dataloader self))) as [E|_].
    + unfold len in *. cbn [List.length] in Hn'. lia.
    + rewrite orb_false_r in Hcl. apply Z.eqb_eq in Hcl. now rewrite Hcl.
  - apply IH; try lia.
    unfold closes in Hcl. apply orb_false_iff in Hcl as [Hm _].
    apply Z.eqb_neq in Hm.
    destruct (div_succ_open Hd Hi Hm) as [_ Hr]. lia.
Qed.

(** Every micro-batch is applied by exactly one commit. *)
Lemma group_sizes_total (bs : list (batch T)) :
  forall i c : Z,
    i + len bs = len (train_dataloader self) ->
    fold_right Z.add 0
      (group_sizes_from c (flat_map (micro_trace self) (enumerate_from i bs))) =
      match bs with
      | [] => 0
      | _ :: _ => c + len bs
      end.
Proof.
  induction bs as [|b bs IH]; intros i c Hn; [reflexivity|].
  cbn [enumerate_from flat_map].
  rewrite group_sizes_step.
  assert (Hn' : i + 1 + len bs = len (train_dataloader self))
    by (unfold len in *; cbn [List.length] in Hn; lia).
  destruct (closes _ _ i) eqn:Hcl.
  - cbn [fold_right]. rewrite (IH (i + 1) 0 Hn').
    destruct bs; unfold len; cbn [List.length]; lia.
  - rewrite (IH (i + 1) (c + 1) Hn').
    destruct bs as [|b' bs'].
    + unfold closes in Hcl. apply orb_false_iff in Hcl as [_ He].
      apply Z.eqb_neq in He. unfold len in *. cbn [List.length] in Hn'. lia.
    + unfold len. cbn [List.length]. lia.
Qed.

End GroupSizes.

Lemma last_zrange (a : Z) (n : nat) (default : Z) :
  last (zrange a (S n)) default = a + Z.of_nat n.
Proof.
  rewrite zrange_snoc. apply last_last.
Qed.

Lemma enumerate_from_nth {A : Type} (l : list A) :
  forall (k : Z) (j : nat) (x : A),
    nth_error l j = Some x -> In (k + Z.of_nat j, x) (enumerate_from k l).
Proof.
  induction l as [|y l IH]; intros k j x Hj; [destruct j; discriminate|].
  destruct j as [|j]; cbn [nth_error enumerate_from In] in *.
  - left. injection Hj as ->. f_equal. lia.
  - right. replace (k + Z.of_nat (S j)) with (k + 1 + Z.of_nat j) by lia.
    apply IH, Hj.
Qed.

Section Checkpoints.
Variable F : Type.
Variable T : Type.

Lemma checkpoints_epoch_events (tr : list (event F T)) :
  checkpoints (filter is_epoch_event tr) = checkpoints tr.
Proof.
  induction tr as [|e tr IH]; [reflexivity|].
  unfold checkpoints in *.
  destruct e; cbn [filter is_epoch_event flat_map app]; rewrite ?IH; reflexivity.
Qed.

Lemma checkpoints_completed (es : list Z) :
  checkpoints (completed (F:=F) (T:=T) es) = es.
Proof.
  induction es as [|e es IH]; [reflexivity|].
  unfold checkpoints, completed in *. cbn [flat_map app]. now rewrite IH.
Qed.

End Checkpoints.

Section RunTraces.
Variable F : Type.
Context {float_ops : Float F}.
Variable T : Type.
Variable softmax : T -> T.
Variable f1_metric : T -> T -> F.
Context {strategy : Strategy F T}.

(** X5.  With a divider [d >= 1], the optimizer commits of a training epoch
    apply, in order, the backward passes accumulated since the previous
    commit: [i mod d + 1] of them at the closing micro-batch [i].  No commit
    applies more than [d] micro-batches or none, and together the commits
    apply each of the [N] micro-batches once. *)
Theorem commits_cover_groups (self : trainer F T) :
  let d := batch_size_divider (settings self) in
  let n := len (train_dataloader self) in
  let sizes := group_sizes (snd (train_loop self)) in
  1 <= d ->
  sizes = map (fun i => i mod d + 1) (closing d n n)
  /\ Forall (fun s => 1 <= s <= d) sizes
  /\ fold_right Z.add 0 sizes = n.
Proof.
  intros d n sizes Hd.
  assert (Ht : group_sizes (snd (train_loop self)) =
               group_sizes
                 (flat_map (micro_trace self) (enumerate (train_dataloader self)))).
  { rewrite (train_loop_trace self Hd). reflexivity. }
  assert (Hs : sizes = map (fun i => i mod d + 1) (closing d n n)).
  { unfold sizes. rewrite Ht. unfold group_sizes, enumerate.
    assert (Hc : 0 = 0 mod batch_size_divider (settings self))
      by (symmetry; apply Z.mod_0_l; fold d; lia).
    rewrite (group_sizes_micro self (train_dataloader self) (i := 0) (c := 0)
               Hd ltac:(lia) ltac:(lia) Hc).
    unfold closing, n. rewrite range_len. reflexivity. }
  split; [exact Hs|split].
  - rewrite Hs. apply Forall_forall. intros s Hin.
    apply in_map_iff in Hin as (i & <- & _).
    pose proof (Z.mod_pos_bound i d ltac:(lia)). lia.
  - unfold sizes. rewrite Ht. unfold group_sizes, enumerate.
    rewrite (group_sizes_total self (train_dataloader self) 0 0) by lia.
    unfold n. destruct (train_dataloader self); [reflexivity|lia].
Qed.

(** X9.  A run whose loops do not raise and that executes at least one
    epoch leaves, as its last checkpoint, the epoch before the one the next
    run starts with: resuming from it, the next run returns and the
    checkpoints of the two runs are consecutive, without a gap or a
    repetition. *)
Theorem resumed_run_continues_numbering (prev_epoch : Z) (self : trainer F T) :
  let start := if 0 <=? prev_epoch then prev_epoch + 1 else 0 in
  let e := self_epochs self in
  let first := train softmax f1_metric prev_epoch self in
  let resume := last_checkpoint (snd first) in
  let second := train softmax f1_metric resume (snd (fst first)) in
  runnable self -> 1 <= e ->
  resume = start + e - 1
  /\ fst (fst second) = Ok tt
  /\ checkpoints (snd first) ++ checkpoints (snd second)
     = range start (start + 2 * e).
Proof.
  intros start e first resume second Hrun He.
  destruct (train_runnable_events softmax f1_metric prev_epoch Hrun) as [_ Hev].
  fold start e first in Hev.
  assert (Hstart : 0 <= start) by (unfold start; destruct (Z.leb_spec 0 prev_epoch); lia).
  assert (Hc1 : checkpoints (snd first) = range start (start + e)).
  { rewrite <- checkpoints_epoch_events, Hev. apply checkpoints_completed. }
  assert (Hres : resume = start + e - 1).
  { unfold resume, last_checkpoint. rewrite Hc1. unfold range.
    replace (Z.to_nat (start + e - start)) with (S (Z.to_nat (e - 1))) by lia.
    rewrite last_zrange. lia. }
  pose proof (keeps_train_config softmax f1_metric prev_epoch) as K.
  destruct (K self Logic.I) as (_ & (H1 & H2 & H3 & H4) & _).
  fold first in H1, H2, H3, H4.
  assert (Hrun2 : runnable (snd (fst first))).
  { unfold runnable, eval_groups. rewrite H1, H3, H4. exact Hrun. }
  destruct (train_runnable_events softmax f1_metric resume Hrun2) as [Hok2 Hev2].
  fold second in Hok2, Hev2.
  split; [exact Hres|split; [exact Hok2|]].
  rewrite <- (checkpoints_epoch_events (snd second)), Hev2, checkpoints_completed.
  rewrite Hc1, H2. fold e.
  replace (if 0 <=? resume then resume + 1 else 0) with (start + e)
    by (destruct (Z.leb_spec 0 resume); lia).
  unfold range.
  replace (Z.to_nat (start + e - start)) with (Z.to_nat e) by lia.
  replace (Z.to_nat (start + e + e - (start + e))) with (Z.to_nat e) by lia.
  replace (Z.to_nat (start + 2 * e - start)) with (Z.to_nat e + Z.to_nat e)%nat by lia.
  rewrite zrange_app. do 2 f_equal. lia.
Qed.

(** X10.  In a run that starts without a checkpoint, with statistics on and
    loops that do not raise, the tag [Loss/train] is written twice under the
    key [0]: once by the first reporting tick, keyed by the global step, with
    the accumulated loss of the first group, and once at the end of the first
    epoch, keyed by the epoch, with the epoch loss. *)
Theorem loss_train_tag_shared (prev_epoch : Z) (self : trainer F T) :
  let d := batch_size_divider (settings self) in
  let bs := train_dataloader self in
  let tr := snd (train softmax f1_metric prev_epoch self) in
  runnable self ->
  write_statistics (settings self) = true ->
  1 <= self_epochs self ->
  prev_epoch < 0 ->
  In (AddScalar "Loss/train"
        (PyFloat (sum_from fzero (map (norm_loss d) (firstn (Z.to_nat d) bs)))) 0) tr
  /\ In (AddScalar "Loss/train" (epoch_train_loss self) 0) tr.
Proof.
  intros d bs tr Hrun Hw He Hp.
  set (s0 := set_global_train_index 0 self).
  assert (Htr : exists t, tr = [AddGraph; CreateOptimizer (learning_rate (settings self));
                                LoadLastCheckpoint prev_epoch; TrainInit (0 <=? prev_epoch)]
                               ++ epoch_trace softmax f1_metric s0 0 ++ t).
  { pose proof (train_eq softmax f1_metric prev_epoch self) as E. cbv zeta in E.
    replace (if 0 <=? prev_epoch then prev_epoch + 1 else 0) with 0 in E
      by (destruct (Z.leb_spec 0 prev_epoch); lia).
    unfold range in E.
    replace (Z.to_nat (0 + self_epochs self - 0))
      with (S (Z.to_nat (self_epochs self - 1))) in E by lia.
    cbn [zrange for_each] in E.
    unfold tr. rewrite E. cbn [snd].
    match goal with
    | |- context [bind (train_epoch softmax f1_metric 0 tt) ?k ?s] =>
        destruct (bind_trace_prefix (train_epoch softmax f1_metric 0 tt) k s)
          as [t Ht]; rewrite Ht
    end.
    fold s0. rewrite (train_epoch_spec softmax f1_metric (self := s0) 0 Hrun).
    cbn [snd]. exists t. reflexivity. }
  destruct Htr as [t Ht].
  destruct Hrun as (Hd & Hn & Hg). fold d in Hd. fold bs in Hn.
  assert (Hin : forall x, In x (epoch_trace softmax f1_metric s0 0) -> In x tr).
  { intros x Hx. rewrite Ht. apply in_or_app. right. apply in_or_app. left. exact Hx. }
  split; apply Hin; unfold epoch_trace; right; right; apply in_or_app.
  - left.
    set (i0 := Z.min d (len bs) - 1).
    assert (Hi0 : 0 <= i0 < len bs) by (unfold i0; lia).
    destruct (nth_error bs (Z.to_nat i0)) as [b0|] eqn:Hb0.
    2:{ apply nth_error_None in Hb0. unfold len in Hi0. lia. }
    apply in_flat_map. exists (i0, b0). split.
    + pose proof (enumerate_from_nth bs 0 (Z.to_nat i0) Hb0) as Hin0.
      replace (0 + Z.of_nat (Z.to_nat i0)) with i0 in Hin0 by lia. exact Hin0.
    + unfold micro_trace.
      change (batch_size_divider (settings s0)) with d.
      change (train_dataloader s0) with bs.
      change (write_statistics (settings s0)) with (write_statistics (settings self)).
      change (global_train_index s0) with 0.
      assert (Hcl : closes d (len bs) i0 = true).
      { unfold closes, i0. apply orb_true_iff.
        destruct (Z.le_gt_cases d (len bs)) as [Hle|Hgt].
        - left. apply Z.eqb_eq. rewrite Z.min_l by lia.
          replace (d - 1 + 1) with d by lia. apply Z.mod_same. lia.
        - right. apply Z.eqb_eq. lia. }
      assert (Hq : i0 / d = 0) by (apply Z.div_small; unfold i0; lia).
      rewrite Hcl, Hw, Hq. cbn [andb is_tick Z.modulo Z.div_eucl Z.eqb fst snd].
      right. right. apply in_or_app. left. unfold report_events. cbn [app].
      right. left.
      unfold item, group_loss, group_batches. do 3 f_equal.
      rewrite Z.mod_small by (unfold i0; lia).
      replace (Z.to_nat (i0 - i0)) with 0%nat by lia. cbn [skipn].
      destruct (Z.le_gt_cases d (len bs)) as [Hle|Hgt].
      * do 3 f_equal. unfold i0. lia.
      * rewrite !firstn_all2; [reflexivity| |]; unfold i0, len in *; lia.
  - right. right. apply in_or_app. left. cbv zeta.
    change (write_statistics (settings s0)) with (write_statistics (settings self)).
    rewrite Hw. left. reflexivity.
Qed.

End RunTraces.


Section RunEdges.
Variable F : Type.
Context {float_ops : Float F}.
Variable T : Type.
Variable Dataset : Type.
Variable dataset_len : Dataset -> Z.
Variable load : Dataset -> Z -> list (batch T).
Variable softmax : T -> T.
Variable f1_metric : T -> T -> F.
Context {strategy : Strategy F T}.

(** X14.  A call to [train] with no epoch to run (a configured number of
    epochs of zero or less) still writes the graph, creates the optimizer,
    loads the checkpoint and calls the initialisation hook, resets the step
    counter to [0], and returns without running an epoch or saving a
    checkpoint. *)
Theorem train_without_epochs (prev_epoch : Z) (self : trainer F T) :
  self_epochs self <= 0 ->
  train softmax f1_metric prev_epoch self =
    (Ok tt, set_global_train_index 0 self,
     [AddGraph; CreateOptimizer (learning_rate (settings self));
      LoadLastCheckpoint prev_epoch; TrainInit (0 <=? prev_epoch)]).
Proof.
  intros He. rewrite train_eq. unfold range.
  match goal with
  | |- context [Z.to_nat ?z] => replace (Z.to_nat z) with 0%nat by lia
  end.
  reflexivity.
Qed.

(** X15.  Taking the summary writer, the scaler, softmax and the metric to
    be created without error, construction succeeds exactly when the divider
    is not zero, the worker count is not negative, neither dataset is empty
    and the micro-batch size [batch_size // batch_size_divider] is at least
    1; the trainer it returns has both loaders built with that same
    micro-batch size, the configured number of epochs, [f1] and the step
    counter at [0] and no diagnostic snapshot. *)
Theorem init_succeeds_iff (st : Settings F) (train_dataset test_dataset : Dataset)
  (self : trainer F T) :
  __init__ dataset_len load st train_dataset test_dataset = Ok self
  <-> (batch_size_divider st <> 0
       /\ 0 <= data_loader_num_workers st
       /\ 1 <= dataset_len train_dataset
       /\ 1 <= dataset_len test_dataset
       /\ 1 <= batch_size st / batch_size_divider st
       /\ self = {| settings := st;
                     self_epochs := epochs st;
                     f1 := PyInt 0;
                     global_train_index := 0;
                     snapshot := no_snapshot;
                     train_dataloader :=
                       load train_dataset (batch_size st / batch_size_divider st);
                     test_dataloader :=
                       load test_dataset (batch_size st / batch_size_divider st) |}).
Proof.
  unfold __init__, py_floordiv, DataLoader.
  destruct (Z.eqb_spec (batch_size_divider st) 0) as [Hd|Hd].
  { split; [discriminate|]. intros (H & _). contradiction. }
  destruct (Z.ltb_spec (data_loader_num_workers st) 0) as [Hw|Hw].
  { split; [discriminate|]. intros (_ & H & _). lia. }
  destruct (Z.leb_spec (dataset_len train_dataset) 0) as [Ht|Ht].
  { split; [discriminate|]. intros (_ & _ & H & _). lia. }
  destruct (Z.leb_spec (batch_size st / batch_size_divider st) 0) as [Hb|Hb].
  { split; [discriminate|]. intros (_ & _ & _ & _ & H & _). lia. }
  destruct (Z.leb_spec (dataset_len test_dataset) 0) as [Hs|Hs].
  { split; [discriminate|]. intros (_ & _ & _ & H & _). lia. }
  split.
  - intros H. injection H as <-. repeat split; (assumption || lia).
  - intros (_ & _ & _ & _ & _ & ->). reflexivity.
Qed.

End RunEdges.

(** * The further properties on the concrete scenarios *)


Lemma train_loop_commit_count_witness :
  1 <= 4
  /\ Z.of_nat (List.length (filter is_commit (snd (train_loop scenario_ten)))) = 3.
Proof.
  assert (Hd : 1 <= batch_size_divider (settings scenario_ten)) by (cbn; lia).
  split; [exact Hd|].
  exact (train_loop_commit_count scenario_ten Hd).
Defined.

Lemma commits_cover_groups_witness :
  1 <= 4
  /\ group_sizes (snd (train_loop scenario_ten)) = [4; 4; 2].
Proof.
  assert (Hd : 1 <= batch_size_divider (settings scenario_ten)) by (cbn; lia).
  split; [exact Hd|].
  exact (proj1 (commits_cover_groups scenario_ten Hd)).
Defined.

Lemma train_without_statistics_witness :
  write_statistics (settings scenario_ten) = false
  /\ filter is_statistics (snd (train q_softmax q_f1_metric (-1) scenario_ten)) = []
  /\ hd_error (snd (train q_softmax q_f1_metric (-1) scenario_ten)) = Some AddGraph.
Proof.
  assert (Hw : write_statistics (settings scenario_ten) = false) by reflexivity.
  split; [exact Hw|].
  exact (train_without_statistics q_softmax q_f1_metric (-1) scenario_ten Hw).
Defined.

Lemma train_keeps_configuration_witness :
  runnable scenario_resume
  /\ runnable (snd (fst (train q_softmax q_f1_metric 3 scenario_resume))).
Proof.
  assert (Hr : runnable scenario_resume).
  { unfold runnable. vm_compute. repeat split; intro; discriminate. }
  split; [exact Hr|].
  destruct (train_keeps_configuration q_softmax q_f1_metric 3 scenario_resume)
    as (_ & _ & _ & _ & H).
  exact (H Hr).
Defined.

Lemma epoch_completes_iff_witness :
  1 <= 4
  /\ fst (fst (test_loop q_softmax q_f1_metric scenario_short_eval))
     = Raise ZeroDivisionError
  /\ fst (fst (train_epoch q_softmax q_f1_metric 0 tt scenario_ten)) = Ok tt.
Proof.
  assert (Hd : 1 <= batch_size_divider (settings scenario_short_eval)) by (cbn; lia).
  assert (Hd' : 1 <= batch_size_divider (settings scenario_ten)) by (cbn; lia).
  split; [exact Hd|split].
  - apply (proj1 (epoch_completes_iff q_softmax q_f1_metric scenario_short_eval 0 Hd)).
    cbn. lia.
  - apply (proj2 (epoch_completes_iff q_softmax q_f1_metric scenario_ten 0 Hd')).
    cbn. lia.
Defined.

Lemma resumed_run_continues_numbering_witness :
  runnable scenario_resume /\ 1 <= self_epochs scenario_resume
  /\ last_checkpoint (snd (train q_softmax q_f1_metric (-1) scenario_resume)) = 1
  /\ checkpoints (snd (train q_softmax q_f1_metric (-1) scenario_resume))
     ++ checkpoints
          (snd (train q_softmax q_f1_metric
                  (last_checkpoint (snd (train q_softmax q_f1_metric (-1) scenario_resume)))
                  (snd (fst (train q_softmax q_f1_metric (-1) scenario_resume)))))
     = [0; 1; 2; 3].
Proof.
  assert (Hr : runnable scenario_resume).
  { unfold runnable. vm_compute. repeat split; intro; discriminate. }
  assert (He : 1 <= self_epochs scenario_resume) by (cbn; lia).
  destruct (resumed_run_continues_numbering q_softmax q_f1_metric (-1) Hr He)
    as (H1 & _ & H3).
  split; [exact Hr|split; [exact He|split; [exact H1|exact H3]]].
Defined.

Lemma loss_train_tag_shared_witness :
  runnable scenario_resume
  /\ write_statistics (settings scenario_resume) = true
  /\ 1 <= self_epochs scenario_resume
  /\ -1 < 0
  /\ In (AddScalar "Loss/train" (PyFloat (0 + 1 / 2 + 1 / 2)%Q) 0)
        (snd (train q_softmax q_f1_metric (-1) scenario_resume))
  /\ In (AddScalar "Loss/train" (epoch_train_loss scenario_resume) 0)
        (snd (train q_softmax q_f1_metric (-1) scenario_resume)).
Proof.
  assert (Hr : runnable scenario_resume).
  { unfold runnable. vm_compute. repeat split; intro; discriminate. }
  assert (Hw : write_statistics (settings scenario_resume) = true) by reflexivity.
  assert (He : 1 <= self_epochs scenario_resume) by (cbn; lia).
  assert (Hp : -1 < 0) by lia.
  split; [exact Hr|split; [exact Hw|split; [exact He|split; [exact Hp|]]]].
  exact (loss_train_tag_shared q_softmax q_f1_metric Hr Hw He Hp).
Defined.



Lemma train_without_epochs_witness :
  self_epochs (q_trainer 0 4 false true 5 10 10) <= 0
  /\ train q_softmax q_f1_metric 7 (q_trainer 0 4 false true 5 10 10) =
       (Ok tt, set_global_train_index 0 (q_trainer 0 4 false true 5 10 10),
        [AddGraph; CreateOptimizer (1 # 1000)%Q; LoadLastCheckpoint 7; TrainInit true]).
Proof.
  assert (He : self_epochs (q_trainer 0 4 false true 5 10 10) <= 0) by (cbn; lia).
  split; [exact He|].
  exact (train_without_epochs q_softmax q_f1_metric 7 (q_trainer 0 4 false true 5 10 10) He).
Defined.

Lemma init_succeeds_iff_witness :
  __init__ q_dataset_len q_load scenario_valid_settings 100%nat 20%nat =
    Ok {| settings := scenario_valid_settings;
          self_epochs := 1;
          f1 := PyInt 0;
          global_train_index := 0;
          snapshot := no_snapshot;
          train_dataloader := q_load 100%nat 2;
          test_dataloader := q_load 20%nat 2 |}
  /\ __init__ q_dataset_len q_load scenario_valid_settings 0%nat 20%nat =
       Raise ValueError.
Proof.
  split; [|reflexivity].
  apply (proj2 (init_succeeds_iff q_dataset_len q_load scenario_valid_settings
                  100%nat 20%nat _)).
  repeat split; cbn; lia.
Defined.
